(** * Lens. backend: a shallow embedding of the REST handlers and models

    The development follows the layout of the repository:
    - [JS]: the few JavaScript primitives the handlers rely on
      (truthiness, [split], [trim], numbers with [Infinity]);
    - [Http]: the JSON envelope of the responses;
    - [User], [Portfolio], [Photo]: the Mongoose documents;
    - [Mongo]: the query filters built by the handlers and their matching;
    - one module per route file or helper.

    Collections are lists of documents in insertion order; [findOne] and
    [findById] return the first match. *)

From Stdlib Require Import List ZArith String Ascii Bool Lia Arith DecimalString.
From Stdlib Require Import Sorted Permutation.
Import ListNotations.

Set Implicit Arguments.
Set Warnings "-register-all".
Open Scope Z_scope.

Definition ObjectId := nat.

(** ** JavaScript primitives *)
Module JS.

(** [if (s)] on a possibly missing string: [undefined] and [''] are falsy. *)
Definition truthy (s : option string) : bool :=
  match s with
  | None => false
  | Some v => negb (String.eqb v EmptyString)
  end.

Definition is_space (c : ascii) : bool :=
  let n := nat_of_ascii c in
  Nat.eqb n 32 || (Nat.leb 9 n && Nat.leb n 13).

Fixpoint trimStart (s : string) : string :=
  match s with
  | String c s' => if is_space c then trimStart s' else s
  | EmptyString => EmptyString
  end.

Fixpoint trimEnd (s : string) : string :=
  match s with
  | EmptyString => EmptyString
  | String c s' =>
      match trimEnd s' with
      | EmptyString => if is_space c then EmptyString else String c EmptyString
      | t => String c t
      end
  end.

Definition trim (s : string) : string := trimEnd (trimStart s).

(** [s.split(sep)] for a one-character separator. *)
Fixpoint split (sep : ascii) (s : string) : list string :=
  match s with
  | EmptyString => [EmptyString]
  | String c s' =>
      if Ascii.eqb c sep then EmptyString :: split sep s'
      else match split sep s' with
           | [] => [String c EmptyString]
           | w :: ws => String c w :: ws
           end
  end.

Definition lower (c : ascii) : ascii :=
  let n := nat_of_ascii c in
  if Nat.leb 65 n && Nat.leb n 90 then ascii_of_nat (n + 32) else c.

Fixpoint toLowerCase (s : string) : string :=
  match s with
  | EmptyString => EmptyString
  | String c s' => String (lower c) (toLowerCase s')
  end.

Fixpoint includes (s q : string) : bool :=
  String.prefix q s ||
  match s with
  | EmptyString => false
  | String _ s' => includes s' q
  end.

(** What [new RegExp(q, 'i').test(s)] computes when [q] has no
    metacharacter: a case-insensitive substring test. *)
Definition includes_ci (q s : string) : bool :=
  includes (toLowerCase s) (toLowerCase q).

(** A JavaScript number as the handlers use it: an integer or [Infinity]. *)
Inductive Num := Fin (z : Z) | Infinity.

Definition lt (a b : Num) : bool :=
  match a, b with
  | Fin x, Fin y => Z.ltb x y
  | Fin _, Infinity => true
  | Infinity, _ => false
  end.

Definition ge (a b : Num) : bool :=
  match a, b with
  | Fin x, Fin y => Z.leb y x
  | Infinity, _ => true
  | Fin _, Infinity => false
  end.

Definition gt (a b : Num) : bool := lt b a.

(** Errors a handler can throw. *)
Inductive Error :=
| TypeError (msg : string)
| ReferenceError (msg : string)
| JsonWebTokenError (msg : string)
| PlainError (msg : string).

Definition message (e : Error) : string :=
  match e with
  | TypeError m | ReferenceError m | JsonWebTokenError m | PlainError m => m
  end.

End JS.

(** ** Responses *)
Module Http.

(** [res.status(s).json({success, message, data})], or [next(error)]:
    the error is handed to the central error middleware. *)
Inductive Response (A : Type) :=
| Json (status : Z) (success : bool) (message : string) (data : option A)
| Next (error : JS.Error).

Arguments Json {A} status success message data.
Arguments Next {A} error.

Definition status {A} (r : Response A) : option Z :=
  match r with
  | Json s _ _ _ => Some s
  | Next _ => None
  end.

Definition data {A} (r : Response A) : option A :=
  match r with
  | Json _ _ _ d => d
  | Next _ => None
  end.

Definition succeeded {A} (r : Response A) : bool :=
  match r with
  | Json _ ok _ _ => ok
  | Next _ => false
  end.

End Http.

(** ** models/Photo.js *)
Module Photo.

Inductive ApprovalStatus := pending | approved | rejected.

Inductive Category :=
| portrait | landscape | street | wedding | fashion | nature | architecture
| abstract | documentary | sports | food | travel | other.

Definition ApprovalStatus_eqb (a b : ApprovalStatus) : bool :=
  match a, b with
  | pending, pending | approved, approved | rejected, rejected => true
  | _, _ => false
  end.

Definition Category_eqb (a b : Category) : bool :=
  match a, b with
  | portrait, portrait | landscape, landscape | street, street
  | wedding, wedding | fashion, fashion | nature, nature
  | architecture, architecture | abstract, abstract
  | documentary, documentary | sports, sports | food, food
  | travel, travel | other, other => true
  | _, _ => false
  end.

Record doc := {
  _id : ObjectId;
  user : ObjectId;
  portfolio : ObjectId;
  title : option string;
  description : option string;
  url : string;
  publicId : string;
  thumbnail : string;
  width : Z;
  height : Z;
  tags : list string;
  category : Category;
  isPublic : bool;
  approvalStatus : ApprovalStatus;
  views : Z;
  createdAt : Z
}.

Definition set_views (p : doc) (v : Z) : doc :=
  {| _id := _id p; user := user p; portfolio := portfolio p;
     title := title p; description := description p; url := url p;
     publicId := publicId p; thumbnail := thumbnail p;
     width := width p; height := height p; tags := tags p;
     category := category p; isPublic := isPublic p;
     approvalStatus := approvalStatus p; views := v;
     createdAt := createdAt p |}.

(** [photoSchema.methods.canAccess]; the requester is [req.user._id]
    when a user is attached to the request. [sameUser u p] is
    [user._id.toString() === this.user.toString()]: what [this.user]
    renders as depends on whether the caller populated the path. *)
Definition canAccess (sameUser : ObjectId -> doc -> bool) (p : doc)
           (requester : option ObjectId) : bool :=
  if isPublic p then true
  else match requester with
       | None => false
       | Some u => sameUser u p
       end.

Definition findById (coll : list doc) (id : ObjectId) : option doc :=
  find (fun p => Nat.eqb (_id p) id) coll.

(** [doc.save()] on a stored document: the stored copy is replaced. *)
Definition save (coll : list doc) (p : doc) : list doc :=
  map (fun x => if Nat.eqb (_id x) (_id p) then p else x) coll.

(** [photoSchema.methods.incrementView]: the counter of the loaded
    document is bumped and the document saved. *)
Definition incrementView (coll : list doc) (p : doc) : doc * list doc :=
  let p' := set_views p (views p + 1) in
  (p', save coll p').

End Photo.

(** ** MongoDB filters over the photos collection

    The handlers build filter objects key by key; a filter is the
    conjunction of its keys. [regexTest q s] stands for MongoDB's
    [{ $regex: q, $options: 'i' }] applied to the string [s]. *)
Module Mongo.

Inductive Cond :=
| isPublic_eq (b : bool)
| approvalStatus_eq (s : Photo.ApprovalStatus)
| title_regex (q : string)
| description_regex (q : string)
| tags_in_regex (q : string)
| category_eq (c : Photo.Category)
| tags_in (ts : list string)
| user_eq (u : ObjectId)
| portfolio_eq (p : ObjectId)
| or_ (cs : list Cond).

Definition Filter := list Cond.

Section Matching.
Variable regexTest : string -> string -> bool.

Definition opt_test (q : string) (s : option string) : bool :=
  match s with
  | None => false
  | Some v => regexTest q v
  end.

Fixpoint matchesCond (p : Photo.doc) (c : Cond) : bool :=
  match c with
  | isPublic_eq b => Bool.eqb (Photo.isPublic p) b
  | approvalStatus_eq s => Photo.ApprovalStatus_eqb (Photo.approvalStatus p) s
  | title_regex q => opt_test q (Photo.title p)
  | description_regex q => opt_test q (Photo.description p)
  | tags_in_regex q => existsb (regexTest q) (Photo.tags p)
  | category_eq c => Photo.Category_eqb (Photo.category p) c
  | tags_in ts =>
      existsb (fun t => existsb (String.eqb t) ts) (Photo.tags p)
  | user_eq u => Nat.eqb (Photo.user p) u
  | portfolio_eq f => Nat.eqb (Photo.portfolio p) f
  | or_ cs => existsb (matchesCond p) cs
  end.

Definition matches (f : Filter) (p : Photo.doc) : bool :=
  forallb (matchesCond p) f.

(** [Model.find(filter)] and [Model.countDocuments(filter)] *)
Definition find (coll : list Photo.doc) (f : Filter) : list Photo.doc :=
  filter (matches f) coll.

Definition countDocuments (coll : list Photo.doc) (f : Filter) : Z :=
  Z.of_nat (List.length (find coll f)).
End Matching.

(** Sort specifications used by the routes: a list of keys with a
    direction, compared lexicographically. *)
Inductive SortKey := by_createdAt | by_views.
Definition SortObj := list (SortKey * bool). (* [true] is descending, -1 *)

Definition key_of (k : SortKey) (p : Photo.doc) : Z :=
  match k with
  | by_createdAt => Photo.createdAt p
  | by_views => Photo.views p
  end.

Fixpoint before (s : SortObj) (a b : Photo.doc) : bool :=
  match s with
  | [] => true
  | (k, desc) :: s' =>
      let x := key_of k a in
      let y := key_of k b in
      if Z.eqb x y then before s' a b
      else if desc then Z.ltb y x else Z.ltb x y
  end.

Fixpoint insert (s : SortObj) (a : Photo.doc) (l : list Photo.doc) :=
  match l with
  | [] => [a]
  | b :: l' => if before s a b then a :: l else b :: insert s a l'
  end.

Fixpoint sort (s : SortObj) (l : list Photo.doc) : list Photo.doc :=
  match l with
  | [] => []
  | a :: l' => insert s a (sort s l')
  end.

(** [.limit(n)]: 0 means no limit. *)
Definition limit (n : Z) (l : list Photo.doc) : list Photo.doc :=
  if Z.eqb n 0 then l else firstn (Z.to_nat n) l.

Definition skip (n : Z) (l : list Photo.doc) : list Photo.doc :=
  skipn (Z.to_nat n) l.

End Mongo.

(** Options of [Photo.search] *)
Record SearchOptions := {
  so_category : option Photo.Category;
  so_tags : list string;
  so_user : option ObjectId;
  so_portfolio : option ObjectId;
  so_isPublic : bool;
  so_limit : Z;
  so_skip : Z;
  so_sort : Mongo.SortObj
}.

Definition opt_cond {A} (o : option A) (c : A -> Mongo.Cond) : Mongo.Filter :=
  match o with
  | Some v => [c v]
  | None => []
  end.

Definition text_cond (query : option string) : Mongo.Filter :=
  match query with
  | Some q =>
      if JS.truthy query
      then [Mongo.or_ [Mongo.title_regex q; Mongo.description_regex q;
                       Mongo.tags_in_regex q]]
      else []
  | None => []
  end.

Definition tags_cond (tags : list string) : Mongo.Filter :=
  match tags with
  | [] => []
  | _ :: _ => [Mongo.tags_in tags]
  end.

(** [photoSchema.statics.search] of the schema without moderation. *)
Module PhotoSchema.

Definition searchQuery (query : option string) (o : SearchOptions) : Mongo.Filter :=
  [Mongo.isPublic_eq (so_isPublic o)]
  ++ text_cond query
  ++ opt_cond (so_category o) Mongo.category_eq
  ++ tags_cond (so_tags o)
  ++ opt_cond (so_user o) Mongo.user_eq
  ++ opt_cond (so_portfolio o) Mongo.portfolio_eq.

End PhotoSchema.

(** [photoSchema.statics.search] of the schema with the approval workflow. *)
Module ModeratedPhotoSchema.

Definition searchQuery (query : option string) (o : SearchOptions) : Mongo.Filter :=
  [Mongo.isPublic_eq (so_isPublic o)]
  ++ (if so_isPublic o then [Mongo.approvalStatus_eq Photo.approved] else [])
  ++ text_cond query
  ++ opt_cond (so_category o) Mongo.category_eq
  ++ tags_cond (so_tags o)
  ++ opt_cond (so_user o) Mongo.user_eq
  ++ opt_cond (so_portfolio o) Mongo.portfolio_eq.

End ModeratedPhotoSchema.

(** ** routes/photos.js *)
Module PhotosRoute.

Inductive SortParam := newest | oldest | popular | trending.

Record Query := {
  page : Z;
  limit : Z;
  q : option string;
  category : option Photo.Category;
  tags : option string;
  sort : SortParam;
  user : option ObjectId;
  portfolio : option ObjectId
}.

Record Pagination := {
  pg_page : Z;
  pg_limit : Z;
  total : Z;
  pages : Z
}.

Record Listing := {
  photos : list Photo.doc;
  pagination : Pagination
}.

Definition sortObj (s : SortParam) : Mongo.SortObj :=
  match s with
  | newest => [(Mongo.by_createdAt, true)]
  | oldest => [(Mongo.by_createdAt, false)]
  | popular => [(Mongo.by_views, true)]
  | trending => [(Mongo.by_views, true); (Mongo.by_createdAt, true)]
  end.

Definition tagArray (tags : option string) : list string :=
  match tags with
  | Some t => if JS.truthy tags then map JS.trim (JS.split ","%char t) else []
  | None => []
  end.

(** [Math.ceil(total / limit)] for a positive [limit] *)
Definition ceil_div (a b : Z) : Z := (a + b - 1) / b.

Section Listing.
Variable regexTest : string -> string -> bool.
(** [patternError q] is the error a pattern raises: the SyntaxError of
    [new RegExp(q, 'i')], or the error of the query when the database
    refuses the [$regex]; [None] when the pattern is accepted. *)
Variable patternError : string -> option JS.Error.
(** The [searchQuery] of the Photo model the route is linked with. *)
Variable searchQuery : option string -> SearchOptions -> Mongo.Filter.

(** The pattern is only built for a truthy [query]. *)
Definition thrown (query : option string) : option JS.Error :=
  match query with
  | Some pattern => if JS.truthy query then patternError pattern else None
  | None => None
  end.

(** [Photo.search(query, options)]: [inl] is the error thrown while the
    filter is built or run. *)
Definition search (coll : list Photo.doc) (query : option string)
           (o : SearchOptions) : JS.Error + list Photo.doc :=
  match thrown query with
  | Some e => inl e
  | None =>
      inr (Mongo.limit (so_limit o)
             (Mongo.skip (so_skip o)
                (Mongo.sort (so_sort o)
                   (Mongo.find regexTest coll (searchQuery query o)))))
  end.

Definition searchOptions (r : Query) : SearchOptions :=
  {| so_category := category r;
     so_tags := tagArray (tags r);
     so_user := user r;
     so_portfolio := portfolio r;
     so_isPublic := true;
     so_limit := limit r;
     so_skip := (page r - 1) * limit r;
     so_sort := sortObj (sort r) |}.

(** The filter handed to [Photo.countDocuments] by GET /api/photos. *)
Definition countFilter (r : Query) : Mongo.Filter :=
  [Mongo.isPublic_eq true; Mongo.approvalStatus_eq Photo.approved]
  ++ text_cond (q r)
  ++ opt_cond (category r) Mongo.category_eq
  ++ tags_cond (tagArray (tags r))
  ++ opt_cond (user r) Mongo.user_eq
  ++ opt_cond (portfolio r) Mongo.portfolio_eq.

(** GET /api/photos, the handler behind [validatePagination] and
    [validateSearch]; an error thrown by the search is forwarded with
    [next(error)]. *)
Definition listPhotos (coll : list Photo.doc) (r : Query) : Http.Response Listing :=
  match search coll (q r) (searchOptions r) with
  | inl e => Http.Next e
  | inr found =>
      let n := Mongo.countDocuments regexTest coll (countFilter r) in
      Http.Json 200 true EmptyString
        (Some {| photos := found;
                 pagination := {| pg_page := page r; pg_limit := limit r;
                                  total := n; pages := ceil_div n (limit r) |} |})
  end.
End Listing.

Section Fetch.
(** [ownerTest u p] is [user._id.toString() === this.user.toString()]
    for the requester [u] and the photo [p] that the route loaded with
    its [user] path populated. *)
Variable ownerTest : ObjectId -> Photo.doc -> bool.

(** GET /api/photos/:id; returns the response and the collection after
    the view counter was saved. The test that skips the counter
    compares [req.user._id] with [photo.user._id]. *)
Definition getPhoto (coll : list Photo.doc) (requester : option ObjectId)
           (id : ObjectId) : Http.Response Photo.doc * list Photo.doc :=
  match Photo.findById coll id with
  | None => (Http.Json 404 false "Photo not found" None, coll)
  | Some p =>
      if negb (Photo.canAccess ownerTest p requester)
      then (Http.Json 403 false "Access denied" None, coll)
      else
        let owner :=
          match requester with
          | Some u => Nat.eqb u (Photo.user p)
          | None => false
          end in
        if owner
        then (Http.Json 200 true EmptyString (Some p), coll)
        else
          let '(p', coll') := Photo.incrementView coll p in
          (Http.Json 200 true EmptyString (Some p'), coll')
  end.
End Fetch.

Definition defaultQuery : Query :=
  {| page := 1; limit := 20; q := None; category := None; tags := None;
     sort := newest; user := None; portfolio := None |}.

End PhotosRoute.

(** ** jsonwebtoken

    [jwt.sign(payload, secret, { expiresIn })] stamps the payload with
    [iat], the clock in seconds, and [exp = iat + expiresIn], and signs
    it with HMAC: the token is a function of the payload, the secret and
    the second it was signed in. A token is represented by what it
    encodes. *)
Module JWT.

Inductive Secret := JWT_SECRET | JWT_REFRESH_SECRET | foreign_secret.

Definition Secret_eqb (a b : Secret) : bool :=
  match a, b with
  | JWT_SECRET, JWT_SECRET => true
  | JWT_REFRESH_SECRET, JWT_REFRESH_SECRET => true
  | foreign_secret, foreign_secret => true
  | _, _ => false
  end.

Record Token := { id : ObjectId; iat : Z; exp : Z; secret : Secret }.

Definition eqb (a b : Token) : bool :=
  Nat.eqb (id a) (id b) && Z.eqb (iat a) (iat b) && Z.eqb (exp a) (exp b)
  && Secret_eqb (secret a) (secret b).

Definition sign (owner : ObjectId) (s : Secret) (expiresIn now : Z) : Token :=
  {| id := owner; iat := now; exp := now + expiresIn; secret := s |}.

(** [jwt.verify(token, secret)]: [inr] is the decoded payload's [id]. *)
Definition verify (t : Token) (s : Secret) (now : Z) : JS.Error + ObjectId :=
  if negb (Secret_eqb (secret t) s) then inl (JS.JsonWebTokenError "invalid signature")
  else if Z.leb (exp t) now then inl (JS.JsonWebTokenError "jwt expired")
  else inr (id t).

(** Defaults of [JWT_EXPIRE] ('7d') and [JWT_REFRESH_EXPIRE] ('30d'). *)
Definition JWT_EXPIRE : Z := 604800.
Definition JWT_REFRESH_EXPIRE : Z := 2592000.

End JWT.

(** ** bcryptjs, idealised: the hash determines the password. *)
Module Bcrypt.
Definition hash (password : string) : string := ("$2a$12$" ++ password)%string.
Definition compare (candidate hashed : string) : bool :=
  String.eqb (hash candidate) hashed.
End Bcrypt.

(** ** models/User.js *)
Module User.

Inductive Role := user | admin | super_admin.
Inductive Plan := free | pro.

Definition Role_eqb (a b : Role) : bool :=
  match a, b with
  | user, user | admin, admin | super_admin, super_admin => true
  | _, _ => false
  end.

(** The paths declared by [userSchema]. *)
Definition userSchema : list string :=
  ["username"; "email"; "password"; "firstName"; "lastName"; "bio";
   "avatar"; "website"; "location"; "isVerified"; "isActive";
   "subscription"; "preferences"; "stats"; "lastLogin";
   "refreshTokens"]%string.

(** [role] is the field the admin routes and the bootstrap scripts read
    and write. [portfolios] is what [user.portfolios] evaluates to:
    [None] is [undefined]. *)
Record doc := {
  _id : ObjectId;
  username : string;
  email : string;
  password : string;
  role : Role;
  isActive : bool;
  plan : Plan;
  totalPhotos : Z;
  refreshTokens : list JWT.Token;
  portfolios : option (list ObjectId)
}.

Definition set_refreshTokens (u : doc) (ts : list JWT.Token) : doc :=
  {| _id := _id u; username := username u; email := email u;
     password := password u; role := role u; isActive := isActive u;
     plan := plan u; totalPhotos := totalPhotos u; refreshTokens := ts;
     portfolios := portfolios u |}.

Definition set_role (u : doc) (r : Role) : doc :=
  {| _id := _id u; username := username u; email := email u;
     password := password u; role := r; isActive := isActive u;
     plan := plan u; totalPhotos := totalPhotos u;
     refreshTokens := refreshTokens u; portfolios := portfolios u |}.

Definition set_isActive (u : doc) (b : bool) : doc :=
  {| _id := _id u; username := username u; email := email u;
     password := password u; role := role u; isActive := b;
     plan := plan u; totalPhotos := totalPhotos u;
     refreshTokens := refreshTokens u; portfolios := portfolios u |}.

Definition set_totalPhotos (u : doc) (n : Z) : doc :=
  {| _id := _id u; username := username u; email := email u;
     password := password u; role := role u; isActive := isActive u;
     plan := plan u; totalPhotos := n;
     refreshTokens := refreshTokens u; portfolios := portfolios u |}.

Definition set_portfolios (u : doc) (ps : option (list ObjectId)) : doc :=
  {| _id := _id u; username := username u; email := email u;
     password := password u; role := role u; isActive := isActive u;
     plan := plan u; totalPhotos := totalPhotos u;
     refreshTokens := refreshTokens u; portfolios := ps |}.

(** An array path of a fresh document: [[]] when the schema declares
    it, [undefined] otherwise. *)
Definition array_path (path : string) : option (list ObjectId) :=
  if existsb (String.eqb path) userSchema then Some [] else None.

Definition findById (coll : list doc) (i : ObjectId) : option doc :=
  find (fun u => Nat.eqb (_id u) i) coll.

Definition save (coll : list doc) (u : doc) : list doc :=
  map (fun x => if Nat.eqb (_id x) (_id u) then u else x) coll.

(** [Model.findByIdAndUpdate(id, update)]: the first document with this
    id is updated. *)
Fixpoint findByIdAndUpdate (coll : list doc) (i : ObjectId) (f : doc -> doc)
  : list doc :=
  match coll with
  | [] => []
  | x :: rest =>
      if Nat.eqb (_id x) i then f x :: rest
      else x :: findByIdAndUpdate rest i f
  end.

(** [Model.findByIdAndDelete(id)] and [doc.deleteOne()] *)
Fixpoint findByIdAndDelete (coll : list doc) (i : ObjectId) : list doc :=
  match coll with
  | [] => []
  | x :: rest =>
      if Nat.eqb (_id x) i then rest else x :: findByIdAndDelete rest i
  end.

Definition fresh_id (coll : list doc) : ObjectId :=
  S (list_max (map _id coll)).

(** [userSchema.methods.generateAuthToken] *)
Definition generateAuthToken (u : doc) (now : Z) : JWT.Token :=
  JWT.sign (_id u) JWT.JWT_SECRET JWT.JWT_EXPIRE now.

(** [userSchema.methods.generateRefreshToken]: signs and pushes the
    token on the in-memory document. *)
Definition generateRefreshToken (u : doc) (now : Z) : JWT.Token * doc :=
  let refreshToken := JWT.sign (_id u) JWT.JWT_REFRESH_SECRET JWT.JWT_REFRESH_EXPIRE now in
  (refreshToken, set_refreshTokens u (refreshTokens u ++ [refreshToken])).

(** [userSchema.methods.removeRefreshToken], before its [save()] *)
Definition removeRefreshToken (u : doc) (token : JWT.Token) : doc :=
  set_refreshTokens u
    (filter (fun rt => negb (JWT.eqb rt token)) (refreshTokens u)).

(** [userSchema.methods.comparePassword] *)
Definition comparePassword (u : doc) (candidate : string) : bool :=
  Bcrypt.compare candidate (password u).

Definition planLimits (p : Plan) : JS.Num :=
  match p with
  | free => JS.Fin 30
  | pro => JS.Infinity
  end.

(** [userSchema.methods.canUploadPhoto] *)
Definition canUploadPhoto (u : doc) : bool :=
  JS.lt (JS.Fin (totalPhotos u)) (planLimits (plan u)).

End User.

(** ** models/Portfolio.js *)
Module Portfolio.

Record doc := {
  _id : ObjectId;
  user : ObjectId;
  title : string;
  slug : string;
  isPublic : bool;
  isDefault : bool;
  createdAt : Z
}.

Definition set_isDefault (p : doc) (b : bool) : doc :=
  {| _id := _id p; user := user p; title := title p; slug := slug p;
     isPublic := isPublic p; isDefault := b; createdAt := createdAt p |}.

Definition findById (coll : list doc) (i : ObjectId) : option doc :=
  find (fun p => Nat.eqb (_id p) i) coll.

Definition fresh_id (coll : list doc) : ObjectId :=
  S (list_max (map _id coll)).

(** [this.constructor.updateMany({ user, _id: { $ne: this._id } },
    { isDefault: false })] *)
Definition clearSiblings (coll : list doc) (owner self : ObjectId) : list doc :=
  map (fun x =>
         if Nat.eqb (user x) owner && negb (Nat.eqb (_id x) self)
         then set_isDefault x false else x) coll.

(** The pre-save hook "ensure only one default portfolio per user";
    [modified] is [this.isModified('isDefault')]. *)
Definition preSave_default (coll : list doc) (modified : bool) (p : doc) : list doc :=
  if modified && isDefault p then clearSiblings coll (user p) (_id p) else coll.

(** [doc.save()] of a document loaded as [loaded] and now holding [p]:
    the hooks run, then the stored copy is replaced. *)
Definition save (coll : list doc) (loaded p : doc) : list doc :=
  let modified := negb (Bool.eqb (isDefault loaded) (isDefault p)) in
  map (fun x => if Nat.eqb (_id x) (_id p) then p else x)
      (preSave_default coll modified p).

(** [Portfolio.create(fields)]: the pre-save hooks run, then the
    document is inserted; the unique index on [slug] rejects a
    duplicate at the insert. [isDefault] counts as modified when the
    caller set it. *)
Definition create (coll : list doc) (setsDefault : bool) (p : doc)
  : option JS.Error * list doc :=
  let hooked := preSave_default coll setsDefault p in
  if existsb (fun x => String.eqb (slug x) (slug p)) coll
  then (Some (JS.PlainError "E11000 duplicate key error"), hooked)
  else (None, hooked ++ [p]).

(** A partial update as [findByIdAndUpdate(id, req.body)] applies it:
    every field present in the body is set, without any hook. *)
Record Update := {
  u_title : option string;
  u_isPublic : option bool;
  u_isDefault : option bool
}.

Definition apply (b : Update) (p : doc) : doc :=
  {| _id := _id p; user := user p;
     title := match u_title b with Some t => t | None => title p end;
     slug := slug p;
     isPublic := match u_isPublic b with Some v => v | None => isPublic p end;
     isDefault := match u_isDefault b with Some v => v | None => isDefault p end;
     createdAt := createdAt p |}.

Fixpoint findByIdAndUpdate (coll : list doc) (i : ObjectId) (f : doc -> doc)
  : list doc :=
  match coll with
  | [] => []
  | x :: rest =>
      if Nat.eqb (_id x) i then f x :: rest
      else x :: findByIdAndUpdate rest i f
  end.

(** The portfolios of [owner] flagged default. *)
Definition defaultsOf (coll : list doc) (owner : ObjectId) : list doc :=
  filter (fun x => Nat.eqb (user x) owner && isDefault x) coll.

End Portfolio.

(** ** middleware/auth.js and middleware/adminAuth.js *)
Module Middleware.

(** [protect]: the bearer token is verified and the user attached. *)
Definition protect (users : list User.doc) (now : Z) (token : option JWT.Token)
  : Http.Response unit + User.doc :=
  match token with
  | None => inl (Http.Json 401 false "Not authorized to access this route" None)
  | Some t =>
      match JWT.verify t JWT.JWT_SECRET now with
      | inl _ => inl (Http.Json 401 false "Not authorized to access this route" None)
      | inr decoded =>
          match User.findById users decoded with
          | None => inl (Http.Json 401 false "No user found with this token" None)
          | Some u =>
              if negb (User.isActive u)
              then inl (Http.Json 401 false "User account is deactivated" None)
              else inr u
          end
      end
  end.

(** [canManageAdmins]: [None] is [next()]. *)
Definition canManageAdmins (requester : User.doc) : option (Z * string) :=
  if negb (User.Role_eqb (User.role requester) User.super_admin)
  then Some (403, "Super admin access required to manage admin accounts"%string)
  else None.

(** [requireSuperAdmin] *)
Definition requireSuperAdmin (requester : User.doc) : option (Z * string) :=
  if negb (User.Role_eqb (User.role requester) User.super_admin)
  then Some (403, "Super admin access required"%string)
  else if negb (User.isActive requester)
  then Some (403, "Account is deactivated"%string)
  else None.

Definition photoLimit (p : User.Plan) : JS.Num :=
  match p with
  | User.free => JS.Fin 30
  | User.pro => JS.Infinity
  end.

Definition customDomain (p : User.Plan) : bool :=
  match p with
  | User.free => false
  | User.pro => true
  end.

Inductive LimitType := lt_photos | lt_portfolios | lt_customDomain.

Definition planName (p : User.Plan) : string :=
  match p with
  | User.free => "free"
  | User.pro => "pro"
  end.

Definition limitName (n : JS.Num) : string :=
  match n with
  | JS.Fin z => NilZero.string_of_int (Z.to_int z)
  | JS.Infinity => "Infinity"
  end.

(** [checkSubscriptionLimits(limitType)]: [None] is [next()]. *)
Definition checkSubscriptionLimits (limitType : LimitType) (u : User.doc)
  : option (Z * string) :=
  match limitType with
  | lt_photos =>
      if JS.ge (JS.Fin (User.totalPhotos u)) (photoLimit (User.plan u))
      then Some (403, ("You have reached the photo limit for your "
                       ++ planName (User.plan u) ++ " plan ("
                       ++ limitName (photoLimit (User.plan u)) ++ " photos)")%string)
      else None
  | lt_portfolios => None
  | lt_customDomain =>
      if negb (customDomain (User.plan u))
      then Some (403, "Custom domains are only available for Pro subscribers"%string)
      else None
  end.

End Middleware.

(** ** routes/portfolios.js *)
Module PortfoliosRoute.

Definition R := (Http.Response Portfolio.doc * list Portfolio.doc)%type.

(** PUT /api/portfolios/:id *)
Definition updatePortfolio (coll : list Portfolio.doc) (requester : User.doc)
           (id : ObjectId) (body : Portfolio.Update) : R :=
  match Portfolio.findById coll id with
  | None => (Http.Json 404 false "Portfolio not found" None, coll)
  | Some p =>
      if negb (Nat.eqb (Portfolio.user p) (User._id requester))
      then (Http.Json 403 false "Not authorized to update this portfolio" None, coll)
      else (Http.Json 200 true "Portfolio updated successfully"
              (Some (Portfolio.apply body p)),
            Portfolio.findByIdAndUpdate coll id (Portfolio.apply body))
  end.

(** PUT /api/portfolios/:id/default *)
Definition setDefault (coll : list Portfolio.doc) (requester : User.doc)
           (id : ObjectId) : R :=
  match Portfolio.findById coll id with
  | None => (Http.Json 404 false "Portfolio not found" None, coll)
  | Some p =>
      if negb (Nat.eqb (Portfolio.user p) (User._id requester))
      then (Http.Json 403 false "Not authorized to set this portfolio as default" None, coll)
      else
        let p' := Portfolio.set_isDefault p true in
        (Http.Json 200 true "Default portfolio updated successfully" (Some p'),
         Portfolio.save coll p p')
  end.

End PortfoliosRoute.

(** ** routes/auth.js *)
Module AuthRoute.

Record Db := { users : list User.doc; portfolios : list Portfolio.doc }.

Record RegisterBody := {
  username : string;
  email : string;
  password : string
}.

Record Session := {
  s_user : User.doc;
  token : JWT.Token;
  refreshToken : JWT.Token
}.

Definition findExisting (coll : list User.doc) (b : RegisterBody) : option User.doc :=
  find (fun u => String.eqb (User.email u) (email b)
                 || String.eqb (User.username u) (username b)) coll.

(** POST /api/auth/register *)
Definition register (db : Db) (now : Z) (b : RegisterBody)
  : Http.Response Session * Db :=
  match findExisting (users db) b with
  | Some existingUser =>
      (Http.Json 400 false
         (if String.eqb (User.email existingUser) (email b)
          then "Email already exists" else "Username already exists") None, db)
  | None =>
      let user :=
        {| User._id := User.fresh_id (users db);
           User.username := username b;
           User.email := email b;
           User.password := Bcrypt.hash (password b);
           User.role := User.user;
           User.isActive := true;
           User.plan := User.free;
           User.totalPhotos := 0;
           User.refreshTokens := [];
           User.portfolios := User.array_path "portfolios" |} in
      let users1 := users db ++ [user] in
      let defaultPortfolio :=
        {| Portfolio._id := Portfolio.fresh_id (portfolios db);
           Portfolio.user := User._id user;
           Portfolio.title := "My Photos";
           Portfolio.slug := (username b ++ "-photos")%string;
           Portfolio.isPublic := true;
           Portfolio.isDefault := true;
           Portfolio.createdAt := now |} in
      match Portfolio.create (portfolios db) true defaultPortfolio with
      | (Some e, portfolios1) =>
          (Http.Next e, {| users := users1; portfolios := portfolios1 |})
      | (None, portfolios1) =>
          let db1 := {| users := users1; portfolios := portfolios1 |} in
          match User.portfolios user with
          | None =>
              (Http.Next (JS.TypeError
                 "Cannot read properties of undefined (reading 'push')"), db1)
          | Some owned =>
              let user1 :=
                User.set_portfolios user
                  (Some (owned ++ [Portfolio._id defaultPortfolio])) in
              let t := User.generateAuthToken user1 now in
              let '(rt, user2) := User.generateRefreshToken user1 now in
              (Http.Json 201 true "User registered successfully"
                 (Some {| s_user := user2; token := t; refreshToken := rt |}),
               {| users := User.save users1 user2; portfolios := portfolios1 |})
          end
      end
  end.

Record TokenPair := {
  newToken : JWT.Token;
  newRefreshToken : JWT.Token
}.

Definition tokenExists (u : User.doc) (t : JWT.Token) : bool :=
  existsb (fun rt => JWT.eqb rt t) (User.refreshTokens u).

(** POST /api/auth/refresh *)
Definition refresh (coll : list User.doc) (now : Z) (presented : JWT.Token)
  : Http.Response TokenPair * list User.doc :=
  match JWT.verify presented JWT.JWT_REFRESH_SECRET now with
  | inl e => (Http.Next e, coll)
  | inr decoded =>
      match User.findById coll decoded with
      | None => (Http.Json 401 false "Invalid refresh token" None, coll)
      | Some user =>
          if negb (tokenExists user presented)
          then (Http.Json 401 false "Invalid refresh token" None, coll)
          else
            let t := User.generateAuthToken user now in
            let '(rt, user1) := User.generateRefreshToken user now in
            let user2 := User.removeRefreshToken user1 presented in
            let user3 := User.set_refreshTokens user2 (User.refreshTokens user2 ++ [rt]) in
            (Http.Json 200 true "Token refreshed successfully"
               (Some {| newToken := t; newRefreshToken := rt |}),
             User.save coll user3)
      end
  end.

(** DELETE /api/auth/me, behind [protect] *)
Definition deleteMe (coll : list User.doc) (now : Z) (bearer : option JWT.Token)
           (password : string) : Http.Response unit * list User.doc :=
  match Middleware.protect coll now bearer with
  | inl r => (r, coll)
  | inr requester =>
      match User.findById coll (User._id requester) with
      | None => (Http.Next (JS.TypeError "Cannot read properties of null"), coll)
      | Some user =>
          if negb (User.comparePassword user password)
          then (Http.Json 400 false "Password is incorrect" None, coll)
          else (Http.Json 200 true "Account deleted successfully" None,
                User.findByIdAndDelete coll (User._id user))
      end
  end.

End AuthRoute.

(** ** routes/admin.js, user management *)
Module AdminRoute.

Definition countRole (coll : list User.doc) (r : User.Role) : nat :=
  List.length (filter (fun u => User.Role_eqb (User.role u) r) coll).

Definition countActiveRole (coll : list User.doc) (r : User.Role) : nat :=
  List.length (filter (fun u => User.Role_eqb (User.role u) r && User.isActive u) coll).

Definition R := (Http.Response User.doc * list User.doc)%type.

Definition reject (coll : list User.doc) (e : Z * string) : R :=
  (Http.Json (fst e) false (snd e) None, coll).

(** PUT /api/admin/users/:id/role *)
Definition updateRole (coll : list User.doc) (requester : User.doc)
           (id : ObjectId) (role : User.Role) : R :=
  match Middleware.canManageAdmins requester with
  | Some e => reject coll e
  | None =>
      if negb (User.Role_eqb role User.super_admin)
         && Nat.leb (countRole coll User.super_admin) 1
      then (Http.Json 400 false "Cannot demote the last super admin" None, coll)
      else
        match User.findById coll id with
        | None => (Http.Json 404 false "User not found" None, coll)
        | Some u =>
            (Http.Json 200 true "User role updated successfully"
               (Some (User.set_role u role)),
             User.findByIdAndUpdate coll id (fun x => User.set_role x role))
        end
  end.

(** PUT /api/admin/users/:id/status *)
Definition updateStatus (coll : list User.doc) (requester : User.doc)
           (id : ObjectId) (isActive : bool) : R :=
  match Middleware.canManageAdmins requester with
  | Some e => reject coll e
  | None =>
      let lastOne :=
        negb isActive &&
        match User.findById coll id with
        | Some u => User.Role_eqb (User.role u) User.super_admin
                    && Nat.leb (countActiveRole coll User.super_admin) 1
        | None => false
        end in
      if lastOne
      then (Http.Json 400 false "Cannot deactivate the last super admin" None, coll)
      else
        match User.findById coll id with
        | None => (Http.Json 404 false "User not found" None, coll)
        | Some u =>
            (Http.Json 200 true
               (if isActive then "User activated successfully"
                else "User deactivated successfully")
               (Some (User.set_isActive u isActive)),
             User.findByIdAndUpdate coll id (fun x => User.set_isActive x isActive))
        end
  end.

(** DELETE /api/admin/users/:id; the photos of the user are removed
    with [Photo.deleteMany({ user: id })]. *)
Definition deleteUser (coll : list User.doc) (photos : list Photo.doc)
           (requester : User.doc) (id : ObjectId)
  : Http.Response unit * list User.doc * list Photo.doc :=
  match Middleware.requireSuperAdmin requester with
  | Some e => (Http.Json (fst e) false (snd e) None, coll, photos)
  | None =>
      match User.findById coll id with
      | Some u =>
          if User.Role_eqb (User.role u) User.super_admin
          then (Http.Json 403 false
                  "Super admin accounts cannot be deleted through user management"
                  None, coll, photos)
          else (Http.Json 200 true
                  "User and all associated photos deleted successfully" None,
                User.findByIdAndDelete coll id,
                filter (fun p => negb (Nat.eqb (Photo.user p) id)) photos)
      | None =>
          (Http.Json 200 true
             "User and all associated photos deleted successfully" None,
           User.findByIdAndDelete coll id,
           filter (fun p => negb (Nat.eqb (Photo.user p) id)) photos)
      end
  end.

End AdminRoute.

(** ** sharp, the image library

    A buffer is represented by what sharp decodes from it: dimensions,
    format, and the RGB raster of its 150x150 reduction. *)
Module Sharp.

Record Buffer := {
  width : Z;
  height : Z;
  format : string;
  raster : list (Z * Z * Z)
}.

Definition round_div (a b : Z) : Z := (2 * a + b) / (2 * b).

(** [resize(maxW, maxH, { fit: 'inside', withoutEnlargement: true })]:
    the largest size of the same aspect ratio that fits the box, and
    the original size when it fits already. *)
Definition insideDims (maxW maxH w h : Z) : Z * Z :=
  if (w <=? maxW) && (h <=? maxH) then (w, h)
  else if h * maxW <=? w * maxH
       then (maxW, Z.max 1 (round_div (h * maxW) w))
       else (Z.max 1 (round_div (w * maxH) h), maxH).

Definition resizeInside (b : Buffer) (maxW maxH : Z) : Buffer :=
  let '(w, h) := insideDims maxW maxH (width b) (height b) in
  {| width := w; height := h; format := "jpeg"; raster := raster b |}.

(** [resize(size, size, { fit: 'cover', position: 'center' })] *)
Definition resizeCover (b : Buffer) (size : Z) : Buffer :=
  {| width := size; height := size; format := "jpeg"; raster := raster b |}.

End Sharp.

(** ** utils/r2.js *)
Module R2.

Record Env := { ENVIRONMENT_PREFIX : string; PUBLIC_URL : string }.

Record Object := { key : string; body : Sharp.Buffer; type : string }.

Definition Bucket := list Object.

(** Which external steps fail during one run of the pipeline. *)
Record Faults := {
  metadata_fails : bool;
  resize_fails : bool;
  upload_main_fails : bool;
  thumbnail_fails : bool;
  upload_thumbnail_fails : bool;
  colors_fail : bool
}.

Definition noFaults : Faults :=
  {| metadata_fails := false; resize_fails := false;
     upload_main_fails := false; thumbnail_fails := false;
     upload_thumbnail_fails := false; colors_fail := false |}.

(** Computations that read and write the bucket and may throw. *)
Definition M (A : Type) : Type := Bucket -> (JS.Error + A) * Bucket.

Definition ret {A} (a : A) : M A := fun b => (inr a, b).
Definition throw {A} (e : JS.Error) : M A := fun b => (inl e, b).
Definition bind {A B} (m : M A) (k : A -> M B) : M B :=
  fun b => match m b with
           | (inl e, b') => (inl e, b')
           | (inr a, b') => k a b'
           end.

(** [try { m } catch (error) { throw new Error(prefix + error.message) }] *)
Definition rethrow {A} (prefix : string) (m : M A) : M A :=
  fun b => match m b with
           | (inl e, b') => (inl (JS.PlainError (prefix ++ JS.message e)), b')
           | r => r
           end.

Declare Scope r2_scope.
Delimit Scope r2_scope with r2.
Notation "x <- m ;; k" := (bind m (fun x => k))
  (at level 61, m at next level, right associativity) : r2_scope.

Definition generateKey (env : Env) (folder filename : string) : string :=
  (ENVIRONMENT_PREFIX env ++ "/" ++ folder ++ "/" ++ filename)%string.

Definition generateUrl (env : Env) (k : string) : string :=
  (PUBLIC_URL env ++ "/" ++ k)%string.

Record UploadResult := { r_key : string; r_url : string }.

(** [uploadToR2]: a put replaces the object stored under the key. *)
Definition uploadToR2 (env : Env) (fails : bool) (buffer : Sharp.Buffer)
           (k : string) (ty : string) : M UploadResult :=
  if fails then throw (JS.PlainError "Failed to upload to R2: network error")
  else fun b =>
    (inr {| r_key := k; r_url := generateUrl env k |},
     filter (fun o => negb (String.eqb (key o) k)) b
     ++ [{| key := k; body := buffer; type := ty |}]).

(** [deleteFromR2] *)
Definition deleteFromR2 (fails : bool) (k : string) : M unit :=
  if fails then throw (JS.PlainError "Failed to delete from R2: network error")
  else fun b => (inr tt, filter (fun o => negb (String.eqb (key o) k)) b).

Definition sharp {A} (fails : bool) (a : A) : M A :=
  if fails then throw (JS.PlainError "Input buffer contains unsupported image format")
  else ret a.

Definition rgb (px : Z * Z * Z) : string :=
  let '(r, g, b) := px in
  ("rgb(" ++ NilZero.string_of_int (Z.to_int r) ++ ","
          ++ NilZero.string_of_int (Z.to_int g) ++ ","
          ++ NilZero.string_of_int (Z.to_int b) ++ ")")%string.

(** [colors[color] = (colors[color] || 0) + 1], keys in insertion order *)
Fixpoint bump (color : string) (colors : list (string * Z)) : list (string * Z) :=
  match colors with
  | [] => [(color, 1)]
  | (c, n) :: rest =>
      if String.eqb c color then (c, n + 1) :: rest
      else (c, n) :: bump color rest
  end.

Fixpoint insertByCount (e : string * Z) (l : list (string * Z)) :=
  match l with
  | [] => [e]
  | x :: l' => if snd x <=? snd e then e :: l else x :: insertByCount e l'
  end.

(** [.sort(([, a], [, b]) => b - a)], stable *)
Definition sortByCount (l : list (string * Z)) : list (string * Z) :=
  fold_right insertByCount [] l.

(** [extractDominantColors]: it catches its own failure. *)
Definition extractDominantColors (fails : bool) (buffer : Sharp.Buffer)
  : list (string * Z) :=
  if fails then []
  else
    let data := Sharp.raster buffer in
    let n := Z.of_nat (List.length data) in
    let colors := fold_left (fun acc px => bump (rgb px) acc) data [] in
    map (fun e => (fst e, Sharp.round_div (snd e * 100) n))
        (firstn 5 (sortByCount colors)).

Record Options := {
  userId : ObjectId;
  folder : string;
  quality : Z;
  maxWidth : Z;
  maxHeight : Z;
  generateThumbnail : bool;
  thumbnailSize : Z;
  extractColors : bool
}.

Record ImageInfo := {
  i_key : string;
  i_url : string;
  i_width : Z;
  i_height : Z;
  i_format : string
}.

Record Result := {
  mainImage : ImageInfo;
  thumbnail : option ImageInfo;
  colorPalette : list (string * Z);
  originalWidth : Z;
  originalHeight : Z;
  originalFormat : string
}.

Definition str_of_id (i : ObjectId) : string :=
  NilZero.string_of_uint (Nat.to_uint i).

Definition str_of_Z (z : Z) : string := NilZero.string_of_int (Z.to_int z).

Local Open Scope r2_scope.

(** [processAndUploadImage]; [fileId] and [timestamp] are the values
    of [uuidv4()] and [Date.now()]. The returned object reads
    [thumbnailBuffer], which is declared inside the block of
    [if (generateThumbnail)]: building it after a thumbnail was made
    throws a ReferenceError. *)
Definition processAndUploadImage (env : Env) (f : Faults) (fileId : string)
           (timestamp : Z) (buffer : Sharp.Buffer) (o : Options) : M Result :=
  rethrow "Failed to process image: "
    (metadata <- sharp (metadata_fails f) buffer ;;
     processedImage <-
       sharp (resize_fails f) (Sharp.resizeInside buffer (maxWidth o) (maxHeight o)) ;;
     let mainImageKey :=
       generateKey env (folder o)
         (str_of_id (userId o) ++ "/" ++ str_of_Z timestamp ++ "_" ++ fileId ++ ".jpg") in
     mainImageResult <-
       uploadToR2 env (upload_main_fails f) processedImage mainImageKey "main" ;;
     thumbnailResult <-
       (if generateThumbnail o
        then
          thumbnailBuffer <-
            sharp (thumbnail_fails f) (Sharp.resizeCover buffer (thumbnailSize o)) ;;
          let thumbnailKey :=
            generateKey env (folder o)
              (str_of_id (userId o) ++ "/" ++ str_of_Z timestamp ++ "_" ++ fileId
               ++ "_thumb.jpg") in
          r <- uploadToR2 env (upload_thumbnail_fails f) thumbnailBuffer
                 thumbnailKey "thumbnail" ;;
          ret (Some r)
        else ret None) ;;
     let colorPalette :=
       if extractColors o then extractDominantColors (colors_fail f) buffer else [] in
     match thumbnailResult with
     | Some _ => throw (JS.ReferenceError "thumbnailBuffer is not defined")
     | None =>
         ret {| mainImage :=
                  {| i_key := mainImageKey;
                     i_url := r_url mainImageResult;
                     i_width := Sharp.width metadata;
                     i_height := Sharp.height metadata;
                     i_format := "jpg" |};
                thumbnail := None;
                colorPalette := colorPalette;
                originalWidth := Sharp.width metadata;
                originalHeight := Sharp.height metadata;
                originalFormat := Sharp.format metadata |}
     end).

End R2.

(** ** Photo model: middleware and persistence

    Mongoose runs the hooks registered for the name of the operation:
    [doc.save()] runs the 'save' hooks, [doc.remove()] the 'remove'
    hooks; [doc.deleteOne()], [Model.findByIdAndDelete] and
    [Model.deleteMany] run the hooks of their own names. *)
Module PhotoModel.

Inductive Op := op_save | op_remove | op_deleteOne | op_findOneAndDelete | op_deleteMany.

Definition Op_eqb (a b : Op) : bool :=
  match a, b with
  | op_save, op_save | op_remove, op_remove | op_deleteOne, op_deleteOne
  | op_findOneAndDelete, op_findOneAndDelete | op_deleteMany, op_deleteMany => true
  | _, _ => false
  end.

Inductive Hook := altText | incTotalPhotos | decTotalPhotos.

(** The [photoSchema.pre(...)] registrations, in order. *)
Definition pre : list (Op * Hook) :=
  [(op_save, altText); (op_save, incTotalPhotos); (op_remove, decTotalPhotos)].

Definition inc (d : Z) (u : User.doc) : User.doc :=
  User.set_totalPhotos u (User.totalPhotos u + d).

Definition runHook (h : Hook) (isNew : bool) (p : Photo.doc)
           (users : list User.doc) : list User.doc :=
  match h with
  | altText => users
  | incTotalPhotos =>
      if isNew then User.findByIdAndUpdate users (Photo.user p) (inc 1) else users
  | decTotalPhotos => User.findByIdAndUpdate users (Photo.user p) (inc (-1))
  end.

Definition runPre (op : Op) (isNew : bool) (p : Photo.doc)
           (users : list User.doc) : list User.doc :=
  fold_left (fun us e => if Op_eqb (fst e) op then runHook (snd e) isNew p us else us)
            pre users.

Fixpoint deleteFirst (photos : list Photo.doc) (id : ObjectId) : list Photo.doc :=
  match photos with
  | [] => []
  | x :: rest =>
      if Nat.eqb (Photo._id x) id then rest else x :: deleteFirst rest id
  end.

Definition fresh_id (photos : list Photo.doc) : ObjectId :=
  S (list_max (map Photo._id photos)).

(** [Photo.create(fields)] *)
Definition create (users : list User.doc) (photos : list Photo.doc) (p : Photo.doc)
  : list User.doc * list Photo.doc :=
  (runPre op_save true p users, photos ++ [p]).

(** [photo.remove()] *)
Definition remove (users : list User.doc) (photos : list Photo.doc) (p : Photo.doc)
  : list User.doc * list Photo.doc :=
  (runPre op_remove false p users, deleteFirst photos (Photo._id p)).

(** [photo.deleteOne()] *)
Definition deleteOne (users : list User.doc) (photos : list Photo.doc) (p : Photo.doc)
  : list User.doc * list Photo.doc :=
  (runPre op_deleteOne false p users, deleteFirst photos (Photo._id p)).

(** [Photo.findByIdAndDelete(id)] *)
Definition findByIdAndDelete (users : list User.doc) (photos : list Photo.doc)
           (id : ObjectId) : list User.doc * list Photo.doc :=
  match Photo.findById photos id with
  | Some p => (runPre op_findOneAndDelete false p users, deleteFirst photos id)
  | None => (users, photos)
  end.

End PhotoModel.

(** The state the upload and deletion handlers work on. *)
Record Db := {
  users : list User.doc;
  portfolios : list Portfolio.doc;
  photos : list Photo.doc;
  bucket : R2.Bucket
}.

Definition with_bucket (db : Db) (b : R2.Bucket) : Db :=
  {| users := users db; portfolios := portfolios db; photos := photos db; bucket := b |}.

Definition with_photos (db : Db) (us : list User.doc) (ps : list Photo.doc) : Db :=
  {| users := us; portfolios := portfolios db; photos := ps; bucket := bucket db |}.

(** ** routes/upload.js, the R2 variant *)
Module UploadRoute.

Record File := { originalname : string; buffer : Sharp.Buffer }.

Record Body := {
  portfolioId : option ObjectId;
  title : option string;
  description : option string;
  tags : option string;
  category : option Photo.Category;
  isPublic : option bool
}.

(** What one run of the pipeline draws from outside. *)
Record Run := {
  faults : R2.Faults;
  fileId : string;
  timestamp : Z
}.

Definition options (requester : User.doc) : R2.Options :=
  {| R2.userId := User._id requester; R2.folder := "photos"; R2.quality := 85;
     R2.maxWidth := 2048; R2.maxHeight := 2048; R2.generateThumbnail := true;
     R2.thumbnailSize := 300; R2.extractColors := true |}.

Definition orElse {A} (o : option A) (d : A) : A :=
  match o with Some v => v | None => d end.

Definition defaultTitle (f : File) : string :=
  hd EmptyString (JS.split "."%char (originalname f)).

Definition tagArray (tags : option string) : list string :=
  match tags with
  | Some t => if JS.truthy tags then map JS.trim (JS.split ","%char t) else []
  | None => []
  end.

Definition quotaMessage (u : User.doc) : string :=
  ("You have reached the photo limit for your "
   ++ Middleware.planName (User.plan u) ++ " plan")%string.

(** The quota rejections are the 403 answers whose message starts
    with "You have reached the photo limit". *)
Definition isQuotaError {A} (r : Http.Response A) : bool :=
  match r with
  | Http.Json 403 _ msg _ => String.prefix "You have reached the photo limit" msg
  | _ => false
  end.

(** POST /api/upload/photo, behind [protect]; [requester] is [req.user]. *)
Definition uploadPhoto (env : R2.Env) (run : Run) (now : Z) (db : Db)
           (requester : User.doc) (file : option File) (b : Body)
  : Http.Response Photo.doc * Db :=
  match Middleware.checkSubscriptionLimits Middleware.lt_photos requester with
  | Some e => (Http.Json (fst e) false (snd e) None, db)
  | None =>
  match file with
  | None => (Http.Json 400 false "No photo file provided" None, db)
  | Some f =>
  match portfolioId b with
  | None => (Http.Json 400 false "Portfolio ID is required" None, db)
  | Some pid =>
  match Portfolio.findById (portfolios db) pid with
  | None => (Http.Json 404 false "Portfolio not found" None, db)
  | Some portfolio =>
      if negb (Nat.eqb (Portfolio.user portfolio) (User._id requester))
      then (Http.Json 403 false "Not authorized to upload to this portfolio" None, db)
      else if negb (User.canUploadPhoto requester)
      then (Http.Json 403 false (quotaMessage requester) None, db)
      else
        match R2.processAndUploadImage env (faults run) (fileId run) (timestamp run)
                (buffer f) (options requester) (bucket db) with
        | (inl e, bucket') => (Http.Next e, with_bucket db bucket')
        | (inr uploadResult, bucket') =>
            match R2.thumbnail uploadResult with
            | None =>
                (Http.Next (JS.TypeError "Cannot read properties of null (reading 'url')"),
                 with_bucket db bucket')
            | Some thumb =>
                let main := R2.mainImage uploadResult in
                let photo :=
                  {| Photo._id := PhotoModel.fresh_id (photos db);
                     Photo.user := User._id requester;
                     Photo.portfolio := pid;
                     Photo.title :=
                       Some (if JS.truthy (title b) then orElse (title b) EmptyString
                             else defaultTitle f);
                     Photo.description := description b;
                     Photo.url := R2.i_url main;
                     Photo.publicId := R2.i_key main;
                     Photo.thumbnail := R2.i_url thumb;
                     Photo.width := R2.i_width main;
                     Photo.height := R2.i_height main;
                     Photo.tags := tagArray (tags b);
                     Photo.category := orElse (category b) Photo.other;
                     Photo.isPublic := orElse (isPublic b) true;
                     Photo.approvalStatus := Photo.pending;
                     Photo.views := 0;
                     Photo.createdAt := now |} in
                let '(users', photos') := PhotoModel.create (users db) (photos db) photo in
                (Http.Json 201 true "Photo uploaded successfully" (Some photo),
                 {| users := users'; portfolios := portfolios db;
                    photos := photos'; bucket := bucket' |})
            end
        end
  end end end end.

(** The quota test of POST /api/upload/photos, after the middleware:
    [req.files.length > remainingSlots]. *)
Definition remainingSlots (u : User.doc) : JS.Num :=
  match User.plan u with
  | User.free => JS.Fin (Z.max 0 (30 - User.totalPhotos u))
  | User.pro => JS.Infinity
  end.

Inductive Gate := quota_rejected (status : Z) | bad_request (status : Z) | passed.

(** The checks of POST /api/upload/photos up to the processing loop. *)
Definition uploadPhotosGate (db : Db) (requester : User.doc) (files : list File)
           (b : Body) : Gate :=
  match Middleware.checkSubscriptionLimits Middleware.lt_photos requester with
  | Some e => quota_rejected (fst e)
  | None =>
  match files with
  | [] => bad_request 400
  | _ :: _ =>
  match portfolioId b with
  | None => bad_request 400
  | Some pid =>
  match Portfolio.findById (portfolios db) pid with
  | None => bad_request 404
  | Some portfolio =>
      if negb (Nat.eqb (Portfolio.user portfolio) (User._id requester))
      then bad_request 403
      else if JS.gt (JS.Fin (Z.of_nat (List.length files))) (remainingSlots requester)
      then quota_rejected 403
      else passed
  end end end end.

(** [publicId.replace('.jpg', '_thumb.jpg')]: the first occurrence *)
Fixpoint replace (pat rep s : string) : string :=
  if String.prefix pat s
  then (rep ++ String.substring (String.length pat) (String.length s) s)%string
  else match s with
       | EmptyString => EmptyString
       | String c s' => String c (replace pat rep s')
       end.

(** DELETE /api/upload/photo/:id; [main_fails] and [thumbnail_fails]
    tell whether the first and the second storage call throw. Both
    calls are in one [try]: when the first throws the second is not
    made. The storage error is caught and logged. *)
Definition deletePhoto (main_fails thumbnail_fails : bool) (db : Db)
           (requester : User.doc) (id : ObjectId) : Http.Response unit * Db :=
  match Photo.findById (photos db) id with
  | None => (Http.Json 404 false "Photo not found" None, db)
  | Some photo =>
      if negb (Nat.eqb (Photo.user photo) (User._id requester))
      then (Http.Json 403 false "Not authorized to delete this photo" None, db)
      else
        let thumbnailKey := replace ".jpg" "_thumb.jpg" (Photo.publicId photo) in
        let '(_, bucket') :=
          R2.bind (R2.deleteFromR2 main_fails (Photo.publicId photo))
                  (fun _ => R2.deleteFromR2 thumbnail_fails thumbnailKey) (bucket db) in
        let '(users', photos') := PhotoModel.remove (users db) (photos db) photo in
        (Http.Json 200 true "Photo deleted successfully" None,
         {| users := users'; portfolios := portfolios db;
            photos := photos'; bucket := bucket' |})
  end.

End UploadRoute.

(** ** The other deletion paths of a photo *)
Module PhotoDeletion.

(** DELETE /api/photos/:id (routes/photos.js): [photo.deleteOne()] *)
Definition photosRoute (db : Db) (requester : User.doc) (id : ObjectId)
  : Http.Response unit * Db :=
  match Photo.findById (photos db) id with
  | None => (Http.Json 404 false "Photo not found" None, db)
  | Some photo =>
      if negb (Nat.eqb (Photo.user photo) (User._id requester))
      then (Http.Json 403 false "Not authorized to delete this photo" None, db)
      else
        let '(users', photos') := PhotoModel.deleteOne (users db) (photos db) photo in
        (Http.Json 200 true "Photo deleted successfully" None,
         with_photos db users' photos')
  end.

(** DELETE /api/admin/photos/:id (routes/admin.js):
    [Photo.findByIdAndDelete(id)] *)
Definition adminRoute (db : Db) (requester : User.doc) (id : ObjectId)
  : Http.Response unit * Db :=
  match Middleware.requireSuperAdmin requester with
  | Some e => (Http.Json (fst e) false (snd e) None, db)
  | None =>
      match Photo.findById (photos db) id with
      | None => (Http.Json 404 false "Photo not found" None, db)
      | Some _ =>
          let '(users', photos') :=
            PhotoModel.findByIdAndDelete (users db) (photos db) id in
          (Http.Json 200 true "Photo deleted successfully" None,
           with_photos db users' photos')
      end
  end.

End PhotoDeletion.

(** ** routes/auth.js, sessions and passwords *)
Module Session.

(** [userSchema.statics.findByEmailOrUsername]: both alternatives are
    compared with the lower-cased identifier. *)
Definition findByEmailOrUsername (coll : list User.doc) (identifier : string)
  : option User.doc :=
  find (fun u => String.eqb (User.email u) (JS.toLowerCase identifier)
                 || String.eqb (User.username u) (JS.toLowerCase identifier)) coll.

(** POST /api/auth/logout, behind [protect]: the refresh token of the
    body, when there is one, is removed from the requester. *)
Definition logout (coll : list User.doc) (now : Z) (bearer : option JWT.Token)
           (refreshToken : option JWT.Token) : Http.Response unit * list User.doc :=
  match Middleware.protect coll now bearer with
  | inl r => (r, coll)
  | inr requester =>
      (Http.Json 200 true "Logout successful" None,
       match refreshToken with
       | Some t => User.save coll (User.removeRefreshToken requester t)
       | None => coll
       end)
  end.

Definition is_lower (c : ascii) : bool :=
  let n := nat_of_ascii c in Nat.leb 97 n && Nat.leb n 122.

Definition is_upper (c : ascii) : bool :=
  let n := nat_of_ascii c in Nat.leb 65 n && Nat.leb n 90.

Definition is_digit (c : ascii) : bool :=
  let n := nat_of_ascii c in Nat.leb 48 n && Nat.leb n 57.

(** A string holds the UTF-8 bytes of a well-formed text. A byte
    10xxxxxx continues a character; every other byte starts one. *)
Definition is_continuation (c : ascii) : bool :=
  let n := nat_of_ascii c in Nat.leb 128 n && Nat.leb n 191.

Fixpoint codePoints (s : string) : nat :=
  match s with
  | EmptyString => 0%nat
  | String c s' => ((if is_continuation c then 0 else 1) + codePoints s')%nat
  end.

Definition utf8 (a b c : nat) : string :=
  String (ascii_of_nat a) (String (ascii_of_nat b) (String (ascii_of_nat c) EmptyString)).

(** U+FE0E and U+FE0F, the variation selectors [isLength] leaves out
    of its count. *)
Definition VS15 : string := utf8 239 184 142.
Definition VS16 : string := utf8 239 184 143.

Fixpoint presentationSequences (s : string) : nat :=
  match s with
  | EmptyString => 0%nat
  | String _ s' =>
      ((if String.prefix VS15 s || String.prefix VS16 s then 1 else 0)
       + presentationSequences s')%nat
  end.

(** The length [isLength] of the validator compares: [str.length] less
    the surrogate pairs and the variation selectors, that is the
    characters that are no variation selector. *)
Definition isLengthCount (s : string) : nat :=
  (codePoints s - presentationSequences s)%nat.

(** U+2028 and U+2029, line terminators as are LF and CR. *)
Definition LS : string := utf8 226 128 168.
Definition PS : string := utf8 226 128 169.

(** The text starts with a line terminator, which [.] does not match. *)
Definition lineTerminator (s : string) : bool :=
  match s with
  | EmptyString => false
  | String c _ =>
      let n := nat_of_ascii c in
      Nat.eqb n 10 || Nat.eqb n 13 || String.prefix LS s || String.prefix PS s
  end.

(** [/^(?=.*X)/] for a class [X] of ASCII characters: the class occurs
    before the first line terminator. *)
Fixpoint lookahead (class : ascii -> bool) (s : string) : bool :=
  match s with
  | EmptyString => false
  | String c s' => if lineTerminator s then false else class c || lookahead class s'
  end.

Record PasswordChange := {
  currentPassword : string;
  newPassword : string;
  confirmPassword : string
}.

(** The validation chain of PUT /api/auth/change-password:
    [notEmpty()], [isLength({ min: 6 })], the three lookaheads of
    [matches] and the comparison of the confirmation. *)
Definition validChange (b : PasswordChange) : bool :=
  negb (String.eqb (currentPassword b) EmptyString)
  && Nat.leb 6 (isLengthCount (newPassword b))
  && lookahead is_lower (newPassword b)
  && lookahead is_upper (newPassword b)
  && lookahead is_digit (newPassword b)
  && String.eqb (confirmPassword b) (newPassword b).

Definition set_password (u : User.doc) (p : string) : User.doc :=
  {| User._id := User._id u; User.username := User.username u;
     User.email := User.email u; User.password := p; User.role := User.role u;
     User.isActive := User.isActive u; User.plan := User.plan u;
     User.totalPhotos := User.totalPhotos u;
     User.refreshTokens := User.refreshTokens u;
     User.portfolios := User.portfolios u |}.

(** [user.password = newPassword; await user.save()]: the pre-save hook
    hashes the password when the assignment changed the field. *)
Definition assignPassword (u : User.doc) (newPassword : string) : User.doc :=
  if String.eqb newPassword (User.password u) then u
  else set_password u (Bcrypt.hash newPassword).

(** PUT /api/auth/change-password *)
Definition changePassword (coll : list User.doc) (now : Z) (bearer : option JWT.Token)
           (b : PasswordChange) : Http.Response unit * list User.doc :=
  match Middleware.protect coll now bearer with
  | inl r => (r, coll)
  | inr requester =>
      if negb (validChange b)
      then (Http.Json 400 false "Validation failed" None, coll)
      else
        match User.findById coll (User._id requester) with
        | None => (Http.Next (JS.TypeError "Cannot read properties of null"), coll)
        | Some user =>
            if negb (User.comparePassword user (currentPassword b))
            then (Http.Json 400 false "Current password is incorrect" None, coll)
            else (Http.Json 200 true "Password changed successfully" None,
                  User.save coll (assignPassword user (newPassword b)))
        end
  end.

End Session.

(** ** middleware/auth.js, the optional and the rate-limiting middleware *)
Module MiddlewareMore.

(** [optionalAuth]: the user attached to the request, if any; the
    request always goes on. *)
Definition optionalAuth (users : list User.doc) (now : Z) (token : option JWT.Token)
  : option User.doc :=
  match token with
  | None => None
  | Some t =>
      match JWT.verify t JWT.JWT_SECRET now with
      | inl _ => None
      | inr decoded =>
          match User.findById users decoded with
          | Some u => if User.isActive u then Some u else None
          | None => None
          end
      end
  end.


(** [canReviewPhotos] *)
Definition canReviewPhotos (requester : User.doc) : option (Z * string) :=
  if negb (User.Role_eqb (User.role requester) User.admin
           || User.Role_eqb (User.role requester) User.super_admin)
  then Some (403, "Admin access required to review photos"%string)
  else None.

(** An entry of the [Map] kept in [req.rateLimitStore]. *)
Record Window := { count : Z; resetTime : Z }.

Definition Store := list (string * Window).

Definition get (s : Store) (k : string) : option Window :=
  option_map snd (find (fun e => String.eqb (fst e) k) s).

Fixpoint set (s : Store) (k : string) (w : Window) : Store :=
  match s with
  | [] => [(k, w)]
  | e :: rest => if String.eqb (fst e) k then (k, w) :: rest else e :: set rest k w
  end.

(** [createRateLimit(windowMs, max, message)] applied to a request whose
    [rateLimitStore] property is [store] ([None] when the property is
    not set): whether the request is answered 429, and the property
    afterwards. An entry read from the map is reset in place when its
    window is over. *)
Definition createRateLimit (windowMs max now : Z) (store : option Store) (key : string)
  : bool * option Store :=
  let s := match store with Some s => s | None => [] end in
  let userLimits :=
    match get s key with
    | Some w => w
    | None => {| count := 0; resetTime := now + windowMs |}
    end in
  let userLimits :=
    if resetTime userLimits <? now
    then {| count := 0; resetTime := now + windowMs |}
    else userLimits in
  if max <=? count userLimits
  then (true,
        Some (match get s key with
              | Some _ => set s key userLimits
              | None => s
              end))
  else (false,
        Some (set s key {| count := count userLimits + 1;
                           resetTime := resetTime userLimits |})).

End MiddlewareMore.

(** ** models/Photo.js and routes/admin.js, the review of photos *)
Module Moderation.

Definition review (p : Photo.doc) (s : Photo.ApprovalStatus) (public : bool) : Photo.doc :=
  {| Photo._id := Photo._id p; Photo.user := Photo.user p;
     Photo.portfolio := Photo.portfolio p; Photo.title := Photo.title p;
     Photo.description := Photo.description p; Photo.url := Photo.url p;
     Photo.publicId := Photo.publicId p; Photo.thumbnail := Photo.thumbnail p;
     Photo.width := Photo.width p; Photo.height := Photo.height p;
     Photo.tags := Photo.tags p; Photo.category := Photo.category p;
     Photo.isPublic := public; Photo.approvalStatus := s;
     Photo.views := Photo.views p; Photo.createdAt := Photo.createdAt p |}.

(** [photoSchema.methods.approve] and [photoSchema.methods.reject],
    before their [save()] *)
Definition approve (p : Photo.doc) : Photo.doc := review p Photo.approved true.
Definition reject (p : Photo.doc) : Photo.doc := review p Photo.rejected false.

Definition R := (Http.Response Photo.doc * list Photo.doc)%type.

(** POST /api/admin/photos/:id/approve, behind [protect]; [notes] is the
    optional body field, at most 1000 characters. *)
Definition approvePhoto (coll : list Photo.doc) (requester : User.doc)
           (id : ObjectId) (notes : option string) : R :=
  match MiddlewareMore.canReviewPhotos requester with
  | Some e => (Http.Json (fst e) false (snd e) None, coll)
  | None =>
      if match notes with
         | Some n => Nat.ltb 1000 (String.length n)
         | None => false
         end
      then (Http.Json 400 false "Validation failed" None, coll)
      else
        match Photo.findById coll id with
        | None => (Http.Json 404 false "Photo not found" None, coll)
        | Some photo =>
            if negb (Photo.ApprovalStatus_eqb (Photo.approvalStatus photo) Photo.pending)
            then (Http.Json 400 false "Photo has already been reviewed" None, coll)
            else (Http.Json 200 true "Photo approved successfully"
                    (Some (approve photo)),
                  Photo.save coll (approve photo))
        end
  end.

(** POST /api/admin/photos/:id/reject; [reason] must not be empty and is
    at most 500 characters. *)
Definition rejectPhoto (coll : list Photo.doc) (requester : User.doc)
           (id : ObjectId) (reason : string) (notes : option string) : R :=
  match MiddlewareMore.canReviewPhotos requester with
  | Some e => (Http.Json (fst e) false (snd e) None, coll)
  | None =>
      if String.eqb reason EmptyString
         || Nat.ltb 500 (String.length reason)
         || match notes with
            | Some n => Nat.ltb 1000 (String.length n)
            | None => false
            end
      then (Http.Json 400 false "Validation failed" None, coll)
      else
        match Photo.findById coll id with
        | None => (Http.Json 404 false "Photo not found" None, coll)
        | Some photo =>
            if negb (Photo.ApprovalStatus_eqb (Photo.approvalStatus photo) Photo.pending)
            then (Http.Json 400 false "Photo has already been reviewed" None, coll)
            else (Http.Json 200 true "Photo rejected successfully"
                    (Some (reject photo)),
                  Photo.save coll (reject photo))
        end
  end.

Definition isPending (p : Photo.doc) : bool :=
  Photo.ApprovalStatus_eqb (Photo.approvalStatus p) Photo.pending.

(** GET /api/admin/photos/pending: [Photo.findPendingApproval] and the
    count of [{ approvalStatus: 'pending' }] *)
Definition pendingQueue (coll : list Photo.doc) (requester : User.doc) (page limit : Z)
  : Http.Response (list Photo.doc * Z) :=
  match MiddlewareMore.canReviewPhotos requester with
  | Some e => Http.Json (fst e) false (snd e) None
  | None =>
      Http.Json 200 true EmptyString
        (Some (Mongo.limit limit
                 (Mongo.skip ((page - 1) * limit)
                    (Mongo.sort [(Mongo.by_createdAt, true)] (filter isPending coll))),
               Z.of_nat (List.length (filter isPending coll))))
  end.

End Moderation.

(** ** routes/admin.js, POST /api/admin/fix-stats *)
Module FixStats.

Record Result := {
  username : string;
  oldCount : Z;
  newCount : Z;
  fixed : bool
}.

(** [Photo.countDocuments({ user: id })] *)
Definition actualPhotoCount (photos : list Photo.doc) (id : ObjectId) : Z :=
  Z.of_nat (List.length (filter (fun p => Nat.eqb (Photo.user p) id) photos)).

(** One turn of the loop over the users read at the start. *)
Definition step (photos : list Photo.doc) (acc : list User.doc * list Result)
           (user : User.doc) : list User.doc * list Result :=
  let n := actualPhotoCount photos (User._id user) in
  if negb (Z.eqb (User.totalPhotos user) n)
  then (User.findByIdAndUpdate (fst acc) (User._id user)
          (fun x => User.set_totalPhotos x n),
        snd acc ++ [{| username := User.username user;
                       oldCount := User.totalPhotos user; newCount := n;
                       fixed := true |}])
  else (fst acc,
        snd acc ++ [{| username := User.username user;
                       oldCount := User.totalPhotos user; newCount := n;
                       fixed := false |}]).

Definition fixAll (coll : list User.doc) (photos : list Photo.doc)
  : list User.doc * list Result :=
  fold_left (step photos) coll (coll, []).

Record Report := {
  totalUsers : Z;
  fixedUsers : Z;
  results : list Result
}.

(** The handler: the response data and the collection afterwards. *)
Definition fixStats (coll : list User.doc) (photos : list Photo.doc)
           (requester : User.doc) : Http.Response Report * list User.doc :=
  match Middleware.requireSuperAdmin requester with
  | Some e => (Http.Json (fst e) false (snd e) None, coll)
  | None =>
      let '(coll', rs) := fixAll coll photos in
      (Http.Json 200 true
         ("User stats fix completed. "
          ++ R2.str_of_Z (Z.of_nat (List.length (filter fixed rs)))
          ++ " users updated.")
         (Some {| totalUsers := Z.of_nat (List.length coll);
                  fixedUsers := Z.of_nat (List.length (filter fixed rs));
                  results := rs |}), coll')
  end.

End FixStats.

(** ** routes/upload.js, GET /api/upload/limits *)
Module Limits.

Definition maxPhotos (p : User.Plan) : JS.Num :=
  match p with
  | User.free => JS.Fin 30
  | User.pro => JS.Infinity
  end.

Definition maxPortfolios (p : User.Plan) : JS.Num :=
  match p with
  | User.free => JS.Fin 3
  | User.pro => JS.Infinity
  end.

(** [max === Infinity ? Infinity : Math.max(0, max - usage)] *)
Definition remaining (max : JS.Num) (usage : Z) : JS.Num :=
  match max with
  | JS.Infinity => JS.Infinity
  | JS.Fin m => JS.Fin (Z.max 0 (m - usage))
  end.

Definition maxFileSize (p : User.Plan) : Z :=
  match p with
  | User.free => 10 * 1024 * 1024
  | User.pro => 50 * 1024 * 1024
  end.

Definition maxFilesPerUpload (p : User.Plan) : Z :=
  match p with
  | User.free => 5
  | User.pro => 20
  end.

Record Report := {
  limitPhotos : JS.Num;
  limitPortfolios : JS.Num;
  limitFileSize : Z;
  limitFilesPerUpload : Z;
  usedPhotos : Z;
  usedPortfolios : Z;
  remainingPhotos : JS.Num;
  remainingPortfolios : JS.Num
}.

Definition limits (portfolios : list Portfolio.doc) (user : User.doc) : Report :=
  let owned :=
    Z.of_nat (List.length
                (filter (fun p => Nat.eqb (Portfolio.user p) (User._id user)) portfolios)) in
  {| limitPhotos := maxPhotos (User.plan user);
     limitPortfolios := maxPortfolios (User.plan user);
     limitFileSize := maxFileSize (User.plan user);
     limitFilesPerUpload := maxFilesPerUpload (User.plan user);
     usedPhotos := User.totalPhotos user;
     usedPortfolios := owned;
     remainingPhotos := remaining (maxPhotos (User.plan user)) (User.totalPhotos user);
     remainingPortfolios := remaining (maxPortfolios (User.plan user)) owned |}.

End Limits.

(** ** server.js, [initializeDatabase] *)
Module Server.

Definition superAdmin (id : ObjectId) : User.doc :=
  {| User._id := id; User.username := "superadmin"; User.email := "admin@lens.com";
     User.password := Bcrypt.hash "admin123"; User.role := User.super_admin;
     User.isActive := true; User.plan := User.pro; User.totalPhotos := 0;
     User.refreshTokens := []; User.portfolios := User.array_path "portfolios" |}.

(** The unique indexes on [username] and [email]. *)
Definition taken (coll : list User.doc) (u : User.doc) : bool :=
  existsb (fun x => String.eqb (User.username x) (User.username u)
                    || String.eqb (User.email x) (User.email u)) coll.

(** The first part of [initializeDatabase]: an initial super admin is
    created when no user has the role; a failing creation is logged and
    otherwise ignored. *)
Definition initializeDatabase (coll : list User.doc) : list User.doc :=
  match find (fun u => User.Role_eqb (User.role u) User.super_admin) coll with
  | Some _ => coll
  | None =>
      let u := superAdmin (User.fresh_id coll) in
      if taken coll u then coll else coll ++ [u]
  end.

End Server.

(** ** routes/portfolios.js, the portfolio page and the default portfolio *)
Module PortfolioPage.



Section Page.
(** [regexTest] is not used by this query; [order] reads the [order]
    field of a photo, which the document record leaves out.
    [ownerTest u p] is [user._id.toString() === this.user.toString()]
    for the requester [u] and the portfolio [p] that [findBySlug]
    returned with its [user] path populated. *)
Variable regexTest : string -> string -> bool.
Variable order : Photo.doc -> Z.
Variable ownerTest : ObjectId -> Portfolio.doc -> bool.

(** [portfolioSchema.methods.canAccess]; the requester is [req.user]. *)
Definition canAccess (p : Portfolio.doc) (requester : option ObjectId) : bool :=
  if Portfolio.isPublic p then true
  else match requester with
       | None => false
       | Some u => ownerTest u p
       end.

(** [{ order: 1, createdAt: -1 }] *)
Definition before (a b : Photo.doc) : bool :=
  if Z.eqb (order a) (order b) then Z.leb (Photo.createdAt b) (Photo.createdAt a)
  else Z.ltb (order a) (order b).

Fixpoint insert (a : Photo.doc) (l : list Photo.doc) : list Photo.doc :=
  match l with
  | [] => [a]
  | b :: l' => if before a b then a :: l else b :: insert a l'
  end.

Definition sort (l : list Photo.doc) : list Photo.doc := fold_right insert [] l.


End Page.

(** [Portfolio.findOne({ user }).sort('createdAt')]: the oldest
    portfolio of the user, the first stored among equals. *)
Fixpoint oldest (coll : list Portfolio.doc) (owner : ObjectId) : option Portfolio.doc :=
  match coll with
  | [] => None
  | p :: rest =>
      if Nat.eqb (Portfolio.user p) owner
      then match oldest rest owner with
           | Some q => if Z.ltb (Portfolio.createdAt q) (Portfolio.createdAt p)
                       then Some q else Some p
           | None => Some p
           end
      else oldest rest owner
  end.

(** The validators of the [title] and [slug] paths of portfolioSchema,
    on the values their setters ([trim], [lowercase]) produced:
    [required], [maxlength: 100] and [match: /^[a-z0-9-]+$/]. *)
Fixpoint slugChars (s : string) : bool :=
  match s with
  | EmptyString => true
  | String c s' =>
      (Session.is_lower c || Session.is_digit c || Ascii.eqb c "-") && slugChars s'
  end.

Definition validate (p : Portfolio.doc) : bool :=
  negb (String.eqb (Portfolio.title p) EmptyString)
  && Nat.leb (String.length (Portfolio.title p)) 100
  && negb (String.eqb (Portfolio.slug p) EmptyString)
  && slugChars (Portfolio.slug p).

(** GET /api/portfolios/default; [nowMs] is [Date.now()]. The document
    validation of [Portfolio.create] runs before the save hooks. *)
Definition getDefault (coll : list Portfolio.doc) (requester : User.doc) (nowMs : Z)
  : Http.Response Portfolio.doc * list Portfolio.doc :=
  match find (fun p => Nat.eqb (Portfolio.user p) (User._id requester)
                        && Portfolio.isDefault p) coll with
  | Some portfolio => (Http.Json 200 true EmptyString (Some portfolio), coll)
  | None =>
      match filter (fun p => Nat.eqb (Portfolio.user p) (User._id requester)) coll with
      | [] =>
          let p := {| Portfolio._id := Portfolio.fresh_id coll;
                      Portfolio.user := User._id requester;
                      Portfolio.title :=
                        JS.trim (User.username requester ++ "'s Portfolio")%string;
                      Portfolio.slug :=
                        JS.trim (JS.toLowerCase (User.username requester ++ "-portfolio-"
                                                 ++ R2.str_of_Z nowMs)%string);
                      Portfolio.isPublic := true;
                      Portfolio.isDefault := true;
                      Portfolio.createdAt := nowMs |} in
          if negb (validate p)
          then (Http.Next (JS.PlainError "Portfolio validation failed"), coll)
          else
          match Portfolio.create coll true p with
          | (Some e, coll') => (Http.Next e, coll')
          | (None, coll') => (Http.Json 200 true EmptyString (Some p), coll')
          end
      | _ :: _ =>
          match oldest coll (User._id requester) with
          | Some portfolio =>
              let p' := Portfolio.set_isDefault portfolio true in
              (Http.Json 200 true EmptyString (Some p'), Portfolio.save coll portfolio p')
          | None => (Http.Json 404 false "No portfolio found" None, coll)
          end
      end
  end.

End PortfolioPage.

(** ** routes/admin.js, GET /api/admin/users *)
Module AdminUsers.

Definition roleName (r : User.Role) : string :=
  match r with
  | User.user => "user"
  | User.admin => "admin"
  | User.super_admin => "super_admin"
  end.






Section Listing.
(** [regexTest] is the case-insensitive [$regex]; [nameTest q u] is the
    same test on [firstName] and [lastName], and [createdAt] the
    creation time, fields the user record leaves out. *)
Variable regexTest : string -> string -> bool.
Variable nameTest : string -> User.doc -> bool.
Variable createdAt : User.doc -> Z.

(** The [role] key of the query. *)
Definition roleQuery (requester : User.doc) (role : option string) (u : User.doc) : bool :=
  match role with
  | Some r =>
      if JS.truthy role && negb (String.eqb r "super_admin")
      then String.eqb (roleName (User.role u)) r
      else match User.role requester with
           | User.admin => User.Role_eqb (User.role u) User.user
           | User.super_admin =>
               User.Role_eqb (User.role u) User.user
               || User.Role_eqb (User.role u) User.admin
           | User.user => true
           end
  | None =>
      match User.role requester with
      | User.admin => User.Role_eqb (User.role u) User.user
      | User.super_admin =>
          User.Role_eqb (User.role u) User.user
          || User.Role_eqb (User.role u) User.admin
      | User.user => true
      end
  end.

Definition searchQuery (search : option string) (u : User.doc) : bool :=
  match search with
  | Some q =>
      if JS.truthy search
      then regexTest q (User.username u) || regexTest q (User.email u) || nameTest q u
      else true
  | None => true
  end.

Definition matches (requester : User.doc) (role search : option string) (u : User.doc)
  : bool :=
  roleQuery requester role u && searchQuery search u.

Fixpoint insert (a : User.doc) (l : list User.doc) : list User.doc :=
  match l with
  | [] => [a]
  | b :: l' => if Z.leb (createdAt b) (createdAt a) then a :: l else b :: insert a l'
  end.

(** [.sort({ createdAt: -1 })] *)
Definition sort (l : list User.doc) : list User.doc := fold_right insert [] l.

Definition page (limit skip : Z) (l : list User.doc) : list User.doc :=
  let l' := skipn (Z.to_nat skip) l in
  if Z.eqb limit 0 then l' else firstn (Z.to_nat limit) l'.


End Listing.

End AdminUsers.

(** ** models/Portfolio.js and models/User.js, the hooks of the deletions *)
Module Cascade.

Inductive PortfolioHook := makeSlug | clearDefaults | deletePhotos.

(** The [portfolioSchema.pre(...)] registrations, in order. *)
Definition portfolioPre : list (PhotoModel.Op * PortfolioHook) :=
  [(PhotoModel.op_save, makeSlug); (PhotoModel.op_save, clearDefaults);
   (PhotoModel.op_remove, deletePhotos)].

(** What the hooks of an operation on the portfolio [p] do to the
    photos; the 'save' hooks do not touch them. *)
Definition runPortfolioPre (op : PhotoModel.Op) (p : Portfolio.doc)
           (photos : list Photo.doc) : list Photo.doc :=
  fold_left
    (fun ps e =>
       if PhotoModel.Op_eqb (fst e) op
       then match snd e with
            | deletePhotos =>
                filter (fun x => negb (Nat.eqb (Photo.portfolio x) (Portfolio._id p))) ps
            | _ => ps
            end
       else ps)
    portfolioPre photos.

Fixpoint deleteFirst (coll : list Portfolio.doc) (id : ObjectId) : list Portfolio.doc :=
  match coll with
  | [] => []
  | x :: rest =>
      if Nat.eqb (Portfolio._id x) id then rest else x :: deleteFirst rest id
  end.

(** DELETE /api/portfolios/:id, behind [protect]: [portfolio.deleteOne()] *)
Definition deletePortfolio (portfolios : list Portfolio.doc) (photos : list Photo.doc)
           (requester : User.doc) (id : ObjectId)
  : Http.Response unit * list Portfolio.doc * list Photo.doc :=
  match Portfolio.findById portfolios id with
  | None => (Http.Json 404 false "Portfolio not found" None, portfolios, photos)
  | Some portfolio =>
      if negb (Nat.eqb (Portfolio.user portfolio) (User._id requester))
      then (Http.Json 403 false "Not authorized to delete this portfolio" None,
            portfolios, photos)
      else (Http.Json 200 true "Portfolio deleted successfully" None,
            deleteFirst portfolios (Portfolio._id portfolio),
            runPortfolioPre PhotoModel.op_deleteOne portfolio photos)
  end.

Inductive UserHook := hashPassword | deleteOwned.

(** The [userSchema.pre(...)] registrations, in order. *)
Definition userPre : list (PhotoModel.Op * UserHook) :=
  [(PhotoModel.op_save, hashPassword); (PhotoModel.op_remove, deleteOwned)].

(** What the hooks of an operation on the user [u] do to the portfolios
    and the photos. *)
Definition runUserPre (op : PhotoModel.Op) (u : User.doc)
           (owned : list Portfolio.doc * list Photo.doc)
  : list Portfolio.doc * list Photo.doc :=
  fold_left
    (fun acc e =>
       if PhotoModel.Op_eqb (fst e) op
       then match snd e with
            | deleteOwned =>
                (filter (fun x => negb (Nat.eqb (Portfolio.user x) (User._id u))) (fst acc),
                 filter (fun x => negb (Nat.eqb (Photo.user x) (User._id u))) (snd acc))
            | hashPassword => acc
            end
       else acc)
    userPre owned.

(** DELETE /api/auth/me on the whole state: the handler of [AuthRoute]
    and, when it got as far as [user.deleteOne()], the hooks of that
    operation. *)
Definition deleteMe (db : Db) (now : Z) (bearer : option JWT.Token) (password : string)
  : Http.Response unit * Db :=
  let '(r, users') := AuthRoute.deleteMe (users db) now bearer password in
  match Middleware.protect (users db) now bearer with
  | inr requester =>
      if Http.succeeded r
      then let '(portfolios', photos') :=
             runUserPre PhotoModel.op_deleteOne requester (portfolios db, photos db) in
           (r, {| users := users'; portfolios := portfolios';
                  photos := photos'; bucket := bucket db |})
      else (r, db)
  | inl _ => (r, db)
  end.

End Cascade.

(** ** routes/photos.js and routes/users.js, the order of the routes *)
Module Router.

Inductive Method := GET | POST | PUT | DELETE.

Definition Method_eqb (a b : Method) : bool :=
  match a, b with
  | GET, GET | POST, POST | PUT, PUT | DELETE, DELETE => true
  | _, _ => false
  end.

(** A segment of a route path: a literal or a named parameter. *)
Inductive Seg := lit (s : string) | param (name : string).

(** A request path is the list of its segments. A literal is compared
    without regard to case, the default of an Express router, and a
    parameter takes any segment; the result is [req.params]. *)
Fixpoint matchPath (pattern : list Seg) (path : list string)
  : option (list (string * string)) :=
  match pattern, path with
  | [], [] => Some []
  | lit s :: pattern', x :: path' =>
      if String.eqb (JS.toLowerCase x) (JS.toLowerCase s)
      then matchPath pattern' path' else None
  | param n :: pattern', x :: path' =>
      option_map (cons (n, x)) (matchPath pattern' path')
  | _, _ => None
  end.

Record Route (H : Type) := {
  method : Method;
  pattern : list Seg;
  handler : H
}.

(** The route that handles a request: the first one, in the order of
    registration, with the method of the request and a pattern that
    matches its path. The chains of these routers never pass a request
    on to a later route: each ends it with a response or with
    [next(error)]. *)
Definition dispatch {H} (routes : list (Route H)) (m : Method) (path : list string)
  : option (H * list (string * string)) :=
  match find (fun r => Method_eqb (method r) m
                       && match matchPath (pattern r) path with
                          | Some _ => true
                          | None => false
                          end) routes with
  | Some r => option_map (pair (handler r)) (matchPath (pattern r) path)
  | None => None
  end.

Definition isHex (c : ascii) : bool :=
  let n := nat_of_ascii c in
  (Nat.leb 48 n && Nat.leb n 57) || (Nat.leb 97 n && Nat.leb n 102)
  || (Nat.leb 65 n && Nat.leb n 70).

(** [isMongoId()] of the validator: 24 hexadecimal digits. *)
Definition isMongoId (s : string) : bool :=
  Nat.eqb (String.length s) 24 && forallb isHex (list_ascii_of_string s).

Inductive PhotosHandler :=
| listPhotos | presignedUrl | debugTestUrl | debugAll | myPhotos | featured
| trending | getPhoto | updatePhoto | deletePhoto | likePhoto | downloadPhoto
| sharePhoto | photoAnalytics | reorderPhotos.

(** The routes of routes/photos.js, in the order of the file. *)
Definition photosRoutes : list (Route PhotosHandler) :=
  [ {| method := GET; pattern := []; handler := listPhotos |};
    {| method := GET; pattern := [param "photoId"; lit "presigned-url"];
       handler := presignedUrl |};
    {| method := GET; pattern := [lit "debug"; lit "test-url"; param "photoId"];
       handler := debugTestUrl |};
    {| method := GET; pattern := [lit "debug"; lit "all"]; handler := debugAll |};
    {| method := GET; pattern := [lit "my"]; handler := myPhotos |};
    {| method := GET; pattern := [lit "featured"]; handler := featured |};
    {| method := GET; pattern := [lit "trending"]; handler := trending |};
    {| method := GET; pattern := [param "id"]; handler := getPhoto |};
    {| method := PUT; pattern := [param "id"]; handler := updatePhoto |};
    {| method := DELETE; pattern := [param "id"]; handler := deletePhoto |};
    {| method := POST; pattern := [param "id"; lit "like"]; handler := likePhoto |};
    {| method := POST; pattern := [param "id"; lit "download"];
       handler := downloadPhoto |};
    {| method := POST; pattern := [param "id"; lit "share"]; handler := sharePhoto |};
    {| method := GET; pattern := [param "id"; lit "analytics"];
       handler := photoAnalytics |};
    {| method := PUT; pattern := [lit "reorder"]; handler := reorderPhotos |} ].

Inductive UsersHandler :=
| getProfile | userPortfolios | userPhotos | myProfile | updateMyProfile | myStats
| searchUsers | follow | followers | following.

(** The routes of routes/users.js, in the order of the file. *)
Definition usersRoutes : list (Route UsersHandler) :=
  [ {| method := GET; pattern := [param "username"]; handler := getProfile |};
    {| method := GET; pattern := [param "username"; lit "portfolios"];
       handler := userPortfolios |};
    {| method := GET; pattern := [param "username"; lit "photos"];
       handler := userPhotos |};
    {| method := GET; pattern := [lit "me"; lit "profile"]; handler := myProfile |};
    {| method := PUT; pattern := [lit "me"; lit "profile"];
       handler := updateMyProfile |};
    {| method := GET; pattern := [lit "me"; lit "stats"]; handler := myStats |};
    {| method := GET; pattern := [lit "search"]; handler := searchUsers |};
    {| method := POST; pattern := [param "username"; lit "follow"]; handler := follow |};
    {| method := GET; pattern := [param "username"; lit "followers"];
       handler := followers |};
    {| method := GET; pattern := [param "username"; lit "following"];
       handler := following |} ].

End Router.

(** ** The invariant on default portfolios *)

(** At most one default portfolio per user. *)
Definition oneDefault (coll : list Portfolio.doc) : Prop :=
  forall owner, (List.length (Portfolio.defaultsOf coll owner) <= 1)%nat.

(** ** Vocabulary of the statements about the pipeline *)

(** A fault before the first upload. *)
Definition earlyFault (f : R2.Faults) : bool :=
  R2.metadata_fails f || R2.resize_fails f || R2.upload_main_fails f.

(** A fault in a stage that runs under the options [o] and whose error
    is not caught by the stage itself. *)
Definition stageFails (f : R2.Faults) (o : R2.Options) : bool :=
  earlyFault f
  || (R2.generateThumbnail o && (R2.thumbnail_fails f || R2.upload_thumbnail_fails f)).

(** The main object [processAndUploadImage] puts in the bucket. *)
Definition mainObject (env : R2.Env) (fileId : string) (timestamp : Z)
           (buffer : Sharp.Buffer) (o : R2.Options) : R2.Object :=
  {| R2.key :=
       R2.generateKey env (R2.folder o)
         (R2.str_of_id (R2.userId o) ++ "/" ++ R2.str_of_Z timestamp ++ "_"
          ++ fileId ++ ".jpg");
     R2.body := Sharp.resizeInside buffer (R2.maxWidth o) (R2.maxHeight o);
     R2.type := "main" |}.

(** ** Sample data *)

(** A photo as POST /api/upload/photo stores it by default: public,
    awaiting review. *)
Definition pendingPublicPhoto : Photo.doc :=
  {| Photo._id := 1%nat; Photo.user := 7%nat; Photo.portfolio := 3%nat;
     Photo.title := Some "dunes"%string; Photo.description := None;
     Photo.url := "https://cdn/dev/photos/7/1_a.jpg";
     Photo.publicId := "dev/photos/7/1_a.jpg";
     Photo.thumbnail := "https://cdn/dev/photos/7/1_a_thumb.jpg";
     Photo.width := 800; Photo.height := 600; Photo.tags := [];
     Photo.category := Photo.other; Photo.isPublic := true;
     Photo.approvalStatus := Photo.pending; Photo.views := 0;
     Photo.createdAt := 1000 |}.

Definition alice : User.doc :=
  {| User._id := 7%nat; User.username := "alice"; User.email := "alice@example.com";
     User.password := Bcrypt.hash "s3cret"; User.role := User.user;
     User.isActive := true; User.plan := User.free; User.totalPhotos := 1;
     User.refreshTokens := []; User.portfolios := None |}.

Definition portfolio1 : Portfolio.doc :=
  {| Portfolio._id := 1%nat; Portfolio.user := 7%nat; Portfolio.title := "My Photos";
     Portfolio.slug := "alice-photos"; Portfolio.isPublic := true;
     Portfolio.isDefault := true; Portfolio.createdAt := 1000 |}.

Definition portfolio2 : Portfolio.doc :=
  {| Portfolio._id := 2%nat; Portfolio.user := 7%nat; Portfolio.title := "Street";
     Portfolio.slug := "street"; Portfolio.isPublic := true;
     Portfolio.isDefault := false; Portfolio.createdAt := 2000 |}.

Definition makeDefault : Portfolio.Update :=
  {| Portfolio.u_title := None; Portfolio.u_isPublic := None;
     Portfolio.u_isDefault := Some true |}.

Definition bobToken : JWT.Token :=
  JWT.sign 5%nat JWT.JWT_REFRESH_SECRET JWT.JWT_REFRESH_EXPIRE 1000.

Definition bob : User.doc :=
  {| User._id := 5%nat; User.username := "bob"; User.email := "bob@example.com";
     User.password := Bcrypt.hash "hunter2"; User.role := User.user;
     User.isActive := true; User.plan := User.free; User.totalPhotos := 0;
     User.refreshTokens := [bobToken]; User.portfolios := None |}.

Definition carol : AuthRoute.RegisterBody :=
  {| AuthRoute.username := "carol"; AuthRoute.email := "carol@example.com";
     AuthRoute.password := "pa55word" |}.

Definition emptyDb : AuthRoute.Db :=
  {| AuthRoute.users := []; AuthRoute.portfolios := [] |}.

Definition root : User.doc :=
  {| User._id := 1%nat; User.username := "superadmin"; User.email := "admin@lens.com";
     User.password := Bcrypt.hash "admin123"; User.role := User.super_admin;
     User.isActive := true; User.plan := User.pro; User.totalPhotos := 0;
     User.refreshTokens := []; User.portfolios := None |}.

Definition rootBearer : JWT.Token := User.generateAuthToken root 1000.

Definition devEnv : R2.Env :=
  {| R2.ENVIRONMENT_PREFIX := "dev"; R2.PUBLIC_URL := "https://cdn" |}.

Definition landscape4000 : Sharp.Buffer :=
  {| Sharp.width := 4000; Sharp.height := 3000; Sharp.format := "png";
     Sharp.raster := [(255, 0, 0); (255, 0, 0); (0, 0, 255)] |}.

Definition oneFile : UploadRoute.File :=
  {| UploadRoute.originalname := "dunes.png"; UploadRoute.buffer := landscape4000 |}.

Definition intoPortfolio1 : UploadRoute.Body :=
  {| UploadRoute.portfolioId := Some 1%nat; UploadRoute.title := None;
     UploadRoute.description := None; UploadRoute.tags := None;
     UploadRoute.category := None; UploadRoute.isPublic := None |}.

Definition cleanRun : UploadRoute.Run :=
  {| UploadRoute.faults := R2.noFaults; UploadRoute.fileId := "f1";
     UploadRoute.timestamp := 1700 |}.

Definition thumbnailUploadFails : R2.Faults :=
  {| R2.metadata_fails := false; R2.resize_fails := false;
     R2.upload_main_fails := false; R2.thumbnail_fails := false;
     R2.upload_thumbnail_fails := true; R2.colors_fail := false |}.

Definition colorsFail : R2.Faults :=
  {| R2.metadata_fails := false; R2.resize_fails := false;
     R2.upload_main_fails := false; R2.thumbnail_fails := false;
     R2.upload_thumbnail_fails := false; R2.colors_fail := true |}.

Definition withoutThumbnail : R2.Options :=
  {| R2.userId := 7%nat; R2.folder := "photos"; R2.quality := 85;
     R2.maxWidth := 2048; R2.maxHeight := 2048; R2.generateThumbnail := false;
     R2.thumbnailSize := 300; R2.extractColors := true |}.

Definition dave : User.doc :=
  {| User._id := 9%nat; User.username := "dave"; User.email := "dave@example.com";
     User.password := Bcrypt.hash "pa55"; User.role := User.user;
     User.isActive := true; User.plan := User.pro; User.totalPhotos := 5000;
     User.refreshTokens := []; User.portfolios := None |}.

Definition erin : User.doc :=
  {| User._id := 8%nat; User.username := "erin"; User.email := "erin@example.com";
     User.password := Bcrypt.hash "pa55"; User.role := User.user;
     User.isActive := true; User.plan := User.free; User.totalPhotos := 30;
     User.refreshTokens := []; User.portfolios := None |}.

Definition storedMain : R2.Object :=
  {| R2.key := "dev/photos/7/1_a.jpg";
     R2.body := {| Sharp.width := 800; Sharp.height := 600; Sharp.format := "jpeg";
                   Sharp.raster := [] |};
     R2.type := "main" |}.

Definition storedThumbnail : R2.Object :=
  {| R2.key := "dev/photos/7/1_a_thumb.jpg";
     R2.body := {| Sharp.width := 300; Sharp.height := 300; Sharp.format := "jpeg";
                   Sharp.raster := [] |};
     R2.type := "thumbnail" |}.

(** Alice with her one photo and its two stored objects, and the super
    admin. *)
Definition gallery : Db :=
  {| users := [alice; root]; portfolios := [portfolio1; portfolio2];
     photos := [pendingPublicPhoto]; bucket := [storedMain; storedThumbnail] |}.

(** ** More vocabulary and sample data *)

Definition hasUpper (s : string) : bool :=
  existsb Session.is_upper (list_ascii_of_string s).

Definition noDot (s : string) : bool :=
  forallb (fun c => negb (Ascii.eqb c "."%char)) (list_ascii_of_string s).

Definition privatePhoto : Photo.doc :=
  {| Photo._id := 2%nat; Photo.user := 7%nat; Photo.portfolio := 1%nat;
     Photo.title := Some "draft"%string; Photo.description := None;
     Photo.url := "https://cdn/dev/photos/7/2_b.jpg";
     Photo.publicId := "dev/photos/7/2_b.jpg";
     Photo.thumbnail := "https://cdn/dev/photos/7/2_b_thumb.jpg";
     Photo.width := 640; Photo.height := 480; Photo.tags := [];
     Photo.category := Photo.other; Photo.isPublic := false;
     Photo.approvalStatus := Photo.pending; Photo.views := 0;
     Photo.createdAt := 1500 |}.

Definition moderator : User.doc :=
  {| User._id := 3%nat; User.username := "mod"; User.email := "mod@example.com";
     User.password := Bcrypt.hash "m0dpass"; User.role := User.admin;
     User.isActive := true; User.plan := User.free; User.totalPhotos := 0;
     User.refreshTokens := []; User.portfolios := None |}.

Definition titleOnly : Portfolio.Update :=
  {| Portfolio.u_title := Some "Renamed"%string; Portfolio.u_isPublic := None;
     Portfolio.u_isDefault := None |}.

Definition zoe : User.doc :=
  {| User._id := 4%nat; User.username := "Zoe"; User.email := "zoe@example.com";
     User.password := Bcrypt.hash "Secr3t"; User.role := User.user;
     User.isActive := true; User.plan := User.free; User.totalPhotos := 0;
     User.refreshTokens := []; User.portfolios := None |}.

Definition bobBearer : JWT.Token := User.generateAuthToken bob 1000.

Definition bobNewPassword : Session.PasswordChange :=
  {| Session.currentPassword := "hunter2"; Session.newPassword := "Hunter3";
     Session.confirmPassword := "Hunter3" |}.

(** A user with the counter that POST /api/admin/fix-stats computes. *)
Definition recounted (photos : list Photo.doc) (u : User.doc) : User.doc :=
  User.set_totalPhotos u (FixStats.actualPhotoCount photos (User._id u)).

(** The counter of a user differs from the number of the user's photos. *)
Definition drifted (photos : list Photo.doc) (u : User.doc) : bool :=
  negb (Z.eqb (User.totalPhotos u) (FixStats.actualPhotoCount photos (User._id u))).

Definition draftQueue : list Photo.doc := [pendingPublicPhoto; privatePhoto].

(** The order of a palette: percentages from high to low. *)
Definition byShare (a b : string * Z) : Prop := snd b <= snd a.

Definition approvedPhoto : Photo.doc :=
  {| Photo._id := 3%nat; Photo.user := 7%nat; Photo.portfolio := 1%nat;
     Photo.title := Some "harbour"%string; Photo.description := None;
     Photo.url := "https://cdn/dev/photos/7/3_c.jpg";
     Photo.publicId := "dev/photos/7/3_c.jpg";
     Photo.thumbnail := "https://cdn/dev/photos/7/3_c_thumb.jpg";
     Photo.width := 1024; Photo.height := 768; Photo.tags := [];
     Photo.category := Photo.other; Photo.isPublic := true;
     Photo.approvalStatus := Photo.approved; Photo.views := 4;
     Photo.createdAt := 1800 |}.

Definition showcase : list Photo.doc :=
  [pendingPublicPhoto; privatePhoto; approvedPhoto].

(** The owner test of a route that compares the requester's identifier
    with a populated document: the two never render alike. *)
Definition neverOwner (u : ObjectId) (p : Photo.doc) : bool := false.

(** The letter e with an acute accent, U+00E9, in UTF-8, and a password
    of five characters that takes seven bytes. *)
Definition eAcute : string :=
  String (ascii_of_nat 195) (String (ascii_of_nat 169) EmptyString).

Definition fiveCharacters : string := ("Aa1" ++ eAcute ++ eAcute)%string.

(** * Properties *)

(** ** Public listing and direct fetch of photos *)
Section PhotoVisibility.

Variable regexTest : string -> string -> bool.
Variable patternError : string -> option JS.Error.
Variable ownerTest : ObjectId -> Photo.doc -> bool.

Lemma insert_In s a l x : In x (Mongo.insert s a l) <-> x = a \/ In x l.
Proof.
  induction l as [|b l IH]; simpl.
  - intuition.
  - destruct (Mongo.before s a b); simpl; rewrite ?IH; intuition.
Qed.

Lemma sort_In s l x : In x (Mongo.sort s l) <-> In x l.
Proof.
  induction l as [|a l IH]; simpl; [tauto|].
  rewrite insert_In, IH. intuition.
Qed.

Lemma limit_In n l x : In x (Mongo.limit n l) -> In x l.
Proof.
  unfold Mongo.limit. destruct (n =? 0); [tauto|].
  intros H. rewrite <- (firstn_skipn (Z.to_nat n) l).
  apply in_or_app. now left.
Qed.

Lemma skip_In n l x : In x (Mongo.skip n l) -> In x l.
Proof.
  unfold Mongo.skip. intros H. rewrite <- (firstn_skipn (Z.to_nat n) l).
  apply in_or_app. now right.
Qed.

(** Whatever [Photo.search] returns is stored and matches the query. *)
Lemma search_sound searchQuery coll query o found x :
  PhotosRoute.search regexTest patternError searchQuery coll query o = inr found ->
  In x found ->
  In x coll /\ Mongo.matches regexTest (searchQuery query o) x = true.
Proof.
  unfold PhotosRoute.search, Mongo.find.
  destruct (PhotosRoute.thrown patternError query); [discriminate|].
  intros E H. injection E as <-.
  apply limit_In, skip_In in H. apply sort_In in H.
  apply filter_In in H. exact H.
Qed.

(** A page of GET /api/photos is what the search found. *)
Lemma listing_page searchQuery coll r l :
  Http.data (PhotosRoute.listPhotos regexTest patternError searchQuery coll r) = Some l ->
  PhotosRoute.search regexTest patternError searchQuery coll (PhotosRoute.q r)
    (PhotosRoute.searchOptions r) = inr (PhotosRoute.photos l) /\
  PhotosRoute.total (PhotosRoute.pagination l)
  = Mongo.countDocuments regexTest coll (PhotosRoute.countFilter r) /\
  PhotosRoute.pages (PhotosRoute.pagination l)
  = PhotosRoute.ceil_div (PhotosRoute.total (PhotosRoute.pagination l)) (PhotosRoute.limit r).
Proof.
  unfold PhotosRoute.listPhotos.
  destruct (PhotosRoute.search _ _ _ _ _ _) as [e|found]; [discriminate|].
  simpl. intros H. injection H as <-. auto.
Qed.

Lemma isPublic_eq_true_inv p : Bool.eqb (Photo.isPublic p) true = true -> Photo.isPublic p = true.
Proof. destruct (Photo.isPublic p); simpl; congruence. Qed.

(** Both variants of the search query demand [isPublic: true] when
    they are called by GET /api/photos. *)
Lemma legacy_query_public r p :
  Mongo.matches regexTest (PhotoSchema.searchQuery (PhotosRoute.q r) (PhotosRoute.searchOptions r)) p = true ->
  Photo.isPublic p = true.
Proof.
  unfold Mongo.matches, PhotoSchema.searchQuery. simpl.
  intros H. apply andb_true_iff in H. destruct H as [H _].
  now apply isPublic_eq_true_inv.
Qed.

Lemma moderated_query_public_approved r p :
  Mongo.matches regexTest
    (ModeratedPhotoSchema.searchQuery (PhotosRoute.q r) (PhotosRoute.searchOptions r)) p = true ->
  Photo.isPublic p = true /\ Photo.approvalStatus p = Photo.approved.
Proof.
  unfold Mongo.matches, ModeratedPhotoSchema.searchQuery. simpl.
  intros H. apply andb_true_iff in H. destruct H as [H1 H].
  apply andb_true_iff in H. destruct H as [H2 _].
  split; [now apply isPublic_eq_true_inv|].
  destruct (Photo.approvalStatus p); simpl in H2; congruence.
Qed.

(** A photo with [isPublic = false] is never on a page of GET
    /api/photos, whichever Photo model the route is linked with. *)
Lemma private_photo_not_listed coll r p l :
  Photo.isPublic p = false ->
  (Http.data (PhotosRoute.listPhotos regexTest patternError PhotoSchema.searchQuery coll r)
   = Some l \/
   Http.data (PhotosRoute.listPhotos regexTest patternError ModeratedPhotoSchema.searchQuery
                coll r) = Some l) ->
  ~ In p (PhotosRoute.photos l).
Proof.
  intros Hp [H|H] Hin; apply listing_page in H; destruct H as [H _];
    destruct (@search_sound _ _ _ _ _ _ H Hin) as [_ Hm].
  - apply legacy_query_public in Hm. congruence.
  - apply moderated_query_public_approved in Hm. destruct Hm. congruence.
Qed.

(** With the moderated model a photo that is not approved is not
    listed either. *)
Lemma unapproved_photo_not_listed_moderated coll r p l :
  Photo.approvalStatus p <> Photo.approved ->
  Http.data (PhotosRoute.listPhotos regexTest patternError ModeratedPhotoSchema.searchQuery
               coll r) = Some l ->
  ~ In p (PhotosRoute.photos l).
Proof.
  intros Hp H Hin. apply listing_page in H. destruct H as [H _].
  destruct (@search_sound _ _ _ _ _ _ H Hin) as [_ Hm].
  apply moderated_query_public_approved in Hm. tauto.
Qed.

(** A direct fetch of a private photo by a requester for whom the
    owner test fails, an anonymous one for instance, is answered 403,
    and the fetch of a missing photo 404. *)
Lemma private_photo_fetch_denied coll requester id p :
  Photo.findById coll id = Some p ->
  Photo.isPublic p = false ->
  (forall u, requester = Some u -> ownerTest u p = false) ->
  PhotosRoute.getPhoto ownerTest coll requester id
  = (Http.Json 403 false "Access denied" None, coll).
Proof.
  intros Hf Hp Hr. unfold PhotosRoute.getPhoto, Photo.canAccess. rewrite Hf, Hp.
  destruct requester as [u|]; simpl; [|reflexivity].
  now rewrite (Hr u eq_refl).
Qed.

Lemma missing_photo_fetch coll requester id :
  Photo.findById coll id = None ->
  Http.status (fst (PhotosRoute.getPhoto ownerTest coll requester id)) = Some 404.
Proof. intros Hf. unfold PhotosRoute.getPhoto. now rewrite Hf. Qed.


(** Against the query of the model without moderation it adds the
    approval test. *)
Lemma countFilter_vs_legacy_query r p :
  Mongo.matches regexTest (PhotosRoute.countFilter r) p =
  Mongo.matches regexTest (PhotoSchema.searchQuery (PhotosRoute.q r) (PhotosRoute.searchOptions r)) p
  && Photo.ApprovalStatus_eqb (Photo.approvalStatus p) Photo.approved.
Proof.
  unfold Mongo.matches, PhotosRoute.countFilter, PhotoSchema.searchQuery. simpl.
  set (rest := forallb _ _).
  destruct (Bool.eqb (Photo.isPublic p) true),
    (Photo.ApprovalStatus_eqb (Photo.approvalStatus p) Photo.approved), rest; reflexivity.
Qed.

End PhotoVisibility.

(** C1. The claim: a photo that is private or pending review is absent
    from GET /api/photos and its direct fetch by a non-owner is answered
    403/404. The code at a pending photo stored with [isPublic = true]:
    the search of the model without moderation lists it, and an
    anonymous GET /api/photos/:id is answered 200 with the photo. *)
Theorem C1_pending_public_photo_is_served patternError ownerTest :
  Photo.approvalStatus pendingPublicPhoto = Photo.pending /\
  Http.data (PhotosRoute.listPhotos JS.includes_ci patternError PhotoSchema.searchQuery
               [pendingPublicPhoto] PhotosRoute.defaultQuery)
  = Some {| PhotosRoute.photos := [pendingPublicPhoto];
            PhotosRoute.pagination :=
              {| PhotosRoute.pg_page := 1; PhotosRoute.pg_limit := 20;
                 PhotosRoute.total := 0; PhotosRoute.pages := 0 |} |} /\
  fst (PhotosRoute.getPhoto ownerTest [pendingPublicPhoto] None 1%nat)
  = Http.Json 200 true EmptyString (Some (Photo.set_views pendingPublicPhoto 1)).
Proof. repeat split. Qed.



(** ** Default portfolios *)
Section DefaultPortfolio.

Lemma length_filter_map {A} (f h : A -> bool) (g : A -> A) (l : list A) :
  (forall x, In x l -> f (g x) = h x) ->
  List.length (filter f (map g l)) = List.length (filter h l).
Proof.
  induction l as [|a l IH]; intros H; simpl; [reflexivity|].
  rewrite (H a (or_introl eq_refl)).
  destruct (h a); simpl; rewrite IH; auto; intros x Hx; apply H; now right.
Qed.

Lemma count_id_NoDup (coll : list Portfolio.doc) p :
  NoDup (map Portfolio._id coll) -> In p coll ->
  List.length (filter (fun x => Nat.eqb (Portfolio._id x) (Portfolio._id p)) coll) = 1%nat.
Proof.
  induction coll as [|a l IH]; simpl; intros Hnd Hin; [tauto|].
  inversion Hnd as [|? ? Hna Hnd']; subst.
  destruct Hin as [->|Hin].
  - rewrite Nat.eqb_refl. simpl. f_equal.
    assert (E : filter (fun x => Nat.eqb (Portfolio._id x) (Portfolio._id p)) l = []).
    { apply List.length_zero_iff_nil.
      destruct (filter _ l) as [|y ys] eqn:F; [reflexivity|].
      assert (Hy : In y (filter (fun x => Nat.eqb (Portfolio._id x) (Portfolio._id p)) l))
        by (rewrite F; now left).
      apply filter_In in Hy. destruct Hy as [Hy1 Hy2].
      apply Nat.eqb_eq in Hy2. exfalso. apply Hna. rewrite <- Hy2.
      now apply in_map. }
    now rewrite E.
  - destruct (Nat.eqb_spec (Portfolio._id a) (Portfolio._id p)) as [E|E].
    + exfalso. apply Hna. rewrite E. now apply in_map.
    + now apply IH.
Qed.

Lemma findById_In (coll : list Portfolio.doc) i p :
  Portfolio.findById coll i = Some p -> In p coll /\ Portfolio._id p = i.
Proof.
  unfold Portfolio.findById. intros H. apply find_some in H.
  destruct H as [H1 H2]. apply Nat.eqb_eq in H2. now split.
Qed.

Lemma same_id_same_doc (coll : list Portfolio.doc) p x :
  NoDup (map Portfolio._id coll) -> In p coll -> In x coll ->
  Portfolio._id x = Portfolio._id p -> x = p.
Proof.
  induction coll as [|a l IH]; simpl; intros Hnd Hp Hx E; [tauto|].
  inversion Hnd as [|? ? Hna Hnd']; subst.
  destruct Hp as [->|Hp], Hx as [->|Hx]; auto.
  - exfalso. apply Hna. rewrite <- E. now apply in_map.
  - exfalso. apply Hna. rewrite E. now apply in_map.
Qed.

Lemma two_in_filter {A} (f : A -> bool) (l : list A) a b :
  (List.length (filter f l) <= 1)%nat -> In a l -> In b l ->
  f a = true -> f b = true -> a = b.
Proof.
  intros Hlen Ha Hb Fa Fb.
  assert (Ia : In a (filter f l)) by (apply filter_In; now split).
  assert (Ib : In b (filter f l)) by (apply filter_In; now split).
  destruct (filter f l) as [|x [|y r]]; simpl in *; try tauto; try lia.
  destruct Ia as [<-|[]], Ib as [<-|[]]. reflexivity.
Qed.

(** [save] after [isDefault] of the stored portfolio [p] was set:
    the owner is left with exactly one default portfolio, and so is
    nobody with more than one. *)
Lemma save_sets_default coll p :
  NoDup (map Portfolio._id coll) -> In p coll -> oneDefault coll ->
  List.length (Portfolio.defaultsOf
                 (Portfolio.save coll p (Portfolio.set_isDefault p true))
                 (Portfolio.user p)) = 1%nat /\
  oneDefault (Portfolio.save coll p (Portfolio.set_isDefault p true)).
Proof.
  intros Hnd Hin Hone.
  assert (K : forall x, In x coll -> Portfolio._id x = Portfolio._id p -> x = p)
    by (intros x Hx E; exact (@same_id_same_doc coll p x Hnd Hin Hx E)).
  assert (Own : List.length (Portfolio.defaultsOf
                 (Portfolio.save coll p (Portfolio.set_isDefault p true))
                 (Portfolio.user p)) = 1%nat).
  { rewrite <- (@count_id_NoDup coll p Hnd Hin).
    unfold Portfolio.save, Portfolio.preSave_default, Portfolio.defaultsOf,
      Portfolio.clearSiblings.
    destruct (Portfolio.isDefault p) eqn:D; simpl; rewrite ?map_map;
      apply length_filter_map; intros x Hx.
    - destruct (Nat.eqb_spec (Portfolio._id x) (Portfolio._id p)) as [E|E]; simpl.
      + now rewrite Nat.eqb_refl.
      + destruct (Nat.eqb (Portfolio.user x) (Portfolio.user p)
                  && Portfolio.isDefault x) eqn:F; [|reflexivity].
        exfalso. apply E. f_equal.
        apply (@two_in_filter _ _ _ x p (Hone (Portfolio.user p)) Hx Hin F).
        now rewrite Nat.eqb_refl, D.
    - destruct (Nat.eqb (Portfolio._id x) (Portfolio._id p)) eqn:E;
        destruct (Nat.eqb (Portfolio.user x) (Portfolio.user p)) eqn:U;
        repeat (progress (simpl; rewrite ?E, ?U, ?Nat.eqb_refl)); reflexivity. }
  split; [exact Own|].
  intros owner. destruct (Nat.eq_dec owner (Portfolio.user p)) as [->|Hne]; [lia|].
  specialize (Hone owner).
  enough (E : List.length (Portfolio.defaultsOf
                 (Portfolio.save coll p (Portfolio.set_isDefault p true)) owner)
              = List.length (Portfolio.defaultsOf coll owner)) by lia.
  unfold Portfolio.save, Portfolio.preSave_default, Portfolio.defaultsOf,
    Portfolio.clearSiblings.
  assert (Up : Nat.eqb (Portfolio.user p) owner = false)
    by (apply Nat.eqb_neq; congruence).
  destruct (Portfolio.isDefault p) eqn:D; simpl; rewrite ?map_map;
    apply length_filter_map; intros x Hx;
    destruct (Nat.eqb (Portfolio._id x) (Portfolio._id p)) eqn:E;
    try (apply Nat.eqb_eq in E; rewrite (K x Hx E) in *);
    destruct (Nat.eqb (Portfolio.user x) (Portfolio.user p)) eqn:U;
    repeat (progress (simpl; rewrite ?E, ?U, ?Up, ?D, ?Nat.eqb_refl));
    try reflexivity.
  apply Nat.eqb_eq in U. rewrite U, Up. reflexivity.
Qed.

(** PUT /api/portfolios/:id/default leaves its owner with exactly one
    default portfolio and every user with at most one. *)
Lemma setDefault_exactly_one coll requester id r coll' :
  NoDup (map Portfolio._id coll) -> oneDefault coll ->
  PortfoliosRoute.setDefault coll requester id = (r, coll') ->
  Http.status r = Some 200 ->
  List.length (Portfolio.defaultsOf coll' (User._id requester)) = 1%nat /\
  oneDefault coll'.
Proof.
  intros Hnd Hone. unfold PortfoliosRoute.setDefault.
  destruct (Portfolio.findById coll id) as [p|] eqn:F.
  2:{ intros H; injection H as <- <-. simpl. congruence. }
  apply findById_In in F. destruct F as [Hin _].
  destruct (Nat.eqb_spec (Portfolio.user p) (User._id requester)) as [U|U]; simpl.
  2:{ intros H; injection H as <- <-. simpl. congruence. }
  intros H _. injection H as _ <-. rewrite <- U.
  now apply save_sets_default.
Qed.

End DefaultPortfolio.

(** C2. The claim: after every write to portfolios (create, PUT
    /api/portfolios/:id, PUT /api/portfolios/:id/default) a user has at
    most one default portfolio. The code at a user with a default
    portfolio and a second one, and the body [{ isDefault: true }] sent
    to PUT /api/portfolios/:id of the second: answered 200, and the user
    has two default portfolios; the same request through PUT
    /api/portfolios/:id/default leaves one. *)
Theorem C2_generic_update_leaves_two_defaults :
  let '(r, coll') :=
    PortfoliosRoute.updatePortfolio [portfolio1; portfolio2] alice 2%nat makeDefault in
  Http.status r = Some 200 /\
  Portfolio.defaultsOf coll' 7%nat
  = [portfolio1; Portfolio.set_isDefault portfolio2 true] /\
  Portfolio.defaultsOf
    (snd (PortfoliosRoute.setDefault [portfolio1; portfolio2] alice 2%nat)) 7%nat
  = [Portfolio.set_isDefault portfolio2 true].
Proof. repeat split. Qed.

(** ** Refresh-token rotation *)
Section Rotation.

Lemma JWT_eqb_refl t : JWT.eqb t t = true.
Proof.
  unfold JWT.eqb. rewrite Nat.eqb_refl, !Z.eqb_refl.
  now destruct (JWT.secret t).
Qed.

Lemma JWT_eqb_iat a b : JWT.iat a <> JWT.iat b -> JWT.eqb a b = false.
Proof.
  intros H. unfold JWT.eqb.
  destruct (Z.eqb_spec (JWT.iat a) (JWT.iat b)); [tauto|].
  now rewrite andb_false_r.
Qed.

Lemma removed_token_absent t l :
  existsb (fun rt => JWT.eqb rt t) (filter (fun rt => negb (JWT.eqb rt t)) l) = false.
Proof.
  induction l as [|a l IH]; simpl; [reflexivity|].
  destruct (JWT.eqb a t) eqn:E; simpl; [exact IH|]. now rewrite E.
Qed.

Lemma User_findById_id coll i u : User.findById coll i = Some u -> User._id u = i.
Proof.
  unfold User.findById. intros H. apply find_some in H.
  now apply Nat.eqb_eq.
Qed.

Lemma User_findById_save coll u v :
  User.findById coll (User._id u) = Some v ->
  User.findById (User.save coll u) (User._id u) = Some u.
Proof.
  unfold User.findById, User.save.
  induction coll as [|a l IH]; simpl; [discriminate|].
  destruct (Nat.eqb (User._id a) (User._id u)) eqn:E; simpl.
  - now rewrite Nat.eqb_refl.
  - rewrite E. exact IH.
Qed.

Lemma verify_id t s now d : JWT.verify t s now = inr d -> d = JWT.id t.
Proof.
  unfold JWT.verify.
  destruct (negb (JWT.Secret_eqb (JWT.secret t) s)); [discriminate|].
  destruct (JWT.exp t <=? now); [discriminate|]. congruence.
Qed.

End Rotation.

(** C3, as amended. When POST /api/auth/refresh accepts a refresh token
    in a later second than the one the token was signed in, it answers
    with a new access/refresh pair, the presented token is no longer
    among the stored tokens of the user while the new one is, and every
    further presentation of the old token fails: with 401 whenever the
    token still verifies, with the verification error otherwise. *)
Theorem C3_refresh_rotates_once coll now presented :
  Http.status (fst (AuthRoute.refresh coll now presented)) = Some 200 ->
  JWT.iat presented <> now ->
  let coll' := snd (AuthRoute.refresh coll now presented) in
  let fresh := JWT.sign (JWT.id presented) JWT.JWT_REFRESH_SECRET JWT.JWT_REFRESH_EXPIRE now in
  Http.data (fst (AuthRoute.refresh coll now presented))
  = Some {| AuthRoute.newToken :=
              JWT.sign (JWT.id presented) JWT.JWT_SECRET JWT.JWT_EXPIRE now;
            AuthRoute.newRefreshToken := fresh |} /\
  fresh <> presented /\
  (exists u, User.findById coll' (JWT.id presented) = Some u /\
             AuthRoute.tokenExists u presented = false /\
             AuthRoute.tokenExists u fresh = true) /\
  forall later,
    Http.succeeded (fst (AuthRoute.refresh coll' later presented)) = false /\
    (forall d, JWT.verify presented JWT.JWT_REFRESH_SECRET later = inr d ->
       AuthRoute.refresh coll' later presented
       = (Http.Json 401 false "Invalid refresh token" None, coll')).
Proof.
  unfold AuthRoute.refresh.
  destruct (JWT.verify presented JWT.JWT_REFRESH_SECRET now) as [e|d] eqn:V;
    [simpl; discriminate|].
  pose proof (verify_id _ _ _ V) as ->.
  destruct (User.findById coll (JWT.id presented)) as [user|] eqn:F;
    [|simpl; discriminate].
  destruct (AuthRoute.tokenExists user presented) eqn:T; [|simpl; discriminate].
  pose proof (User_findById_id _ _ F) as Hid.
  simpl. unfold User.generateAuthToken. rewrite !Hid. intros _ Hiat.
  set (fresh := JWT.sign (JWT.id presented) JWT.JWT_REFRESH_SECRET JWT.JWT_REFRESH_EXPIRE now).
  set (user3 := User.set_refreshTokens _ _).
  assert (Hfresh : JWT.eqb fresh presented = false)
    by (apply JWT_eqb_iat; simpl; congruence).
  assert (Hid3 : User._id user3 = JWT.id presented) by exact Hid.
  assert (F3 : User.findById (User.save coll user3) (JWT.id presented) = Some user3).
  { rewrite <- Hid3. apply User_findById_save with (v := user). now rewrite Hid3. }
  assert (T3 : AuthRoute.tokenExists user3 presented = false).
  { unfold AuthRoute.tokenExists, user3. simpl.
    rewrite existsb_app, removed_token_absent. simpl. now rewrite Hfresh. }
  split; [reflexivity|]. split.
  { intros E. rewrite E in Hfresh. now rewrite JWT_eqb_refl in Hfresh. }
  split.
  { exists user3. repeat split; auto.
    unfold AuthRoute.tokenExists, user3. simpl.
    rewrite existsb_app. simpl. rewrite JWT_eqb_refl. now rewrite orb_true_r. }
  intros later. split.
  - destruct (JWT.verify presented JWT.JWT_REFRESH_SECRET later) as [e|d] eqn:V2;
      [reflexivity|].
    pose proof (verify_id _ _ _ V2) as ->. now rewrite F3, T3.
  - intros d V2. rewrite V2. pose proof (verify_id _ _ _ V2) as ->.
    now rewrite F3, T3.
Qed.

(** The rotation at a token signed at second 1000 and presented at
    second 2000. *)
Lemma C3_refresh_rotates_once_witness :
  Http.succeeded (fst (AuthRoute.refresh (snd (AuthRoute.refresh [bob] 2000 bobToken))
                         2001 bobToken)) = false.
Proof.
  apply (C3_refresh_rotates_once [bob] bobToken (now := 2000)).
  - reflexivity.
  - simpl. lia.
Defined.

(** C3, the claim as stated fails: a token presented in the second it
    was signed in is accepted, the rotation signs the same token again,
    and the second presentation is accepted too. *)
Lemma C3_same_second_token_is_accepted_twice :
  let first := AuthRoute.refresh [bob] 1000 bobToken in
  let second := AuthRoute.refresh (snd first) 1001 bobToken in
  Http.status (fst first) = Some 200 /\
  option_map AuthRoute.newRefreshToken (Http.data (fst first)) = Some bobToken /\
  Http.status (fst second) = Some 200.
Proof. repeat split. Qed.

(** ** Registration *)
Section Registration.

(** A registration whose email or username is taken is answered 400
    with a message that names the duplicate, and nothing is stored. *)
Lemma register_conflict db now b u :
  In u (AuthRoute.users db) ->
  User.email u = AuthRoute.email b \/ User.username u = AuthRoute.username b ->
  exists msg,
    AuthRoute.register db now b = (Http.Json 400 false msg None, db) /\
    (msg = "Email already exists" \/ msg = "Username already exists")%string.
Proof.
  intros Hin Hdup. unfold AuthRoute.register.
  destruct (AuthRoute.findExisting (AuthRoute.users db) b) as [e|] eqn:F.
  - eexists. split; [reflexivity|].
    destruct (String.eqb (User.email e) (AuthRoute.email b)); auto.
  - exfalso. unfold AuthRoute.findExisting in F.
    apply (find_none _ _ F) in Hin.
    apply orb_false_iff in Hin. destruct Hin as [E1 E2].
    apply String.eqb_neq in E1. apply String.eqb_neq in E2. tauto.
Qed.

(** [userSchema] declares no [portfolios] path. *)
Lemma portfolios_undeclared : User.array_path "portfolios" = None.
Proof. reflexivity. Qed.

(** A registration with a fresh email and username is never answered
    201: the handler throws before it signs the tokens. *)
Lemma register_fresh_throws db now b :
  AuthRoute.findExisting (AuthRoute.users db) b = None ->
  exists e, fst (AuthRoute.register db now b) = Http.Next e.
Proof.
  intros F. unfold AuthRoute.register. rewrite F.
  destruct (Portfolio.create _ _ _) as [[e|] portfolios1]; simpl; eexists; reflexivity.
Qed.

End Registration.

(** C4. The claim: a registration with a fresh email and username
    succeeds with 201 and leaves the user with exactly one portfolio,
    the default one. The code at the first registration on an empty
    database: the user and the default portfolio are stored, then
    [user.portfolios.push] throws a TypeError, which is forwarded to the
    error middleware; no 201 and no tokens are sent. *)
Theorem C4_fresh_registration_throws :
  let '(r, db) := AuthRoute.register emptyDb 1000 carol in
  r = Http.Next (JS.TypeError "Cannot read properties of undefined (reading 'push')") /\
  map User.username (AuthRoute.users db) = ["carol"%string] /\
  map User.refreshTokens (AuthRoute.users db) = [[]] /\
  map (fun p => (Portfolio.user p, Portfolio.slug p, Portfolio.isDefault p))
      (AuthRoute.portfolios db) = [(1%nat, "carol-photos"%string, true)].
Proof. repeat split. Qed.

(** ** Super admins *)
Section SuperAdmins.

Abbreviation supers coll := (AdminRoute.countRole coll User.super_admin).

Lemma update_loses_at_most_one coll i f :
  (supers coll <= supers (User.findByIdAndUpdate coll i f) + 1)%nat.
Proof.
  unfold AdminRoute.countRole.
  induction coll as [|a l IH]; simpl; [lia|].
  destruct (Nat.eqb (User._id a) i); simpl.
  - destruct (User.Role_eqb (User.role a) User.super_admin),
      (User.Role_eqb (User.role (f a)) User.super_admin); simpl; lia.
  - destruct (User.Role_eqb (User.role a) User.super_admin); simpl; lia.
Qed.

Lemma update_keeps_supers coll i f :
  (forall x, User.role x = User.super_admin -> User.role (f x) = User.super_admin) ->
  (supers coll <= supers (User.findByIdAndUpdate coll i f))%nat.
Proof.
  intros Hf. unfold AdminRoute.countRole.
  induction coll as [|a l IH]; simpl; [lia|].
  destruct (Nat.eqb (User._id a) i); simpl.
  - destruct (User.role a) eqn:R; simpl;
      try (destruct (User.Role_eqb (User.role (f a)) User.super_admin); simpl; lia).
    rewrite (Hf a R). simpl. lia.
  - destruct (User.Role_eqb (User.role a) User.super_admin); simpl; lia.
Qed.

Lemma delete_keeps_supers coll i :
  match User.findById coll i with
  | Some u => User.role u <> User.super_admin
  | None => True
  end ->
  supers (User.findByIdAndDelete coll i) = supers coll.
Proof.
  unfold AdminRoute.countRole, User.findById.
  induction coll as [|a l IH]; simpl; [reflexivity|].
  destruct (Nat.eqb (User._id a) i); simpl.
  - intros H. destruct (User.role a); simpl; tauto.
  - intros H. destruct (User.Role_eqb (User.role a) User.super_admin); simpl;
      rewrite IH; auto.
Qed.

(** The guarded operations of the admin routes keep a super admin: a
    role update, a status update and a user deletion never bring the
    number of super admins from at least one to zero. *)
Lemma admin_routes_keep_a_super_admin coll photos requester id role isActive :
  (1 <= supers coll)%nat ->
  (1 <= supers (snd (AdminRoute.updateRole coll requester id role)))%nat /\
  (1 <= supers (snd (AdminRoute.updateStatus coll requester id isActive)))%nat /\
  (1 <= supers (snd (fst (AdminRoute.deleteUser coll photos requester id))))%nat.
Proof.
  intros H. repeat split.
  - unfold AdminRoute.updateRole.
    destruct (Middleware.canManageAdmins requester); [exact H|].
    destruct (negb (User.Role_eqb role User.super_admin)) eqn:R; simpl.
    + destruct (Nat.leb_spec (supers coll) 1); simpl; [exact H|].
      destruct (User.findById coll id); simpl; [|exact H].
      pose proof (update_loses_at_most_one coll id (fun x => User.set_role x role)).
      lia.
    + destruct (User.findById coll id); simpl; [|exact H].
      assert (role = User.super_admin) as -> by (destruct role; simpl in R; congruence).
      pose proof (update_keeps_supers coll id (fun x => User.set_role x User.super_admin)
                    (fun _ _ => eq_refl)).
      lia.
  - unfold AdminRoute.updateStatus.
    destruct (Middleware.canManageAdmins requester); [exact H|].
    match goal with |- context [if ?c then _ else _] => destruct c end; [exact H|].
    destruct (User.findById coll id); simpl; [|exact H].
    pose proof (update_keeps_supers coll id (fun x => User.set_isActive x isActive)
                  (fun _ R => R)).
    lia.
  - unfold AdminRoute.deleteUser.
    destruct (Middleware.requireSuperAdmin requester); [exact H|].
    destruct (User.findById coll id) as [u|] eqn:F.
    + destruct (User.Role_eqb (User.role u) User.super_admin) eqn:R; simpl; [exact H|].
      rewrite delete_keeps_supers; [exact H|]. rewrite F.
      intros E. rewrite E in R. discriminate.
    + simpl. rewrite delete_keeps_supers; [exact H|]. now rewrite F.
Qed.

End SuperAdmins.

(** C5. The claim: every operation that would remove the last super
    admin is rejected, DELETE /api/auth/me included. The code at the
    only super admin deleting the own account with the right password:
    answered 200, and no super admin is left; the same deletion through
    DELETE /api/admin/users/:id is refused with 403. *)
Theorem C5_last_super_admin_deletes_itself :
  let '(r, coll) := AuthRoute.deleteMe [root] 1000 (Some rootBearer) "admin123" in
  AdminRoute.countRole [root] User.super_admin = 1%nat /\
  r = Http.Json 200 true "Account deleted successfully" None /\
  AdminRoute.countRole coll User.super_admin = 0%nat /\
  Http.status (fst (fst (AdminRoute.deleteUser [root] [] root 1%nat))) = Some 403.
Proof. repeat split. Qed.

(** ** Upload quota *)

(** C6. A user on the free plan whose photo count has reached 30 is
    rejected by both upload routes with the 403 quota answer, before
    anything is stored; a user on the pro plan never gets a quota
    rejection, whatever the photo count and the request. *)
Theorem C6_upload_quota env run now db requester file files b :
  (User.plan requester = User.free -> 30 <= User.totalPhotos requester ->
   UploadRoute.isQuotaError
     (fst (UploadRoute.uploadPhoto env run now db requester file b)) = true /\
   snd (UploadRoute.uploadPhoto env run now db requester file b) = db /\
   UploadRoute.uploadPhotosGate db requester files b = UploadRoute.quota_rejected 403) /\
  (User.plan requester = User.pro ->
   UploadRoute.isQuotaError
     (fst (UploadRoute.uploadPhoto env run now db requester file b)) = false /\
   forall s, UploadRoute.uploadPhotosGate db requester files b
             <> UploadRoute.quota_rejected s).
Proof.
  split.
  - intros Hplan Hcount.
    unfold UploadRoute.uploadPhoto, UploadRoute.uploadPhotosGate,
      Middleware.checkSubscriptionLimits.
    rewrite Hplan. simpl.
    destruct (Z.leb_spec 30 (User.totalPhotos requester)); [|lia].
    repeat split.
  - intros Hplan.
    unfold UploadRoute.uploadPhoto, UploadRoute.uploadPhotosGate,
      Middleware.checkSubscriptionLimits, User.canUploadPhoto,
      UploadRoute.remainingSlots.
    rewrite Hplan. simpl. split.
    + destruct file as [f|]; [|reflexivity].
      destruct (UploadRoute.portfolioId b) as [pid|]; [|reflexivity].
      destruct (Portfolio.findById (portfolios db) pid) as [pf|]; [|reflexivity].
      destruct (negb (Nat.eqb (Portfolio.user pf) (User._id requester))); [reflexivity|].
      destruct (R2.processAndUploadImage _ _ _ _ _ _ _) as [[e|res] bucket'];
        [reflexivity|].
      destruct (R2.thumbnail res); reflexivity.
    + intros s. destruct files as [|f fs]; [discriminate|].
      destruct (UploadRoute.portfolioId b) as [pid|]; [|discriminate].
      destruct (Portfolio.findById (portfolios db) pid) as [pf|]; [|discriminate].
      destruct (negb (Nat.eqb (Portfolio.user pf) (User._id requester))); discriminate.
Qed.

(** The quota at Erin, on the free plan with 30 photos, and at Dave, on
    the pro plan with 5000. *)
Lemma C6_upload_quota_witness :
  UploadRoute.isQuotaError
    (fst (UploadRoute.uploadPhoto devEnv cleanRun 5000 gallery erin (Some oneFile)
            intoPortfolio1)) = true /\
  UploadRoute.isQuotaError
    (fst (UploadRoute.uploadPhoto devEnv cleanRun 5000 gallery dave (Some oneFile)
            intoPortfolio1)) = false.
Proof.
  split.
  - apply (proj1 (C6_upload_quota devEnv cleanRun 5000 gallery erin (Some oneFile)
                    [oneFile] intoPortfolio1)).
    + reflexivity.
    + simpl. lia.
  - apply (proj2 (C6_upload_quota devEnv cleanRun 5000 gallery dave (Some oneFile)
                    [oneFile] intoPortfolio1)).
    reflexivity.
Defined.

(** ** The image pipeline *)
Section Pipeline.

(** The resize geometry: within the box, never larger than the
    original, never empty. *)
Lemma insideDims_fits maxW maxH w h :
  1 <= maxW -> 1 <= maxH -> 1 <= w -> 1 <= h ->
  let '(w', h') := Sharp.insideDims maxW maxH w h in
  1 <= w' <= maxW /\ 1 <= h' <= maxH /\ w' <= w /\ h' <= h.
Proof.
  intros HW HH Hw Hh. unfold Sharp.insideDims, Sharp.round_div.
  destruct (Z.leb_spec w maxW), (Z.leb_spec h maxH); cbn [andb]; try lia;
    destruct (Z.leb_spec (h * maxW) (w * maxH)); try (exfalso; nia).
  all: try (assert ((2 * (h * maxW) + w) / (2 * w) < maxH + 1)
              by (apply Z.div_lt_upper_bound; nia);
            assert ((2 * (h * maxW) + w) / (2 * w) < h + 1)
              by (apply Z.div_lt_upper_bound; nia); lia).
  all: assert ((2 * (w * maxH) + h) / (2 * h) < maxW + 1)
         by (apply Z.div_lt_upper_bound; nia);
       assert ((2 * (w * maxH) + h) / (2 * h) < w + 1)
         by (apply Z.div_lt_upper_bound; nia); lia.
Qed.

Lemma length_append (s t : string) :
  String.length (s ++ t) = (String.length s + String.length t)%nat.
Proof. induction s as [|c s IH]; simpl; [reflexivity|]. now rewrite IH. Qed.

(** Whenever the pipeline throws, POST /api/upload/photo forwards the
    error and stores no photo and no counter. *)
Lemma upload_error_stores_nothing env run now db requester name buffer b e bucket' :
  R2.processAndUploadImage env (UploadRoute.faults run) (UploadRoute.fileId run)
    (UploadRoute.timestamp run) buffer (UploadRoute.options requester) (bucket db)
  = (inl e, bucket') ->
  let r := UploadRoute.uploadPhoto env run now db requester
             (Some {| UploadRoute.originalname := name; UploadRoute.buffer := buffer |}) b in
  photos (snd r) = photos db /\ users (snd r) = users db /\
  Http.succeeded (fst r) = false.
Proof.
  intros Hp. unfold UploadRoute.uploadPhoto. cbv zeta. cbn [UploadRoute.buffer].
  destruct (Middleware.checkSubscriptionLimits _ _); [repeat split|].
  destruct (UploadRoute.portfolioId b) as [pid|]; [|repeat split].
  destruct (Portfolio.findById (portfolios db) pid); [|repeat split].
  destruct (negb (Nat.eqb _ _)); [repeat split|].
  destruct (negb (User.canUploadPhoto requester)); [repeat split|].
  rewrite Hp. repeat split.
Qed.

(** A failing colour extraction is swallowed: without any other fault
    and without a thumbnail the pipeline succeeds with an empty
    palette. *)
Lemma colour_failure_is_swallowed env f fileId ts buffer o bucket :
  stageFails f o = false -> R2.generateThumbnail o = false ->
  R2.extractColors o = true -> R2.colors_fail f = true ->
  exists res, fst (R2.processAndUploadImage env f fileId ts buffer o bucket) = inr res
              /\ R2.colorPalette res = [].
Proof.
  unfold stageFails, earlyFault, R2.processAndUploadImage, R2.rethrow, R2.bind,
    R2.sharp, R2.uploadToR2, R2.extractDominantColors.
  intros H G C F. rewrite G, C, F in *. simpl in H.
  destruct (R2.metadata_fails f), (R2.resize_fails f), (R2.upload_main_fails f);
    simpl in H; try discriminate.
  simpl. eexists. split; reflexivity.
Qed.

End Pipeline.

(** C7. The claim: the pipeline produces a main image within 2048x2048
    and a 300x300 thumbnail, and the dimensions recorded for the photo
    reflect this. The code at a 4000x3000 upload with the options of the
    upload route: a 2048x1536 main object and a 300x300 thumbnail are
    put in the bucket, then building the result throws on
    [thumbnailBuffer], so the route forwards an error and records no
    photo; and the dimensions the pipeline returns when no thumbnail is
    asked for are 4000x3000, those of the original. *)
Theorem C7_recorded_dimensions_are_the_original :
  let out := R2.processAndUploadImage devEnv R2.noFaults "f1" 1700 landscape4000
               (UploadRoute.options alice) [] in
  let r := UploadRoute.uploadPhoto devEnv cleanRun 5000 gallery alice (Some oneFile)
             intoPortfolio1 in
  fst out = inl (JS.PlainError "Failed to process image: thumbnailBuffer is not defined") /\
  map (fun o => (R2.type o, Sharp.width (R2.body o), Sharp.height (R2.body o))) (snd out)
  = [("main"%string, 2048, 1536); ("thumbnail"%string, 300, 300)] /\
  fst r = Http.Next (JS.PlainError "Failed to process image: thumbnailBuffer is not defined") /\
  photos (snd r) = photos gallery /\
  option_map (fun res => (R2.i_width (R2.mainImage res), R2.i_height (R2.mainImage res)))
    (match fst (R2.processAndUploadImage devEnv R2.noFaults "f1" 1700 landscape4000
                  withoutThumbnail []) with
     | inr res => Some res
     | inl _ => None
     end) = Some (4000, 3000).
Proof. repeat split. Qed.

(** C8, as amended. When reading the metadata, the main resize, the main
    upload, or, with thumbnails on, the thumbnail resize or upload
    fails, [processAndUploadImage] throws "Failed to process image: ..."
    and POST /api/upload/photo stores no photo and no counter and
    forwards the error. A fault before the first upload leaves the
    bucket as it was; after it, the main object stays in the bucket. A
    failing colour extraction does not abort: with no other fault and
    no thumbnail asked for, the result is returned with an empty
    palette. *)
Theorem C8_failed_stage_aborts env f fileId ts buffer o stored :
  let out := R2.processAndUploadImage env f fileId ts buffer o stored in
  (stageFails f o = true ->
   (exists msg, fst out = inl (JS.PlainError ("Failed to process image: " ++ msg))) /\
   (earlyFault f = true -> snd out = stored) /\
   (earlyFault f = false -> In (mainObject env fileId ts buffer o) (snd out)) /\
   (forall now db requester name b,
      o = UploadRoute.options requester -> stored = bucket db ->
      let r := UploadRoute.uploadPhoto env
                 {| UploadRoute.faults := f; UploadRoute.fileId := fileId;
                    UploadRoute.timestamp := ts |} now db requester
                 (Some {| UploadRoute.originalname := name;
                          UploadRoute.buffer := buffer |}) b in
      photos (snd r) = photos db /\ users (snd r) = users db /\
      Http.succeeded (fst r) = false)) /\
  (stageFails f o = false -> R2.generateThumbnail o = false ->
   R2.extractColors o = true -> R2.colors_fail f = true ->
   exists res, fst out = inr res /\ R2.colorPalette res = []).
Proof.
  intros out. split; [|now apply colour_failure_is_swallowed].
  intros H.
  assert (E : exists msg,
             fst out = inl (JS.PlainError ("Failed to process image: " ++ msg))).
  { unfold out, stageFails, earlyFault, R2.processAndUploadImage, R2.rethrow, R2.bind,
      R2.sharp, R2.uploadToR2 in *.
    destruct (R2.metadata_fails f); simpl; [eexists; reflexivity|].
    destruct (R2.resize_fails f); simpl; [eexists; reflexivity|].
    destruct (R2.upload_main_fails f); simpl; [eexists; reflexivity|].
    simpl in H. destruct (R2.generateThumbnail o); simpl in *; [|discriminate].
    destruct (R2.thumbnail_fails f); simpl; [eexists; reflexivity|].
    destruct (R2.upload_thumbnail_fails f); simpl; [eexists; reflexivity|].
    discriminate. }
  split; [exact E|]. split; [|split].
  - unfold out, earlyFault, R2.processAndUploadImage, R2.rethrow, R2.bind,
      R2.sharp, R2.uploadToR2.
    destruct (R2.metadata_fails f); simpl; [reflexivity|].
    destruct (R2.resize_fails f); simpl; [reflexivity|].
    destruct (R2.upload_main_fails f); simpl; [reflexivity|discriminate].
  - unfold out, earlyFault, R2.processAndUploadImage, R2.rethrow, R2.bind,
      R2.sharp, R2.uploadToR2.
    destruct (R2.metadata_fails f); simpl; [discriminate|].
    destruct (R2.resize_fails f); simpl; [discriminate|].
    destruct (R2.upload_main_fails f); simpl; [discriminate|]. intros _.
    destruct (R2.generateThumbnail o); simpl.
    + destruct (R2.thumbnail_fails f); simpl;
        [apply in_or_app; right; now left|].
      destruct (R2.upload_thumbnail_fails f); simpl;
        [apply in_or_app; right; now left|].
      apply in_or_app. left. apply filter_In. split.
      * apply in_or_app. right. now left.
      * unfold mainObject, R2.generateKey. simpl.
        apply negb_true_iff, String.eqb_neq. intros K.
        apply (f_equal String.length) in K.
        repeat (progress (rewrite ?length_append in K; simpl in K)). lia.
    + apply in_or_app. right. now left.
  - intros now db requester name b -> ->.
    destruct E as [msg E]. unfold out in E.
    destruct (R2.processAndUploadImage env f fileId ts buffer
                (UploadRoute.options requester) (bucket db)) as [[e|res] bucket'] eqn:P;
      [|discriminate].
    now apply (@upload_error_stores_nothing env _ now db requester name buffer b e bucket').
Qed.

(** The abort at a failing thumbnail upload, and the swallowed failure
    of the colour extraction when no thumbnail is asked for. *)
Lemma C8_failed_stage_aborts_witness :
  (exists msg,
     fst (R2.processAndUploadImage devEnv thumbnailUploadFails "f1" 1700 landscape4000
            (UploadRoute.options alice) [])
     = inl (JS.PlainError ("Failed to process image: " ++ msg))) /\
  (exists res,
     fst (R2.processAndUploadImage devEnv colorsFail "f1" 1700 landscape4000
            withoutThumbnail []) = inr res /\ R2.colorPalette res = []).
Proof.
  split.
  - apply (proj1 (C8_failed_stage_aborts devEnv thumbnailUploadFails "f1" 1700
                    landscape4000 (UploadRoute.options alice) [])).
    reflexivity.
  - apply (proj2 (C8_failed_stage_aborts devEnv colorsFail "f1" 1700
                    landscape4000 withoutThumbnail []));
      reflexivity.
Defined.

(** C8, the claim as stated fails: after a failing thumbnail upload the
    main object is left in the bucket, and a failing colour extraction
    does not abort the operation. *)
Lemma C8_stray_object_and_swallowed_failure :
  let out := R2.processAndUploadImage devEnv thumbnailUploadFails "f1" 1700
               landscape4000 (UploadRoute.options alice) [] in
  let out' := R2.processAndUploadImage devEnv colorsFail "f1" 1700 landscape4000
                withoutThumbnail [] in
  fst out = inl (JS.PlainError
                   "Failed to process image: Failed to upload to R2: network error") /\
  map R2.key (snd out) = ["dev/photos/7/1700_f1.jpg"%string] /\
  match fst out' with
  | inr res => R2.colorPalette res = []
  | inl _ => False
  end.
Proof. repeat split. Qed.

(** ** The photo counter and the stored objects *)
Section PhotoCounter.

Lemma User_findById_update coll i f :
  (forall x, User._id (f x) = User._id x) ->
  User.findById (User.findByIdAndUpdate coll i f) i = option_map f (User.findById coll i).
Proof.
  intros Hf. unfold User.findById.
  induction coll as [|a l IH]; simpl; [reflexivity|].
  destruct (Nat.eqb (User._id a) i) eqn:E; simpl.
  - now rewrite Hf, E.
  - now rewrite E.
Qed.

(** [Photo.create] adds exactly one to the counter of the owner. *)
Lemma create_increments users photos p u :
  User.findById users (Photo.user p) = Some u ->
  exists u',
    User.findById (fst (PhotoModel.create users photos p)) (Photo.user p) = Some u' /\
    User.totalPhotos u' = User.totalPhotos u + 1 /\
    snd (PhotoModel.create users photos p) = photos ++ [p].
Proof.
  intros F. exists (PhotoModel.inc 1 u). repeat split.
  unfold PhotoModel.create, PhotoModel.runPre. simpl.
  rewrite User_findById_update by reflexivity. now rewrite F.
Qed.

(** DELETE /api/upload/photo/:id by the owner takes exactly one from
    the counter and, when the storage answers, removes the main
    object and the thumbnail. *)
Lemma upload_route_delete db requester id p u :
  Photo.findById (photos db) id = Some p ->
  Photo.user p = User._id requester ->
  User.findById (users db) (Photo.user p) = Some u ->
  let r := UploadRoute.deletePhoto false false db requester id in
  Http.status (fst r) = Some 200 /\
  (exists u', User.findById (users (snd r)) (Photo.user p) = Some u' /\
              User.totalPhotos u' = User.totalPhotos u + -1) /\
  forall o, In o (bucket (snd r)) ->
            R2.key o <> Photo.publicId p /\
            R2.key o <> UploadRoute.replace ".jpg" "_thumb.jpg" (Photo.publicId p).
Proof.
  intros F O U. unfold UploadRoute.deletePhoto. rewrite F, O, Nat.eqb_refl.
  simpl. repeat split.
  - exists (PhotoModel.inc (-1) u). split; [|reflexivity].
    unfold PhotoModel.runPre. simpl.
    rewrite <- O. rewrite User_findById_update by reflexivity. now rewrite U.
  - apply filter_In in H. destruct H as [H _].
    apply filter_In in H. destruct H as [_ H].
    apply negb_true_iff, String.eqb_neq in H. exact H.
  - apply filter_In in H. destruct H as [_ H].
    apply negb_true_iff, String.eqb_neq in H. exact H.
Qed.

(** DELETE /api/photos/:id and DELETE /api/admin/photos/:id touch
    neither the users nor the bucket. *)
Lemma other_deletes_keep_counter_and_objects db requester id :
  users (snd (PhotoDeletion.photosRoute db requester id)) = users db /\
  bucket (snd (PhotoDeletion.photosRoute db requester id)) = bucket db /\
  users (snd (PhotoDeletion.adminRoute db requester id)) = users db /\
  bucket (snd (PhotoDeletion.adminRoute db requester id)) = bucket db.
Proof.
  unfold PhotoDeletion.photosRoute, PhotoDeletion.adminRoute,
    PhotoModel.findByIdAndDelete.
  destruct (Middleware.requireSuperAdmin requester) as [e|];
    destruct (Photo.findById (photos db) id) as [p|];
    try destruct (negb (Nat.eqb (Photo.user p) (User._id requester)));
    repeat split.
Qed.

End PhotoCounter.

(** C9. The claim: every deletion path of a photo takes one from the
    owner's [stats.totalPhotos] and deletes the stored objects. The code
    at Alice's only photo deleted by the super admin through DELETE
    /api/admin/photos/:id: answered 200, the photo is gone, Alice's
    counter is still 1 and both objects are still in the bucket; DELETE
    /api/photos/:id by Alice does the same, while DELETE
    /api/upload/photo/:id brings the counter to 0 and empties the
    bucket. *)
Theorem C9_admin_delete_keeps_counter_and_objects :
  let byAdmin := PhotoDeletion.adminRoute gallery root 1%nat in
  let byOwner := PhotoDeletion.photosRoute gallery alice 1%nat in
  let byUpload := UploadRoute.deletePhoto false false gallery alice 1%nat in
  Http.status (fst byAdmin) = Some 200 /\
  photos (snd byAdmin) = [] /\
  option_map User.totalPhotos (User.findById (users (snd byAdmin)) 7%nat) = Some 1 /\
  bucket (snd byAdmin) = [storedMain; storedThumbnail] /\
  Http.status (fst byOwner) = Some 200 /\
  photos (snd byOwner) = [] /\
  option_map User.totalPhotos (User.findById (users (snd byOwner)) 7%nat) = Some 1 /\
  bucket (snd byOwner) = [storedMain; storedThumbnail] /\
  option_map User.totalPhotos (User.findById (users (snd byUpload)) 7%nat) = Some 0 /\
  bucket (snd byUpload) = [].
Proof. repeat split. Qed.

(** * Further properties of the handlers *)

(** ** Visibility of photos *)

(** X1. A photo with [isPublic = false] is on no page of GET
    /api/photos, with either Photo model, and GET /api/photos/:id
    answers an anonymous visitor 403 and leaves the view counters as
    they are. *)
Theorem X1_private_photo_is_hidden regexTest patternError ownerTest coll r p :
  Photo.findById coll (Photo._id p) = Some p ->
  Photo.isPublic p = false ->
  (forall l,
     Http.data (PhotosRoute.listPhotos regexTest patternError PhotoSchema.searchQuery
                  coll r) = Some l ->
     ~ In p (PhotosRoute.photos l)) /\
  (forall l,
     Http.data (PhotosRoute.listPhotos regexTest patternError
                  ModeratedPhotoSchema.searchQuery coll r)
     = Some l -> ~ In p (PhotosRoute.photos l)) /\
  PhotosRoute.getPhoto ownerTest coll None (Photo._id p)
  = (Http.Json 403 false "Access denied" None, coll).
Proof.
  intros F P. repeat split.
  - intros l H. apply (@private_photo_not_listed regexTest patternError coll r p l P).
    now left.
  - intros l H. apply (@private_photo_not_listed regexTest patternError coll r p l P).
    now right.
  - apply (@private_photo_fetch_denied ownerTest coll None (Photo._id p) p); auto.
    discriminate.
Qed.

Lemma X1_private_photo_is_hidden_witness :
  PhotosRoute.getPhoto neverOwner [pendingPublicPhoto; privatePhoto] None 2%nat
  = (Http.Json 403 false "Access denied" None, [pendingPublicPhoto; privatePhoto]).
Proof.
  apply (@X1_private_photo_is_hidden JS.includes_ci (fun _ => None) neverOwner
           [pendingPublicPhoto; privatePhoto] PhotosRoute.defaultQuery privatePhoto);
    reflexivity.
Defined.

(** X2. GET /api/photos with the Photo model that has the approval
    workflow and a positive limit. Whenever the answer is a page, every
    photo on it is stored, public and approved, and the page holds at
    most [limit] photos. A search text whose pattern raises an error is
    not answered with a page: the error is forwarded. *)
Theorem X2_moderated_listing_is_consistent regexTest patternError coll r :
  0 < PhotosRoute.limit r ->
  (forall l,
     Http.data (PhotosRoute.listPhotos regexTest patternError
                  ModeratedPhotoSchema.searchQuery coll r) = Some l ->
     (forall x, In x (PhotosRoute.photos l) ->
                In x coll /\ Photo.isPublic x = true /\
                Photo.approvalStatus x = Photo.approved) /\
     Z.of_nat (List.length (PhotosRoute.photos l)) <= PhotosRoute.limit r) /\
  (forall pattern e,
     PhotosRoute.q r = Some pattern -> pattern <> EmptyString ->
     patternError pattern = Some e ->
     PhotosRoute.listPhotos regexTest patternError ModeratedPhotoSchema.searchQuery coll r
     = Http.Next e).
Proof.
  intros Hl. split.
  - intros l H. apply listing_page in H. destruct H as [S _]. split.
    + intros x Hx. destruct (@search_sound _ _ _ _ _ _ _ _ S Hx) as [Hin Hm].
      apply moderated_query_public_approved in Hm. tauto.
    + unfold PhotosRoute.search in S.
      destruct (PhotosRoute.thrown patternError (PhotosRoute.q r)); [discriminate|].
      injection S as S. rewrite <- S. unfold Mongo.limit. simpl.
      destruct (Z.eqb_spec (PhotosRoute.limit r) 0); [lia|].
      rewrite length_firstn. lia.
  - intros pattern e Q N E.
    unfold PhotosRoute.listPhotos, PhotosRoute.search, PhotosRoute.thrown.
    rewrite Q. unfold JS.truthy.
    destruct (String.eqb_spec pattern EmptyString); [contradiction|].
    simpl. now rewrite E.
Qed.

Lemma X2_moderated_listing_is_consistent_witness :
  exists l,
    Http.data (PhotosRoute.listPhotos JS.includes_ci (fun _ => None)
                 ModeratedPhotoSchema.searchQuery showcase PhotosRoute.defaultQuery)
    = Some l /\
    PhotosRoute.photos l = [approvedPhoto] /\
    Z.of_nat (List.length (PhotosRoute.photos l)) <= 20.
Proof.
  eexists. split; [reflexivity|]. split; [reflexivity|].
  destruct (@X2_moderated_listing_is_consistent JS.includes_ci (fun _ => None) showcase
              PhotosRoute.defaultQuery) as [K _].
  - simpl. lia.
  - now destruct (K _ eq_refl).
Defined.

(** ** Default portfolios, the other write paths *)

Lemma find_hd_filter {A} (f : A -> bool) (l : list A) :
  find f l = hd_error (filter f l).
Proof.
  induction l as [|a l IH]; simpl; [reflexivity|].
  destruct (f a); [reflexivity|exact IH].
Qed.

Lemma oldest_In coll owner q :
  PortfolioPage.oldest coll owner = Some q -> In q coll /\ Portfolio.user q = owner.
Proof.
  induction coll as [|p l IH]; simpl; [discriminate|].
  destruct (Nat.eqb_spec (Portfolio.user p) owner) as [E|E].
  - destruct (PortfolioPage.oldest l owner) as [q'|].
    + destruct (Portfolio.createdAt q' <? Portfolio.createdAt p); intros H;
        injection H as <-; [destruct (IH eq_refl); auto | auto].
    + intros H; injection H as <-. auto.
  - intros H. destruct (IH H). auto.
Qed.

Lemma clearSiblings_no_portfolio coll owner self :
  filter (fun p => Nat.eqb (Portfolio.user p) owner) coll = [] ->
  Portfolio.clearSiblings coll owner self = coll.
Proof.
  unfold Portfolio.clearSiblings.
  induction coll as [|p l IH]; simpl; [reflexivity|].
  destruct (Nat.eqb (Portfolio.user p) owner); simpl; [discriminate|].
  intros H. now rewrite IH.
Qed.

Lemma defaultsOf_app coll more owner :
  Portfolio.defaultsOf (coll ++ more) owner
  = Portfolio.defaultsOf coll owner ++ Portfolio.defaultsOf more owner.
Proof. apply filter_app. Qed.

Lemma defaultsOf_no_portfolio coll owner :
  filter (fun p => Nat.eqb (Portfolio.user p) owner) coll = [] ->
  Portfolio.defaultsOf coll owner = [].
Proof.
  unfold Portfolio.defaultsOf.
  induction coll as [|p l IH]; simpl; [reflexivity|].
  destruct (Nat.eqb (Portfolio.user p) owner); simpl; [discriminate|exact IH].
Qed.

(** X3. PUT /api/portfolios/:id/default, when it answers 200, leaves its
    requester with exactly one default portfolio and every user with at
    most one. *)
Theorem X3_set_default_leaves_exactly_one coll requester id :
  NoDup (map Portfolio._id coll) -> oneDefault coll ->
  Http.status (fst (PortfoliosRoute.setDefault coll requester id)) = Some 200 ->
  List.length (Portfolio.defaultsOf (snd (PortfoliosRoute.setDefault coll requester id))
                 (User._id requester)) = 1%nat /\
  oneDefault (snd (PortfoliosRoute.setDefault coll requester id)).
Proof.
  intros Hnd Hone Hs.
  destruct (PortfoliosRoute.setDefault coll requester id) as [r coll'] eqn:E.
  now apply (@setDefault_exactly_one coll requester id r coll').
Qed.

Lemma sample_portfolios_oneDefault : oneDefault [portfolio1; portfolio2].
Proof.
  intros owner. unfold Portfolio.defaultsOf.
  cbn [filter portfolio1 portfolio2 Portfolio.user Portfolio.isDefault].
  destruct (Nat.eqb 7 owner); simpl; lia.
Qed.

Lemma sample_portfolios_NoDup : NoDup (map Portfolio._id [portfolio1; portfolio2]).
Proof.
  simpl. constructor; [simpl; intros [H|[]]; discriminate|].
  constructor; [simpl; tauto|constructor].
Qed.

Lemma X3_set_default_leaves_exactly_one_witness :
  List.length (Portfolio.defaultsOf
                 (snd (PortfoliosRoute.setDefault [portfolio1; portfolio2] alice 2%nat))
                 7%nat) = 1%nat.
Proof.
  apply (@X3_set_default_leaves_exactly_one [portfolio1; portfolio2] alice 2%nat).
  - exact sample_portfolios_NoDup.
  - exact sample_portfolios_oneDefault.
  - reflexivity.
Defined.

(** X4. GET /api/portfolios/default, when it answers 200, leaves its
    requester with exactly one default portfolio and every user with at
    most one; asked again, it answers 200 and writes nothing. *)
Theorem X4_get_default_settles coll requester nowMs :
  NoDup (map Portfolio._id coll) -> oneDefault coll ->
  Http.status (fst (PortfolioPage.getDefault coll requester nowMs)) = Some 200 ->
  let coll' := snd (PortfolioPage.getDefault coll requester nowMs) in
  List.length (Portfolio.defaultsOf coll' (User._id requester)) = 1%nat /\
  oneDefault coll' /\
  forall later,
    Http.status (fst (PortfolioPage.getDefault coll' requester later)) = Some 200 /\
    snd (PortfolioPage.getDefault coll' requester later) = coll'.
Proof.
  intros Hnd Hone Hs coll'.
  assert (Main : List.length (Portfolio.defaultsOf coll' (User._id requester)) = 1%nat
                 /\ oneDefault coll').
  { unfold coll' in *. clear coll'. revert Hs. unfold PortfolioPage.getDefault.
    rewrite find_hd_filter. fold (Portfolio.defaultsOf coll (User._id requester)).
    destruct (Portfolio.defaultsOf coll (User._id requester)) as [|d ds] eqn:D; simpl.
    - destruct (filter (fun p => Nat.eqb (Portfolio.user p) (User._id requester)) coll)
        as [|o os] eqn:O.
      + unfold Portfolio.create, Portfolio.preSave_default. simpl.
        destruct (PortfolioPage.validate _); simpl; [|discriminate].
        rewrite (@clearSiblings_no_portfolio coll _ _ O).
        destruct (existsb _ coll); simpl; [discriminate|]. intros _. split.
        * rewrite defaultsOf_app, D. unfold Portfolio.defaultsOf. simpl.
          now rewrite Nat.eqb_refl.
        * intros owner. rewrite defaultsOf_app. specialize (Hone owner).
          unfold Portfolio.defaultsOf at 2. simpl.
          destruct (Nat.eqb_spec (User._id requester) owner) as [<-|Hne]; simpl.
          -- rewrite D. simpl. lia.
          -- rewrite length_app. simpl. lia.
      + destruct (PortfolioPage.oldest coll (User._id requester)) as [q|] eqn:Q; simpl;
          [|discriminate].
        intros _. apply oldest_In in Q. destruct Q as [Qin Qu]. rewrite <- Qu.
        now apply save_sets_default.
    - intros _. split; [|exact Hone].
      specialize (Hone (User._id requester)). rewrite D in *. simpl in *. lia. }
  destruct Main as [One Inv]. repeat split; auto.
  - unfold PortfolioPage.getDefault. rewrite find_hd_filter.
    fold (Portfolio.defaultsOf coll' (User._id requester)).
    destruct (Portfolio.defaultsOf coll' (User._id requester)); [discriminate|reflexivity].
  - unfold PortfolioPage.getDefault. rewrite find_hd_filter.
    fold (Portfolio.defaultsOf coll' (User._id requester)).
    destruct (Portfolio.defaultsOf coll' (User._id requester)); [discriminate|reflexivity].
Qed.

Lemma X4_get_default_settles_witness :
  List.length (Portfolio.defaultsOf
                 (snd (PortfolioPage.getDefault [] alice 1700000000000)) 7%nat) = 1%nat.
Proof.
  apply (@X4_get_default_settles [] alice 1700000000000).
  - constructor.
  - intros owner. simpl. lia.
  - reflexivity.
Defined.

Lemma update_cannot_add_default coll id f owner :
  (forall x, Portfolio.user (f x) = Portfolio.user x) ->
  (forall x, Portfolio.isDefault (f x) = true -> Portfolio.isDefault x = true) ->
  (List.length (Portfolio.defaultsOf (Portfolio.findByIdAndUpdate coll id f) owner)
   <= List.length (Portfolio.defaultsOf coll owner))%nat.
Proof.
  intros Hu Hd. unfold Portfolio.defaultsOf.
  induction coll as [|x l IH]; simpl; [lia|].
  destruct (Nat.eqb (Portfolio._id x) id); simpl.
  - rewrite Hu. destruct (Nat.eqb (Portfolio.user x) owner); simpl; [|lia].
    destruct (Portfolio.isDefault (f x)) eqn:F; simpl.
    + rewrite (Hd x F). simpl. lia.
    + destruct (Portfolio.isDefault x); simpl; lia.
  - destruct (Nat.eqb (Portfolio.user x) owner && Portfolio.isDefault x); simpl; lia.
Qed.

(** X5. PUT /api/portfolios/:id with a body of [title] and [isPublic],
    or with [isDefault: false], keeps the invariant that a user has at
    most one default portfolio; a missing portfolio is answered 404 and
    a portfolio of somebody else 403, and both write nothing. *)
Theorem X5_update_without_default_keeps_invariant coll requester id body :
  oneDefault coll ->
  Portfolio.u_isDefault body <> Some true ->
  oneDefault (snd (PortfoliosRoute.updatePortfolio coll requester id body)) /\
  (Portfolio.findById coll id = None ->
   PortfoliosRoute.updatePortfolio coll requester id body
   = (Http.Json 404 false "Portfolio not found" None, coll)) /\
  (forall p, Portfolio.findById coll id = Some p ->
             Portfolio.user p <> User._id requester ->
             PortfoliosRoute.updatePortfolio coll requester id body
             = (Http.Json 403 false "Not authorized to update this portfolio" None, coll)).
Proof.
  intros Hone Hb. unfold PortfoliosRoute.updatePortfolio. repeat split.
  - destruct (Portfolio.findById coll id) as [p|]; [|exact Hone].
    destruct (negb (Nat.eqb (Portfolio.user p) (User._id requester))); [exact Hone|].
    simpl. intros owner. specialize (Hone owner).
    pose proof (@update_cannot_add_default coll id (Portfolio.apply body) owner) as U.
    assert (U1 : forall x, Portfolio.user (Portfolio.apply body x) = Portfolio.user x)
      by reflexivity.
    assert (U2 : forall x, Portfolio.isDefault (Portfolio.apply body x) = true ->
                           Portfolio.isDefault x = true).
    { intros x. unfold Portfolio.apply. simpl.
      destruct (Portfolio.u_isDefault body) as [[|]|]; congruence. }
    specialize (U U1 U2). lia.
  - intros F. now rewrite F.
  - intros p F O. rewrite F.
    destruct (Nat.eqb_spec (Portfolio.user p) (User._id requester)); [tauto|reflexivity].
Qed.

Lemma X5_update_without_default_keeps_invariant_witness :
  oneDefault (snd (PortfoliosRoute.updatePortfolio [portfolio1; portfolio2] alice 2%nat
                     titleOnly)).
Proof.
  apply (@X5_update_without_default_keeps_invariant [portfolio1; portfolio2] alice 2%nat
           titleOnly).
  - exact sample_portfolios_oneDefault.
  - discriminate.
Defined.

(** ** Administrators *)

(** X6. The three user-management writes of the admin routes (role
    update, status update, user deletion) never leave the collection
    without a super admin, whoever asks and whatever the target. *)
Theorem X6_admin_routes_keep_a_super_admin coll photos requester id role isActive :
  (1 <= AdminRoute.countRole coll User.super_admin)%nat ->
  (1 <= AdminRoute.countRole (snd (AdminRoute.updateRole coll requester id role))
          User.super_admin)%nat /\
  (1 <= AdminRoute.countRole (snd (AdminRoute.updateStatus coll requester id isActive))
          User.super_admin)%nat /\
  (1 <= AdminRoute.countRole (snd (fst (AdminRoute.deleteUser coll photos requester id)))
          User.super_admin)%nat.
Proof. apply admin_routes_keep_a_super_admin. Qed.

Lemma X6_admin_routes_keep_a_super_admin_witness :
  (1 <= AdminRoute.countRole
          (snd (AdminRoute.updateRole [root; bob] root 1%nat User.user))
          User.super_admin)%nat.
Proof.
  apply (@X6_admin_routes_keep_a_super_admin [root; bob] [] root 1%nat User.user false).
  vm_compute. lia.
Defined.

Lemma initializeDatabase_fixpoint coll u :
  In u coll -> User.role u = User.super_admin -> Server.initializeDatabase coll = coll.
Proof.
  intros Hin Hr. unfold Server.initializeDatabase.
  destruct (find _ coll) eqn:F; [reflexivity|].
  apply (find_none _ _ F) in Hin. rewrite Hr in Hin. discriminate.
Qed.

(** X7. The start-up initialisation never changes or removes a stored
    user and adds at most one; with a super admin in the collection it
    writes nothing, and run a second time it writes nothing. *)
Theorem X7_initialization_preserves_users coll :
  (exists added, Server.initializeDatabase coll = coll ++ added /\
                 (List.length added <= 1)%nat) /\
  (forall u, In u coll -> User.role u = User.super_admin ->
             Server.initializeDatabase coll = coll) /\
  Server.initializeDatabase (Server.initializeDatabase coll)
  = Server.initializeDatabase coll.
Proof.
  split; [|split].
  - unfold Server.initializeDatabase. destruct (find _ coll).
    + exists []. rewrite app_nil_r. auto.
    + destruct (Server.taken coll _).
      * exists []. rewrite app_nil_r. auto.
      * eexists. split; [reflexivity|]. simpl. lia.
  - apply initializeDatabase_fixpoint.
  - destruct (find (fun u => User.Role_eqb (User.role u) User.super_admin) coll)
      as [u|] eqn:F.
    + apply find_some in F. destruct F as [Hin Hr].
      assert (E : Server.initializeDatabase coll = coll).
      { apply (@initializeDatabase_fixpoint coll u Hin).
        destruct (User.role u); simpl in Hr; congruence. }
      now rewrite !E.
    + destruct (Server.taken coll (Server.superAdmin (User.fresh_id coll))) eqn:T.
      * assert (E : Server.initializeDatabase coll = coll)
          by (unfold Server.initializeDatabase; now rewrite F, T).
        now rewrite !E.
      * assert (E : Server.initializeDatabase coll
                    = coll ++ [Server.superAdmin (User.fresh_id coll)])
          by (unfold Server.initializeDatabase; now rewrite F, T).
        rewrite E.
        apply (@initializeDatabase_fixpoint _ (Server.superAdmin (User.fresh_id coll)));
          [apply in_or_app; right; left; reflexivity | reflexivity].
Qed.

(** ** Sessions *)

Lemma lower_not_upper c : Session.is_upper (JS.lower c) = false.
Proof. destruct c as [[] [] [] [] [] [] [] []]; reflexivity. Qed.

Lemma toLowerCase_no_upper s : hasUpper (JS.toLowerCase s) = false.
Proof.
  unfold hasUpper. induction s as [|c s IH]; simpl; [reflexivity|].
  rewrite lower_not_upper. exact IH.
Qed.

(** X8. [findByEmailOrUsername] compares both the email and the
    username with the lower-cased identifier: a user whose stored
    username has an upper-case letter is only ever found through the
    email address. *)
Theorem X8_mixed_case_username_is_found_by_email_only coll identifier u :
  Session.findByEmailOrUsername coll identifier = Some u ->
  hasUpper (User.username u) = true ->
  In u coll /\ User.email u = JS.toLowerCase identifier.
Proof.
  unfold Session.findByEmailOrUsername. intros F U.
  apply find_some in F. destruct F as [Hin Hb]. split; [exact Hin|].
  apply orb_true_iff in Hb. destruct Hb as [E|E]; apply String.eqb_eq in E; [exact E|].
  rewrite E, toLowerCase_no_upper in U. discriminate.
Qed.

Lemma X8_mixed_case_username_is_found_by_email_only_witness :
  In zoe [bob; zoe] /\ User.email zoe = JS.toLowerCase "ZOE@Example.com".
Proof.
  apply (@X8_mixed_case_username_is_found_by_email_only [bob; zoe] "ZOE@Example.com" zoe);
    reflexivity.
Defined.

Lemma protect_inr coll now bearer u :
  Middleware.protect coll now bearer = inr u ->
  User.findById coll (User._id u) = Some u /\ User.isActive u = true.
Proof.
  unfold Middleware.protect. destruct bearer as [t|]; [|discriminate].
  destruct (JWT.verify t JWT.JWT_SECRET now) as [e|d]; [discriminate|].
  destruct (User.findById coll d) as [v|] eqn:F; [|discriminate].
  destruct (User.isActive v) eqn:A; simpl; [|discriminate].
  intros H. injection H as <-. rewrite (User_findById_id _ _ F). auto.
Qed.

(** X9. POST /api/auth/logout with a refresh token of the requester
    answers 200 and revokes that token: every later POST
    /api/auth/refresh with it is refused and writes nothing. *)
Theorem X9_logout_revokes_the_refresh_token coll now bearer t requester :
  Middleware.protect coll now bearer = inr requester ->
  JWT.id t = User._id requester ->
  fst (Session.logout coll now bearer (Some t))
  = Http.Json 200 true "Logout successful" None /\
  forall later,
    Http.status (fst (AuthRoute.refresh (snd (Session.logout coll now bearer (Some t)))
                        later t)) <> Some 200 /\
    snd (AuthRoute.refresh (snd (Session.logout coll now bearer (Some t))) later t)
    = snd (Session.logout coll now bearer (Some t)).
Proof.
  intros P I. unfold Session.logout. rewrite P. simpl. split; [reflexivity|].
  intros later. apply protect_inr in P. destruct P as [F _].
  unfold AuthRoute.refresh.
  destruct (JWT.verify t JWT.JWT_REFRESH_SECRET later) as [e|d] eqn:V; simpl;
    [split; [discriminate|reflexivity]|].
  apply verify_id in V. subst d. rewrite I.
  pose proof (@User_findById_save coll (User.removeRefreshToken requester t) requester F) as S.
  simpl in S. rewrite S.
  unfold AuthRoute.tokenExists, User.removeRefreshToken. simpl.
  rewrite removed_token_absent. simpl. split; [discriminate|reflexivity].
Qed.

Lemma X9_logout_revokes_the_refresh_token_witness :
  snd (AuthRoute.refresh
         (snd (Session.logout [bob] 1000 (Some bobBearer) (Some bobToken))) 2000 bobToken)
  = snd (Session.logout [bob] 1000 (Some bobBearer) (Some bobToken)).
Proof.
  apply (@X9_logout_revokes_the_refresh_token [bob] 1000 (Some bobBearer) bobToken bob);
    reflexivity.
Defined.

(** The length of the new password is counted in characters, not in
    bytes: a password of five characters in seven bytes is refused
    whatever else the body holds. A variation selector adds nothing to
    the count. *)
Lemma five_characters_are_refused coll now bearer requester current confirm :
  Middleware.protect coll now bearer = inr requester ->
  String.length fiveCharacters = 7%nat /\
  Session.isLengthCount fiveCharacters = 5%nat /\
  Session.isLengthCount (fiveCharacters ++ Session.VS16) = 5%nat /\
  Session.changePassword coll now bearer
    {| Session.currentPassword := current; Session.newPassword := fiveCharacters;
       Session.confirmPassword := confirm |}
  = (Http.Json 400 false "Validation failed" None, coll).
Proof.
  intros P. repeat split. unfold Session.changePassword, Session.validChange.
  rewrite P. cbn [Session.newPassword Session.currentPassword Session.confirmPassword].
  replace (Nat.leb 6 (Session.isLengthCount fiveCharacters)) with false by reflexivity.
  now rewrite andb_false_r.
Qed.

(** X10. PUT /api/auth/change-password with a valid body, that is a
    current password that is not empty, a new password of at least six
    characters as [isLength] counts them, with a lower-case letter, an
    upper-case letter and a digit before its first line terminator, and
    a confirmation equal to the new password: a wrong current password
    is answered 400 and nothing is written; with the right one the
    answer is 200 and, unless the new password is the very string
    stored in the password field, the stored user then accepts the new
    password. The refresh tokens of the user are left as they were: no
    session is revoked. *)
Theorem X10_change_password coll now bearer b requester :
  Middleware.protect coll now bearer = inr requester ->
  Session.validChange b = true ->
  (User.comparePassword requester (Session.currentPassword b) = false ->
   Session.changePassword coll now bearer b
   = (Http.Json 400 false "Current password is incorrect" None, coll)) /\
  (User.comparePassword requester (Session.currentPassword b) = true ->
   fst (Session.changePassword coll now bearer b)
   = Http.Json 200 true "Password changed successfully" None /\
   exists u',
     User.findById (snd (Session.changePassword coll now bearer b)) (User._id requester)
     = Some u' /\
     User.refreshTokens u' = User.refreshTokens requester /\
     (Session.newPassword b <> User.password requester ->
      User.comparePassword u' (Session.newPassword b) = true)).
Proof.
  intros P V. unfold Session.changePassword. rewrite P, V. simpl.
  apply protect_inr in P. destruct P as [F _]. rewrite F. split.
  - intros C. now rewrite C.
  - intros C. rewrite C. simpl. split; [reflexivity|].
    exists (Session.assignPassword requester (Session.newPassword b)).
    assert (I : User._id (Session.assignPassword requester (Session.newPassword b))
                = User._id requester).
    { unfold Session.assignPassword. now destruct (String.eqb _ _). }
    split; [|split].
    + rewrite <- I at 1. apply User_findById_save with (v := requester). now rewrite I.
    + unfold Session.assignPassword. now destruct (String.eqb _ _).
    + intros N. unfold Session.assignPassword.
      destruct (String.eqb_spec (Session.newPassword b) (User.password requester));
        [contradiction|].
      unfold User.comparePassword, Bcrypt.compare. simpl. apply String.eqb_refl.
Qed.

Lemma X10_change_password_witness :
  fst (Session.changePassword [bob] 1000 (Some bobBearer) bobNewPassword)
  = Http.Json 200 true "Password changed successfully" None.
Proof.
  apply (@X10_change_password [bob] 1000 (Some bobBearer) bobNewPassword bob);
    reflexivity.
Defined.

(** ** Middleware *)

Lemma set_get_same s k w : MiddlewareMore.get s k = Some w -> MiddlewareMore.set s k w = s.
Proof.
  unfold MiddlewareMore.get.
  induction s as [|[k' w'] s IH]; simpl; [discriminate|].
  destruct (String.eqb_spec k' k) as [->|N]; simpl.
  - intros H. injection H as ->. reflexivity.
  - intros H. now rewrite IH.
Qed.

(** X12. The rate limiter keeps its counters in a property of the
    request object: a request that arrives without that property is
    never answered 429 when the maximum is positive, whatever was
    counted before, and is left with a count of 1. When the property
    holds an entry whose window is still open and whose count has
    reached the maximum, the request is answered 429 and the entry is
    left as it was. *)
Theorem X12_rate_limit windowMs max now key :
  0 < max ->
  MiddlewareMore.createRateLimit windowMs max now None key
  = (false, Some [(key, {| MiddlewareMore.count := 1;
                           MiddlewareMore.resetTime := now + windowMs |})]) /\
  forall s w, MiddlewareMore.get s key = Some w ->
              now <= MiddlewareMore.resetTime w ->
              max <= MiddlewareMore.count w ->
              MiddlewareMore.createRateLimit windowMs max now (Some s) key
              = (true, Some s).
Proof.
  intros M. split.
  - unfold MiddlewareMore.createRateLimit. simpl.
    destruct (now + windowMs <? now); simpl;
      (destruct (Z.leb_spec max 0); [lia|reflexivity]).
  - intros s w G R C. unfold MiddlewareMore.createRateLimit. rewrite G.
    destruct (Z.ltb_spec (MiddlewareMore.resetTime w) now); [lia|].
    destruct (Z.leb_spec max (MiddlewareMore.count w)); [|lia].
    now rewrite (set_get_same _ _ G).
Qed.

Lemma X12_rate_limit_witness :
  MiddlewareMore.createRateLimit 60000 5 1000 None "7_/photo"
  = (false, Some [("7_/photo"%string,
                   {| MiddlewareMore.count := 1; MiddlewareMore.resetTime := 61000 |})]).
Proof.
  apply (@X12_rate_limit 60000 5 1000 "7_/photo"). lia.
Defined.

(** ** The photo quota *)

(** X13. The three places that compute the photo quota agree: the
    middleware [checkSubscriptionLimits('photos')] lets a user through
    exactly when [canUploadPhoto] holds, which is exactly when GET
    /api/upload/limits reports a positive number of remaining photos;
    and the remaining slots of the batch upload are that number. *)
Theorem X13_quota_views_agree portfolios u :
  (Middleware.checkSubscriptionLimits Middleware.lt_photos u = None
   <-> User.canUploadPhoto u = true) /\
  (User.canUploadPhoto u = true
   <-> JS.gt (Limits.remainingPhotos (Limits.limits portfolios u)) (JS.Fin 0) = true) /\
  UploadRoute.remainingSlots u = Limits.remainingPhotos (Limits.limits portfolios u).
Proof.
  unfold Middleware.checkSubscriptionLimits, User.canUploadPhoto, UploadRoute.remainingSlots,
    Limits.limits, Limits.remaining, Limits.maxPhotos, Middleware.photoLimit,
    User.planLimits.
  destruct (User.plan u); cbn [Limits.remainingPhotos JS.ge JS.lt JS.gt].
  - repeat split.
    + destruct (Z.leb_spec 30 (User.totalPhotos u)); [discriminate|].
      intros _. apply Z.ltb_lt. lia.
    + intros H. apply Z.ltb_lt in H. destruct (Z.leb_spec 30 (User.totalPhotos u)); [lia|].
      reflexivity.
    + intros H. apply Z.ltb_lt in H. apply Z.ltb_lt. lia.
    + intros H. apply Z.ltb_lt in H. apply Z.ltb_lt. lia.
  - repeat split; auto.
Qed.

(** X14. A batch that passes the checks of POST /api/upload/photos is
    not empty and, for a user of the free plan, fits the quota: the
    photos already counted plus the files of the batch are at most 30. *)
Theorem X14_accepted_batch_fits_the_quota db requester files b :
  UploadRoute.uploadPhotosGate db requester files b = UploadRoute.passed ->
  User.plan requester = User.free ->
  files <> [] /\ User.totalPhotos requester + Z.of_nat (List.length files) <= 30.
Proof.
  unfold UploadRoute.uploadPhotosGate, Middleware.checkSubscriptionLimits,
    UploadRoute.remainingSlots, Middleware.photoLimit.
  intros G F. rewrite F in G. cbn [JS.ge] in G.
  destruct (Z.leb_spec 30 (User.totalPhotos requester)); [discriminate|].
  destruct files as [|f fs]; [discriminate|].
  destruct (UploadRoute.portfolioId b); [|discriminate].
  destruct (Portfolio.findById _ _); [|discriminate].
  destruct (negb _); [discriminate|].
  unfold JS.gt in G. cbn [JS.lt] in G.
  destruct (Z.ltb_spec (Z.max 0 (30 - User.totalPhotos requester))
              (Z.of_nat (List.length (f :: fs)))); [discriminate|].
  split; [discriminate|lia].
Qed.

Lemma X14_accepted_batch_fits_the_quota_witness :
  [oneFile] <> [] /\ User.totalPhotos alice + Z.of_nat (List.length [oneFile]) <= 30.
Proof.
  apply (@X14_accepted_batch_fits_the_quota gallery alice [oneFile] intoPortfolio1);
    reflexivity.
Defined.

(** ** Stored objects and their keys *)

Lemma noDot_app a b : noDot (a ++ b) = noDot a && noDot b.
Proof.
  unfold noDot. induction a as [|c a IH]; simpl; [reflexivity|].
  rewrite IH. now rewrite andb_assoc.
Qed.

Lemma noDot_digits d : noDot (NilEmpty.string_of_uint d) = true.
Proof. unfold noDot. induction d; simpl; auto. Qed.

Lemma noDot_string_of_uint d : noDot (NilZero.string_of_uint d) = true.
Proof.
  unfold NilZero.string_of_uint. destruct d; try reflexivity; apply noDot_digits.
Qed.

Lemma noDot_str_of_id i : noDot (R2.str_of_id i) = true.
Proof. apply noDot_string_of_uint. Qed.

Lemma noDot_str_of_Z z : noDot (R2.str_of_Z z) = true.
Proof.
  unfold R2.str_of_Z, NilZero.string_of_int. destruct (Z.to_int z).
  - apply noDot_string_of_uint.
  - change (noDot ("-" ++ NilZero.string_of_uint d) = true).
    rewrite noDot_app, noDot_string_of_uint. reflexivity.
Qed.

Lemma replace_skips c s :
  Ascii.eqb c "." = false ->
  UploadRoute.replace ".jpg" "_thumb.jpg" (String c s)
  = String c (UploadRoute.replace ".jpg" "_thumb.jpg" s).
Proof.
  intros N. cbn [UploadRoute.replace String.prefix].
  destruct (Ascii.ascii_dec "." c) as [<-|_]; [discriminate|reflexivity].
Qed.

Lemma replace_app a s :
  noDot a = true ->
  UploadRoute.replace ".jpg" "_thumb.jpg" (a ++ s)
  = (a ++ UploadRoute.replace ".jpg" "_thumb.jpg" s)%string.
Proof.
  unfold noDot. induction a as [|c a IH]; [reflexivity|].
  cbn [list_ascii_of_string forallb]. intros H. apply andb_true_iff in H.
  destruct H as [Hc Ha]. change (String c a ++ s)%string with (String c (a ++ s)).
  rewrite replace_skips by (now apply negb_true_iff). now rewrite IH.
Qed.

Lemma eqb_app a s t : String.eqb (a ++ s) (a ++ t) = String.eqb s t.
Proof.
  induction a as [|c a IH]; [reflexivity|]. simpl. now rewrite Ascii.eqb_refl.
Qed.

(** X15. DELETE /api/upload/photo/:id derives the key of the thumbnail
    from the key of the main object with
    [publicId.replace('.jpg', '_thumb.jpg')]. For the objects the
    pipeline stores this is right: when no stage fails and a thumbnail
    is made, the bucket holds the main object and a thumbnail object
    whose key is that replacement of the main key, provided the
    environment prefix, the folder and the file identifier contain no
    dot. *)
Theorem X15_thumbnail_key_follows_the_main_key env f fileId ts buffer o stored :
  stageFails f o = false -> R2.generateThumbnail o = true ->
  noDot (R2.ENVIRONMENT_PREFIX env) = true -> noDot (R2.folder o) = true ->
  noDot fileId = true ->
  let out := snd (R2.processAndUploadImage env f fileId ts buffer o stored) in
  In (mainObject env fileId ts buffer o) out /\
  exists t, In t out /\
            R2.body t = Sharp.resizeCover buffer (R2.thumbnailSize o) /\
            R2.key t = UploadRoute.replace ".jpg" "_thumb.jpg"
                         (R2.key (mainObject env fileId ts buffer o)).
Proof.
  unfold stageFails, earlyFault, R2.processAndUploadImage, R2.rethrow, R2.bind,
    R2.sharp, R2.uploadToR2, mainObject.
  intros H G Np Nf Ni. rewrite G in *.
  destruct (R2.metadata_fails f), (R2.resize_fails f), (R2.upload_main_fails f),
    (R2.thumbnail_fails f), (R2.upload_thumbnail_fails f);
    simpl in H; try discriminate.
  cbn [R2.ret R2.throw fst snd R2.r_key R2.key R2.body]. split.
  - apply in_or_app. left. apply filter_In. split.
    + apply in_or_app. right. left. reflexivity.
    + cbn [R2.key]. unfold R2.generateKey. rewrite !eqb_app. reflexivity.
  - eexists. split; [apply in_or_app; right; left; reflexivity|].
    cbn [R2.key R2.body]. split; [reflexivity|].
    unfold R2.generateKey.
    repeat (rewrite replace_app
             by (assumption || apply noDot_str_of_id || apply noDot_str_of_Z
                 || reflexivity)).
    reflexivity.
Qed.

Lemma X15_thumbnail_key_follows_the_main_key_witness :
  In (mainObject devEnv "f1" 1700 landscape4000 (UploadRoute.options alice))
     (snd (R2.processAndUploadImage devEnv R2.noFaults "f1" 1700 landscape4000
             (UploadRoute.options alice) [])).
Proof.
  apply (@X15_thumbnail_key_follows_the_main_key devEnv R2.noFaults "f1" 1700
           landscape4000 (UploadRoute.options alice) []); reflexivity.
Defined.

(** ** Deleting and counting photos *)

Lemma set_totalPhotos_same u : User.set_totalPhotos u (User.totalPhotos u) = u.
Proof. now destruct u. Qed.

Lemma findByIdAndUpdate_twice coll i f g :
  (forall x, User._id (f x) = User._id x) ->
  User.findByIdAndUpdate (User.findByIdAndUpdate coll i f) i g
  = User.findByIdAndUpdate coll i (fun x => g (f x)).
Proof.
  intros Hf. induction coll as [|x l IH]; simpl; [reflexivity|].
  destruct (Nat.eqb (User._id x) i) eqn:E; simpl.
  - now rewrite Hf, E.
  - now rewrite E, IH.
Qed.

Lemma findByIdAndUpdate_id coll i f :
  (forall x, f x = x) -> User.findByIdAndUpdate coll i f = coll.
Proof.
  intros Hf. induction coll as [|x l IH]; simpl; [reflexivity|].
  destruct (Nat.eqb (User._id x) i); [now rewrite Hf|now rewrite IH].
Qed.

Lemma deleteFirst_fresh photos p :
  (forall x, In x photos -> Photo._id x <> Photo._id p) ->
  PhotoModel.deleteFirst (photos ++ [p]) (Photo._id p) = photos.
Proof.
  induction photos as [|x l IH]; simpl; intros H.
  - now rewrite Nat.eqb_refl.
  - destruct (Nat.eqb_spec (Photo._id x) (Photo._id p)) as [E|_].
    + exfalso. apply (H x); auto.
    + rewrite IH; auto.
Qed.

(** X16. DELETE /api/upload/photo/:id. A requester who does not own the
    photo is answered 403 and nothing changes, whatever the storage
    does. For the owner the answer is 200, the photo's document is
    removed and the owner's photo counter goes down by one in each of
    the three storage outcomes. When the first storage call throws, the
    second is not made and the bucket is left as it was. When the first
    call succeeds, no object is left under the photo's key; if the
    second call then throws, the bucket is the old one without the
    objects under the photo's key, so an object stored under the
    thumbnail key (and not under the photo's key) is left behind; if the
    second call succeeds too, no object is left under the thumbnail key
    either. *)
Theorem X16_upload_route_delete db requester id p u :
  Photo.findById (photos db) id = Some p ->
  User.findById (users db) (Photo.user p) = Some u ->
  (Photo.user p <> User._id requester ->
   forall main_fails thumbnail_fails,
     UploadRoute.deletePhoto main_fails thumbnail_fails db requester id
     = (Http.Json 403 false "Not authorized to delete this photo" None, db)) /\
  (Photo.user p = User._id requester ->
   forall main_fails thumbnail_fails,
     let r := UploadRoute.deletePhoto main_fails thumbnail_fails db requester id in
     let thumbnailKey := UploadRoute.replace ".jpg" "_thumb.jpg" (Photo.publicId p) in
     let withoutMain :=
       filter (fun o => negb (String.eqb (R2.key o) (Photo.publicId p))) (bucket db) in
     Http.status (fst r) = Some 200 /\
     (exists u', User.findById (users (snd r)) (Photo.user p) = Some u' /\
                 User.totalPhotos u' = User.totalPhotos u - 1) /\
     photos (snd r) = PhotoModel.deleteFirst (photos db) (Photo._id p) /\
     (main_fails = true -> bucket (snd r) = bucket db) /\
     (main_fails = false ->
      forall o, In o (bucket (snd r)) -> R2.key o <> Photo.publicId p) /\
     (main_fails = false -> thumbnail_fails = true ->
      bucket (snd r) = withoutMain /\
      forall o, In o (bucket db) -> R2.key o = thumbnailKey ->
                R2.key o <> Photo.publicId p -> In o (bucket (snd r))) /\
     (main_fails = false -> thumbnail_fails = false ->
      bucket (snd r)
      = filter (fun o => negb (String.eqb (R2.key o) thumbnailKey)) withoutMain /\
      forall o, In o (bucket (snd r)) -> R2.key o <> thumbnailKey)).
Proof.
  intros F U. split.
  - intros N main_fails thumbnail_fails. unfold UploadRoute.deletePhoto. rewrite F.
    destruct (Nat.eqb_spec (Photo.user p) (User._id requester)); [contradiction|reflexivity].
  - intros O main_fails thumbnail_fails r thumbnailKey withoutMain.
    assert (K : exists u',
               User.findById (fst (PhotoModel.remove (users db) (photos db) p)) (Photo.user p)
               = Some u' /\ User.totalPhotos u' = User.totalPhotos u - 1).
    { unfold PhotoModel.remove, PhotoModel.runPre. cbn.
      pose proof (@User_findById_update (users db) (Photo.user p) (PhotoModel.inc (-1))
                    (fun _ => eq_refl)) as K.
      rewrite U in K. unfold User.findById in K. rewrite K.
      eexists. split; [reflexivity|]. simpl. lia. }
    assert (P : snd (PhotoModel.remove (users db) (photos db) p)
                = PhotoModel.deleteFirst (photos db) (Photo._id p)) by reflexivity.
    assert (M : forall o, In o withoutMain -> R2.key o <> Photo.publicId p).
    { intros o H. apply filter_In in H. destruct H as [_ H].
      apply negb_true_iff, String.eqb_neq in H. exact H. }
    unfold r, UploadRoute.deletePhoto. rewrite F.
    replace (Nat.eqb (Photo.user p) (User._id requester)) with true
      by (symmetry; apply Nat.eqb_eq; exact O).
    destruct (PhotoModel.remove (users db) (photos db) p) as [users' photos'] eqn:R.
    cbn [fst snd] in K, P.
    destruct main_fails; [|destruct thumbnail_fails];
      cbn [negb R2.bind R2.deleteFromR2 R2.throw users photos bucket fst snd Http.status];
      fold thumbnailKey; fold withoutMain.
    + split; [reflexivity|]. split; [exact K|]. split; [exact P|].
      split; [reflexivity|]. repeat split; discriminate.
    + split; [reflexivity|]. split; [exact K|]. split; [exact P|].
      split; [discriminate|]. split; [intros _; exact M|].
      split; [|discriminate]. intros _ _. split; [reflexivity|].
      intros o I _ N. apply filter_In. split; [exact I|].
      apply negb_true_iff, String.eqb_neq. exact N.
    + split; [reflexivity|]. split; [exact K|]. split; [exact P|].
      split; [discriminate|]. split.
      * intros _ o H. apply filter_In in H. destruct H as [H _]. exact (M o H).
      * split; [discriminate|]. intros _ _. split; [reflexivity|].
        intros o H. apply filter_In in H. destruct H as [_ H].
        apply negb_true_iff, String.eqb_neq in H. exact H.
Qed.

Lemma X16_upload_route_delete_witness :
  Http.status (fst (UploadRoute.deletePhoto false true gallery alice 1%nat)) = Some 200 /\
  In storedThumbnail (bucket (snd (UploadRoute.deletePhoto false true gallery alice 1%nat))).
Proof.
  destruct (@X16_upload_route_delete gallery alice 1%nat pendingPublicPhoto alice
              eq_refl eq_refl) as [_ W].
  destruct (W eq_refl false true) as [S [_ [_ [_ [_ [T _]]]]]].
  destruct (T eq_refl eq_refl) as [_ L].
  split; [exact S|].
  apply L; [right; left; reflexivity|reflexivity|discriminate].
Defined.

(** X17. Creating a photo and removing it again with [photo.remove()]
    restores the state: the users, with the owner's counter, and the
    photos are what they were, when no stored photo had the identifier
    of the new one. *)
Theorem X17_create_then_remove_restores users photos p :
  (forall x, In x photos -> Photo._id x <> Photo._id p) ->
  PhotoModel.remove (fst (PhotoModel.create users photos p))
    (snd (PhotoModel.create users photos p)) p
  = (users, photos).
Proof.
  intros Hfresh. unfold PhotoModel.remove, PhotoModel.create. cbn [fst snd].
  rewrite deleteFirst_fresh by exact Hfresh. f_equal.
  unfold PhotoModel.runPre. cbn.
  rewrite findByIdAndUpdate_twice by reflexivity.
  apply findByIdAndUpdate_id. intros x. unfold PhotoModel.inc.
  destruct x as [i n e pw r a pl t rts ps]. unfold User.set_totalPhotos. cbn.
  replace (t + 1 + -1) with t by lia. reflexivity.
Qed.

Lemma X17_create_then_remove_restores_witness :
  PhotoModel.remove (fst (PhotoModel.create [alice] [] pendingPublicPhoto))
    (snd (PhotoModel.create [alice] [] pendingPublicPhoto)) pendingPublicPhoto
  = ([alice], []).
Proof.
  apply (@X17_create_then_remove_restores [alice] [] pendingPublicPhoto).
  intros x [].
Defined.

Lemma update_at_boundary pre u l f :
  (forall x, In x pre -> User._id x <> User._id u) ->
  User.findByIdAndUpdate (pre ++ u :: l) (User._id u) f = pre ++ f u :: l.
Proof.
  induction pre as [|x pre IH]; simpl; intros H.
  - now rewrite Nat.eqb_refl.
  - destruct (Nat.eqb_spec (User._id x) (User._id u)) as [E|_].
    + exfalso. apply (H x); auto.
    + rewrite IH; auto.
Qed.

Lemma fixAll_users photos l :
  forall pre rs,
    NoDup (map User._id l) ->
    (forall x y, In x pre -> In y l -> User._id x <> User._id y) ->
    fst (fold_left (FixStats.step photos) l (pre ++ l, rs))
    = pre ++ map (recounted photos) l.
Proof.
  induction l as [|u l IH]; intros pre rs Hnd Hdis; [reflexivity|].
  simpl in Hnd. inversion Hnd as [|? ? Hnotin Hnd']; subst.
  cbn [fold_left map].
  assert (S : FixStats.step photos (pre ++ u :: l, rs) u
              = ((pre ++ [recounted photos u]) ++ l,
                 snd (FixStats.step photos (pre ++ u :: l, rs) u))).
  { unfold FixStats.step. cbn [fst snd].
    destruct (Z.eqb_spec (User.totalPhotos u)
                (FixStats.actualPhotoCount photos (User._id u))) as [E|E]; cbn [negb fst snd].
    - unfold recounted. rewrite <- E, set_totalPhotos_same, <- app_assoc. reflexivity.
    - rewrite update_at_boundary by (intros x Hx; apply (Hdis x u); simpl; auto).
      rewrite <- app_assoc. reflexivity. }
  rewrite S, IH; [now rewrite <- app_assoc|exact Hnd'|].
  intros x y Hx Hy. apply in_app_or in Hx. destruct Hx as [Hx|[<-|[]]].
  - apply Hdis; simpl; auto.
  - unfold recounted. simpl. intros E. apply Hnotin. rewrite E. now apply in_map.
Qed.

Lemma fixAll_results photos l :
  forall acc rs,
    List.length (filter FixStats.fixed (snd (fold_left (FixStats.step photos) l (acc, rs))))
    = (List.length (filter FixStats.fixed rs)
       + List.length (filter (drifted photos) l))%nat.
Proof.
  induction l as [|u l IH]; intros acc rs; [simpl; lia|].
  cbn [fold_left]. change (filter (drifted photos) (u :: l))
    with (if drifted photos u then u :: filter (drifted photos) l
          else filter (drifted photos) l).
  unfold FixStats.step at 2. cbn [fst snd]. unfold drifted at 1.
  destruct (negb (Z.eqb _ _)); rewrite IH, filter_app, length_app; simpl; lia.
Qed.

Lemma recounted_settled photos coll :
  filter (drifted photos) (map (recounted photos) coll) = [].
Proof.
  induction coll as [|u l IH]; [reflexivity|]. simpl.
  unfold drifted at 1. unfold recounted at 1 2. simpl. now rewrite Z.eqb_refl.
Qed.

Lemma recounted_twice photos coll :
  map (recounted photos) (map (recounted photos) coll) = map (recounted photos) coll.
Proof. rewrite map_map. apply map_ext. intros u. now destruct u. Qed.

Lemma fixStats_spec coll photos requester :
  NoDup (map User._id coll) ->
  Middleware.requireSuperAdmin requester = None ->
  snd (FixStats.fixStats coll photos requester) = map (recounted photos) coll /\
  exists rep,
    Http.data (fst (FixStats.fixStats coll photos requester)) = Some rep /\
    FixStats.totalUsers rep = Z.of_nat (List.length coll) /\
    FixStats.fixedUsers rep = Z.of_nat (List.length (filter (drifted photos) coll)).
Proof.
  intros Hnd Hr. unfold FixStats.fixStats, FixStats.fixAll. rewrite Hr.
  pose proof (@fixAll_users photos coll [] [] Hnd (fun x y H => False_ind _ H)) as U.
  pose proof (fixAll_results photos coll coll []) as R.
  simpl app in U. destruct (fold_left (FixStats.step photos) coll (coll, [])) as [coll' rs].
  simpl in *. split; [exact U|]. eexists. split; [reflexivity|]. simpl.
  rewrite R. auto.
Qed.

(** X18. POST /api/admin/fix-stats by an active super admin, on users
    with distinct identifiers: afterwards the counter of every user is
    the number of photos stored for that user and nothing else of a
    user has changed; the report counts all users and, as fixed, those
    whose counter differed; a second run fixes nobody and writes
    nothing. *)
Theorem X18_fix_stats_repairs_every_counter coll photos requester :
  NoDup (map User._id coll) ->
  Middleware.requireSuperAdmin requester = None ->
  let out := FixStats.fixStats coll photos requester in
  snd out = map (recounted photos) coll /\
  (forall u, In u (snd out) ->
             User.totalPhotos u = FixStats.actualPhotoCount photos (User._id u)) /\
  (exists rep,
     Http.data (fst out) = Some rep /\
     FixStats.totalUsers rep = Z.of_nat (List.length coll) /\
     FixStats.fixedUsers rep = Z.of_nat (List.length (filter (drifted photos) coll))) /\
  snd (FixStats.fixStats (snd out) photos requester) = snd out /\
  (exists rep,
     Http.data (fst (FixStats.fixStats (snd out) photos requester)) = Some rep /\
     FixStats.fixedUsers rep = 0).
Proof.
  intros Hnd Hr out.
  destruct (@fixStats_spec coll photos requester Hnd Hr) as [S R]. fold out in S, R.
  assert (Hnd' : NoDup (map User._id (snd out))).
  { rewrite S, map_map. exact Hnd. }
  destruct (@fixStats_spec (snd out) photos requester Hnd' Hr) as [S' [rep' [D' [_ F']]]].
  split; [exact S|]. split; [|split; [exact R|split]].
  - intros u Hu. rewrite S in Hu. apply in_map_iff in Hu. destruct Hu as [v [<- _]].
    reflexivity.
  - rewrite S'. rewrite S at 1. rewrite recounted_twice. now rewrite S.
  - exists rep'. split; [exact D'|]. rewrite F'. rewrite S at 1.
    now rewrite recounted_settled.
Qed.

Lemma X18_fix_stats_repairs_every_counter_witness :
  snd (FixStats.fixStats [alice; root] [] root) = map (recounted []) [alice; root].
Proof.
  apply (@X18_fix_stats_repairs_every_counter [alice; root] [] root).
  - simpl. constructor; [simpl; intros [H|[]]; discriminate|].
    constructor; [simpl; tauto|constructor].
  - reflexivity.
Defined.

(** ** The review of photos *)

Lemma Photo_findById_In coll i p :
  Photo.findById coll i = Some p -> In p coll /\ Photo._id p = i.
Proof.
  intros H. apply find_some in H. destruct H as [Hin E].
  apply Nat.eqb_eq in E. auto.
Qed.

Lemma Photo_findById_save coll p v :
  Photo.findById coll (Photo._id p) = Some v ->
  Photo.findById (Photo.save coll p) (Photo._id p) = Some p.
Proof.
  unfold Photo.findById, Photo.save.
  induction coll as [|x l IH]; simpl; [discriminate|].
  destruct (Nat.eqb (Photo._id x) (Photo._id p)) eqn:E; simpl.
  - now rewrite Nat.eqb_refl.
  - now rewrite E.
Qed.

Lemma Photo_save_absent coll p :
  (forall x, In x coll -> Photo._id x <> Photo._id p) -> Photo.save coll p = coll.
Proof.
  unfold Photo.save. induction coll as [|x l IH]; simpl; intros H; [reflexivity|].
  destruct (Nat.eqb_spec (Photo._id x) (Photo._id p)) as [E|_].
  - exfalso. apply (H x); auto.
  - rewrite IH; auto.
Qed.

Lemma review_stored coll id photo s b :
  Photo.findById coll id = Some photo ->
  Photo.findById (Photo.save coll (Moderation.review photo s b)) id
  = Some (Moderation.review photo s b).
Proof.
  intros F. destruct (Photo_findById_In _ _ F) as [_ I]. subst id.
  apply (@Photo_findById_save coll (Moderation.review photo s b) photo). exact F.
Qed.

Lemma canReviewPhotos_403 requester c m :
  MiddlewareMore.canReviewPhotos requester = Some (c, m) -> c = 403.
Proof.
  unfold MiddlewareMore.canReviewPhotos. destruct (negb _); [|discriminate].
  intros H. now injection H as <- _.
Qed.

Lemma approve_ok coll requester id notes :
  Http.status (fst (Moderation.approvePhoto coll requester id notes)) = Some 200 ->
  exists photo,
    Photo.findById coll id = Some photo /\
    Photo.approvalStatus photo = Photo.pending /\
    snd (Moderation.approvePhoto coll requester id notes)
    = Photo.save coll (Moderation.approve photo).
Proof.
  unfold Moderation.approvePhoto.
  destruct (MiddlewareMore.canReviewPhotos requester) as [[c m]|] eqn:C.
  - apply canReviewPhotos_403 in C. simpl. intros H. congruence.
  - destruct (match notes with Some n => _ | None => _ end); [discriminate|].
    destruct (Photo.findById coll id) as [photo|]; [|discriminate].
    destruct (Photo.approvalStatus photo) eqn:A; simpl; try discriminate.
    intros _. exists photo. auto.
Qed.

Lemma reject_ok coll requester id reason notes :
  Http.status (fst (Moderation.rejectPhoto coll requester id reason notes)) = Some 200 ->
  exists photo,
    Photo.findById coll id = Some photo /\
    Photo.approvalStatus photo = Photo.pending /\
    snd (Moderation.rejectPhoto coll requester id reason notes)
    = Photo.save coll (Moderation.reject photo).
Proof.
  unfold Moderation.rejectPhoto.
  destruct (MiddlewareMore.canReviewPhotos requester) as [[c m]|] eqn:C.
  - apply canReviewPhotos_403 in C. simpl. intros H. congruence.
  - destruct (_ || _); [discriminate|].
    destruct (Photo.findById coll id) as [photo|]; [|discriminate].
    destruct (Photo.approvalStatus photo) eqn:A; simpl; try discriminate.
    intros _. exists photo. auto.
Qed.

Lemma reviewed_is_final coll id p :
  Photo.findById coll id = Some p ->
  Photo.approvalStatus p <> Photo.pending ->
  (forall requester notes,
     Http.status (fst (Moderation.approvePhoto coll requester id notes)) <> Some 200 /\
     snd (Moderation.approvePhoto coll requester id notes) = coll) /\
  (forall requester reason notes,
     Http.status (fst (Moderation.rejectPhoto coll requester id reason notes)) <> Some 200 /\
     snd (Moderation.rejectPhoto coll requester id reason notes) = coll).
Proof.
  intros F N. split.
  - intros requester notes. unfold Moderation.approvePhoto.
    destruct (MiddlewareMore.canReviewPhotos requester) as [[c m]|] eqn:C.
    + apply canReviewPhotos_403 in C. simpl. split; [congruence|reflexivity].
    + destruct (match notes with Some n => _ | None => _ end);
        [split; [discriminate|reflexivity]|].
      rewrite F. destruct (Photo.approvalStatus p); simpl;
        [contradiction|split; [discriminate|reflexivity]..].
  - intros requester reason notes. unfold Moderation.rejectPhoto.
    destruct (MiddlewareMore.canReviewPhotos requester) as [[c m]|] eqn:C.
    + apply canReviewPhotos_403 in C. simpl. split; [congruence|reflexivity].
    + destruct (_ || _); [split; [discriminate|reflexivity]|].
      rewrite F. destruct (Photo.approvalStatus p); simpl;
        [contradiction|split; [discriminate|reflexivity]..].
Qed.

(** X19. POST /api/admin/photos/:id/approve and .../reject act on a
    photo that is stored as pending, and on no other. For a stored
    photo whose status is not pending, every approval and every
    rejection, by whoever and with whatever body, is answered with
    another status than 200 and writes nothing: the refusal depends on
    the stored status alone. An approval or rejection that is answered
    200 found the photo pending and stores it as approved or rejected,
    so in the state it returns the next approval or rejection is
    refused and writes nothing. *)
Theorem X19_review_acts_on_pending_only coll id p :
  Photo.findById coll id = Some p ->
  (Photo.approvalStatus p <> Photo.pending ->
   (forall requester notes,
      Http.status (fst (Moderation.approvePhoto coll requester id notes)) <> Some 200 /\
      snd (Moderation.approvePhoto coll requester id notes) = coll) /\
   (forall requester reason notes,
      Http.status (fst (Moderation.rejectPhoto coll requester id reason notes))
      <> Some 200 /\
      snd (Moderation.rejectPhoto coll requester id reason notes) = coll)) /\
  (forall requester notes,
     Http.status (fst (Moderation.approvePhoto coll requester id notes)) = Some 200 ->
     let coll' := snd (Moderation.approvePhoto coll requester id notes) in
     Photo.approvalStatus p = Photo.pending /\
     Photo.findById coll' id = Some (Moderation.approve p) /\
     (forall requester2 notes2,
        Http.status (fst (Moderation.approvePhoto coll' requester2 id notes2))
        <> Some 200 /\
        snd (Moderation.approvePhoto coll' requester2 id notes2) = coll') /\
     (forall requester2 reason2 notes2,
        Http.status (fst (Moderation.rejectPhoto coll' requester2 id reason2 notes2))
        <> Some 200 /\
        snd (Moderation.rejectPhoto coll' requester2 id reason2 notes2) = coll')) /\
  (forall requester reason notes,
     Http.status (fst (Moderation.rejectPhoto coll requester id reason notes)) = Some 200 ->
     let coll' := snd (Moderation.rejectPhoto coll requester id reason notes) in
     Photo.approvalStatus p = Photo.pending /\
     Photo.findById coll' id = Some (Moderation.reject p) /\
     (forall requester2 notes2,
        Http.status (fst (Moderation.approvePhoto coll' requester2 id notes2))
        <> Some 200 /\
        snd (Moderation.approvePhoto coll' requester2 id notes2) = coll') /\
     (forall requester2 reason2 notes2,
        Http.status (fst (Moderation.rejectPhoto coll' requester2 id reason2 notes2))
        <> Some 200 /\
        snd (Moderation.rejectPhoto coll' requester2 id reason2 notes2) = coll')).
Proof.
  intros F. split; [|split].
  - intros N. exact (@reviewed_is_final _ _ _ F N).
  - intros requester notes H coll'.
    destruct (approve_ok _ _ _ _ H) as [photo [F' [A E]]].
    rewrite F in F'. injection F' as <-.
    assert (G : Photo.findById coll' id = Some (Moderation.approve p)).
    { unfold coll'. rewrite E. now apply review_stored. }
    split; [exact A|]. split; [exact G|].
    apply (@reviewed_is_final _ _ _ G). discriminate.
  - intros requester reason notes H coll'.
    destruct (reject_ok _ _ _ _ _ H) as [photo [F' [A E]]].
    rewrite F in F'. injection F' as <-.
    assert (G : Photo.findById coll' id = Some (Moderation.reject p)).
    { unfold coll'. rewrite E. now apply review_stored. }
    split; [exact A|]. split; [exact G|].
    apply (@reviewed_is_final _ _ _ G). discriminate.
Qed.

Lemma X19_review_acts_on_pending_only_witness :
  Photo.findById (snd (Moderation.approvePhoto draftQueue moderator 2%nat None)) 2%nat
  = Some (Moderation.approve privatePhoto) /\
  snd (Moderation.rejectPhoto
         (snd (Moderation.approvePhoto draftQueue moderator 2%nat None))
         moderator 2%nat "blurry" None)
  = snd (Moderation.approvePhoto draftQueue moderator 2%nat None).
Proof.
  destruct (@X19_review_acts_on_pending_only draftQueue 2%nat privatePhoto eq_refl)
    as [_ [W _]].
  destruct (W moderator None eq_refl) as [_ [G [_ R]]].
  split; [exact G|]. exact (proj2 (R moderator "blurry"%string None)).
Defined.

(** X20. A rejection that is answered 200 takes the photo out of the
    public: the stored photo is rejected and not public, the listings
    of GET /api/photos do not contain it, and GET /api/photos/:id
    answers 403 to an anonymous visitor. *)
Theorem X20_rejection_hides_the_photo regexTest patternError ownerTest coll requester id
        reason notes :
  Http.status (fst (Moderation.rejectPhoto coll requester id reason notes)) = Some 200 ->
  let coll' := snd (Moderation.rejectPhoto coll requester id reason notes) in
  exists p',
    Photo.findById coll' id = Some p' /\
    Photo.approvalStatus p' = Photo.rejected /\ Photo.isPublic p' = false /\
    (forall r l,
       Http.data (PhotosRoute.listPhotos regexTest patternError PhotoSchema.searchQuery
                    coll' r) = Some l
       \/ Http.data (PhotosRoute.listPhotos regexTest patternError
                       ModeratedPhotoSchema.searchQuery coll' r) = Some l ->
       ~ In p' (PhotosRoute.photos l)) /\
    PhotosRoute.getPhoto ownerTest coll' None id
    = (Http.Json 403 false "Access denied" None, coll').
Proof.
  intros H coll'. destruct (reject_ok _ _ _ _ _ H) as [photo [F [_ S]]].
  destruct (Photo_findById_In _ _ F) as [_ I].
  assert (F' : Photo.findById coll' id = Some (Moderation.reject photo)).
  { unfold coll'. rewrite S. now apply review_stored. }
  exists (Moderation.reject photo). repeat split; try exact F'.
  - intros r l L. now apply (@private_photo_not_listed regexTest patternError coll' r _ l).
  - apply (@private_photo_fetch_denied ownerTest coll' None id (Moderation.reject photo));
      auto. discriminate.
Qed.

Lemma X20_rejection_hides_the_photo_witness :
  PhotosRoute.getPhoto neverOwner
    (snd (Moderation.rejectPhoto draftQueue moderator 1%nat "blurry" None)) None 1%nat
  = (Http.Json 403 false "Access denied" None,
     snd (Moderation.rejectPhoto draftQueue moderator 1%nat "blurry" None)).
Proof.
  destruct (@X20_rejection_hides_the_photo JS.includes_ci (fun _ => None) neverOwner
              draftQueue moderator 1%nat "blurry" None eq_refl) as [p' [_ [_ [_ [_ G]]]]].
  exact G.
Defined.

(** X21. An approval that is answered 200 publishes the photo whatever
    visibility its owner had chosen: the stored photo is approved and
    public, and GET /api/photos/:id serves it to an anonymous visitor. *)
Theorem X21_approval_publishes_the_photo ownerTest coll requester id notes :
  Http.status (fst (Moderation.approvePhoto coll requester id notes)) = Some 200 ->
  let coll' := snd (Moderation.approvePhoto coll requester id notes) in
  exists p',
    Photo.findById coll' id = Some p' /\
    Photo.approvalStatus p' = Photo.approved /\ Photo.isPublic p' = true /\
    Http.status (fst (PhotosRoute.getPhoto ownerTest coll' None id)) = Some 200.
Proof.
  intros H coll'. destruct (approve_ok _ _ _ _ H) as [photo [F [_ S]]].
  destruct (Photo_findById_In _ _ F) as [_ I].
  assert (F' : Photo.findById coll' id = Some (Moderation.approve photo)).
  { unfold coll'. rewrite S. now apply review_stored. }
  exists (Moderation.approve photo). repeat split; try exact F'.
  unfold PhotosRoute.getPhoto. rewrite F'. reflexivity.
Qed.

Lemma X21_approval_publishes_the_photo_witness :
  Http.status
    (fst (PhotosRoute.getPhoto neverOwner
            (snd (Moderation.approvePhoto draftQueue moderator 2%nat None)) None 2%nat))
  = Some 200.
Proof.
  destruct (@X21_approval_publishes_the_photo neverOwner draftQueue moderator 2%nat None
              eq_refl)
    as [p' [_ [_ [_ G]]]].
  exact G.
Defined.

Lemma pending_count_after_review coll photo p' :
  NoDup (map Photo._id coll) ->
  Photo.findById coll (Photo._id photo) = Some photo ->
  Photo._id p' = Photo._id photo ->
  Moderation.isPending photo = true -> Moderation.isPending p' = false ->
  (List.length (filter Moderation.isPending (Photo.save coll p')) + 1
   = List.length (filter Moderation.isPending coll))%nat.
Proof.
  intros Hnd F I Pp Pn. revert Hnd F.
  induction coll as [|x l IH]; [discriminate|].
  intros Hnd F. inversion Hnd as [|? ? Hnotin Hnd']; subst.
  unfold Photo.findById in F. simpl in F.
  change (Photo.save (x :: l) p')
    with ((if Nat.eqb (Photo._id x) (Photo._id p') then p' else x) :: Photo.save l p').
  rewrite I. destruct (Nat.eqb_spec (Photo._id x) (Photo._id photo)) as [E|E].
  - injection F as ->. rewrite Photo_save_absent.
    + simpl. rewrite Pn, Pp. simpl. lia.
    + intros y Hy Ey. apply Hnotin. rewrite <- I, <- Ey. now apply in_map.
  - specialize (IH Hnd' F). simpl. destruct (Moderation.isPending x); simpl; lia.
Qed.

(** X22. GET /api/admin/photos/pending for an admin: every photo of
    the page is a stored photo awaiting review and the page is never
    longer than the total; and when the stored photos have distinct
    identifiers, an approval or a rejection answered 200 takes exactly
    one photo off the total. *)
Theorem X22_pending_queue coll requester page limit :
  MiddlewareMore.canReviewPhotos requester = None ->
  exists photos total,
    Http.data (Moderation.pendingQueue coll requester page limit) = Some (photos, total) /\
    (forall p, In p photos -> In p coll /\ Photo.approvalStatus p = Photo.pending) /\
    Z.of_nat (List.length photos) <= total /\
    (NoDup (map Photo._id coll) ->
     forall coll' staff id reason notes,
       (Http.status (fst (Moderation.approvePhoto coll staff id notes)) = Some 200 /\
        coll' = snd (Moderation.approvePhoto coll staff id notes)) \/
       (Http.status (fst (Moderation.rejectPhoto coll staff id reason notes)) = Some 200 /\
        coll' = snd (Moderation.rejectPhoto coll staff id reason notes)) ->
       exists photos',
         Http.data (Moderation.pendingQueue coll' requester page limit)
         = Some (photos', total - 1)).
Proof.
  intros C. unfold Moderation.pendingQueue. rewrite C. simpl.
  eexists. eexists. split; [reflexivity|]. split; [|split].
  - intros p Hp. apply limit_In, skip_In in Hp. apply sort_In in Hp.
    apply filter_In in Hp. destruct Hp as [Hin P]. split; [exact Hin|].
    unfold Moderation.isPending in P. destruct (Photo.approvalStatus p); try discriminate.
    reflexivity.
  - apply Nat2Z.inj_le.
    assert (S : forall s (l : list Photo.doc),
               List.length (Mongo.sort s l) = List.length l).
    { intros s l. induction l as [|a l IH]; [reflexivity|]. simpl.
      assert (K : forall l', List.length (Mongo.insert s a l') = S (List.length l')).
      { induction l' as [|b l' IH']; [reflexivity|]. simpl.
        destruct (Mongo.before s a b); simpl; [reflexivity|now rewrite IH']. }
      now rewrite K, IH. }
    rewrite <- (S [(Mongo.by_createdAt, true)] (filter Moderation.isPending coll)).
    unfold Mongo.limit, Mongo.skip.
    destruct (limit =? 0); [|rewrite length_firstn]; rewrite length_skipn; lia.
  - intros Hnd coll' staff id reason notes H.
    eexists. f_equal. f_equal. f_equal.
    assert (K : exists photo s b,
               Photo.findById coll id = Some photo /\
               Photo.approvalStatus photo = Photo.pending /\
               coll' = Photo.save coll (Moderation.review photo s b) /\
               s <> Photo.pending).
    { destruct H as [[H ->]|[H ->]].
      - destruct (approve_ok _ _ _ _ H) as [photo [F [A S]]].
        exists photo, Photo.approved, true. repeat split; auto. discriminate.
      - destruct (reject_ok _ _ _ _ _ H) as [photo [F [A S]]].
        exists photo, Photo.rejected, false. repeat split; auto. discriminate. }
    destruct K as [photo [s [b [F [A [-> N]]]]]].
    destruct (Photo_findById_In _ _ F) as [_ I]. subst id.
    pose proof (@pending_count_after_review coll photo (Moderation.review photo s b)
                  Hnd F eq_refl) as K.
    unfold Moderation.isPending at 1 2 in K. rewrite A in K. simpl in K.
    assert (Ps : Photo.ApprovalStatus_eqb s Photo.pending = false)
      by (destruct s; [contradiction|reflexivity..]).
    specialize (K eq_refl Ps). lia.
Qed.

Lemma X22_pending_queue_witness :
  exists photos total,
    Http.data (Moderation.pendingQueue draftQueue moderator 1 20) = Some (photos, total) /\
    total = 2.
Proof.
  destruct (@X22_pending_queue draftQueue moderator 1 20 eq_refl)
    as [photos [total [D _]]].
  exists photos, total. split; [exact D|].
  vm_compute in D. injection D as _ <-. reflexivity.
Defined.

(** ** The portfolio page *)



Lemma page_sort_length order l :
  List.length (PortfolioPage.sort order l) = List.length l.
Proof.
  unfold PortfolioPage.sort. induction l as [|a l IH]; [reflexivity|]. simpl.
  rewrite <- IH. generalize (fold_right (PortfolioPage.insert order) [] l).
  intros l'. induction l' as [|b l' IH']; [reflexivity|]. simpl.
  destruct (PortfolioPage.before order a b); simpl; [reflexivity|now rewrite IH'].
Qed.



(** ** The user listing of the administrators *)









(** ** Deactivation and deletion of users *)

(** X25. A deactivation through PUT /api/admin/users/:id/status that is
    answered 200 locks the user out of every protected route: whatever
    access token of that user is presented afterwards, [protect]
    answers 401 and [optionalAuth] attaches nobody. The stored refresh
    tokens are not touched, and POST /api/auth/refresh, which does not
    look at [isActive], still accepts them. *)
Theorem X25_deactivation_locks_out coll requester id :
  Http.status (fst (AdminRoute.updateStatus coll requester id false)) = Some 200 ->
  let coll' := snd (AdminRoute.updateStatus coll requester id false) in
  (forall now t,
     JWT.id t = id ->
     (exists r, Middleware.protect coll' now (Some t) = inl r /\
                Http.status r = Some 401) /\
     MiddlewareMore.optionalAuth coll' now (Some t) = None) /\
  (forall u now t,
     User.findById coll id = Some u ->
     AuthRoute.tokenExists u t = true ->
     JWT.verify t JWT.JWT_REFRESH_SECRET now = inr id ->
     Http.status (fst (AuthRoute.refresh coll' now t)) = Some 200).
Proof.
  intros H coll'.
  assert (K : exists u, User.findById coll id = Some u /\
                        coll' = User.findByIdAndUpdate coll id
                                  (fun x => User.set_isActive x false)).
  { unfold coll'. revert H. unfold AdminRoute.updateStatus.
    destruct (Middleware.canManageAdmins requester) as [[c m]|] eqn:C.
    - unfold Middleware.canManageAdmins in C. destruct (negb _); [|discriminate].
      injection C as <- <-. discriminate.
    - destruct (User.findById coll id) as [u|]; [|discriminate].
      cbn [negb andb]. destruct (_ && _); [discriminate|].
      intros _. exists u. auto. }
  destruct K as [u [F E]].
  assert (F' : User.findById coll' id = Some (User.set_isActive u false)).
  { rewrite E, User_findById_update by reflexivity. now rewrite F. }
  split.
  - intros now t I. unfold Middleware.protect, MiddlewareMore.optionalAuth.
    destruct (JWT.verify t JWT.JWT_SECRET now) as [e|d] eqn:V.
    + split; [eexists; split; reflexivity|reflexivity].
    + apply verify_id in V. subst d. rewrite I, F'. simpl.
      split; [eexists; split; reflexivity|reflexivity].
  - intros u0 now t F0 T V. rewrite F in F0. injection F0 as <-.
    unfold AuthRoute.refresh. rewrite V, F'.
    unfold AuthRoute.tokenExists in *. simpl. rewrite T. reflexivity.
Qed.

Lemma X25_deactivation_locks_out_witness :
  MiddlewareMore.optionalAuth (snd (AdminRoute.updateStatus [root; bob] root 5%nat false))
    2000 (Some bobBearer) = None.
Proof.
  destruct (@X25_deactivation_locks_out [root; bob] root 5%nat eq_refl) as [K _].
  destruct (K 2000 bobBearer eq_refl) as [_ G]. exact G.
Defined.

Lemma User_delete_absent coll id :
  NoDup (map User._id coll) -> User.findById (User.findByIdAndDelete coll id) id = None.
Proof.
  unfold User.findById. induction coll as [|x l IH]; simpl; [reflexivity|].
  intros Hnd. inversion Hnd as [|? ? Hnotin Hnd']; subst.
  destruct (Nat.eqb_spec (User._id x) id) as [E|E].
  - destruct (find (fun u => Nat.eqb (User._id u) id) l) as [y|] eqn:F; [|reflexivity].
    apply find_some in F. destruct F as [Hin Ey]. apply Nat.eqb_eq in Ey.
    exfalso. apply Hnotin. rewrite E, <- Ey. now apply in_map.
  - simpl. destruct (Nat.eqb_spec (User._id x) id); [contradiction|]. now apply IH.
Qed.

(** X26. DELETE /api/admin/users/:id answered 200: the photos left are
    exactly the photos of the other users, in their order; with
    distinct user identifiers the user is no longer found; and no super
    admin has been removed. A requester who is not an active super
    admin is answered 403 and nothing is deleted. *)
Theorem X26_admin_delete_user coll photos requester id :
  let out := AdminRoute.deleteUser coll photos requester id in
  (Http.status (fst (fst out)) = Some 200 ->
   snd out = filter (fun p => negb (Nat.eqb (Photo.user p) id)) photos /\
   (forall p, In p (snd out) <-> In p photos /\ Photo.user p <> id) /\
   (NoDup (map User._id coll) -> User.findById (snd (fst out)) id = None) /\
   AdminRoute.countRole (snd (fst out)) User.super_admin
   = AdminRoute.countRole coll User.super_admin) /\
  (Middleware.requireSuperAdmin requester <> None ->
   Http.status (fst (fst out)) = Some 403 /\ snd (fst out) = coll /\ snd out = photos).
Proof.
  intros out. unfold out, AdminRoute.deleteUser. split.
  - destruct (Middleware.requireSuperAdmin requester) as [[c m]|] eqn:R.
    { unfold Middleware.requireSuperAdmin in R.
      destruct (negb _); [injection R as <- <-; discriminate|].
      destruct (negb _); [injection R as <- <-; discriminate|discriminate]. }
    assert (P : forall p, In p (filter (fun p => negb (Nat.eqb (Photo.user p) id)) photos)
                          <-> In p photos /\ Photo.user p <> id).
    { intros p. rewrite filter_In, negb_true_iff, Nat.eqb_neq. tauto. }
    destruct (User.findById coll id) as [u|] eqn:F.
    + destruct (User.Role_eqb (User.role u) User.super_admin) eqn:S; [discriminate|].
      intros _. cbn [fst snd]. repeat split; try apply P; try apply User_delete_absent; auto.
      apply delete_keeps_supers. rewrite F. intros E. rewrite E in S. discriminate.
    + intros _. cbn [fst snd]. repeat split; try apply P; try apply User_delete_absent; auto.
      apply delete_keeps_supers. now rewrite F.
  - intros N. destruct (Middleware.requireSuperAdmin requester) as [[c m]|] eqn:R;
      [|contradiction].
    unfold Middleware.requireSuperAdmin in R.
    destruct (negb _); [injection R as <- <-; auto|].
    destruct (negb _); [injection R as <- <-; auto|discriminate].
Qed.

(** ** The upload route *)

Lemma pipeline_with_thumbnail_throws env f fileId ts buffer o stored :
  R2.generateThumbnail o = true ->
  exists e stored',
    R2.processAndUploadImage env f fileId ts buffer o stored = (inl e, stored').
Proof.
  intros G.
  unfold R2.processAndUploadImage, R2.rethrow, R2.bind, R2.sharp, R2.uploadToR2.
  rewrite G.
  destruct (R2.metadata_fails f), (R2.resize_fails f), (R2.upload_main_fails f),
    (R2.thumbnail_fails f), (R2.upload_thumbnail_fails f);
    cbn; eexists; eexists; reflexivity.
Qed.

(** X27. POST /api/upload/photo never records a photo. The route always
    asks the pipeline for a thumbnail, and the pipeline, once the
    thumbnail is uploaded, reads a variable that is out of scope; so
    whatever the request and whichever stage fails or not, the answer
    is not a success and the photos and the users, with their
    counters, are what they were. *)
Theorem X27_upload_never_records_a_photo env run now db requester file b :
  let r := UploadRoute.uploadPhoto env run now db requester file b in
  Http.succeeded (fst r) = false /\ photos (snd r) = photos db /\ users (snd r) = users db.
Proof.
  intros r. destruct file as [[name buffer]|].
  - destruct (@pipeline_with_thumbnail_throws env (UploadRoute.faults run)
                (UploadRoute.fileId run) (UploadRoute.timestamp run) buffer
                (UploadRoute.options requester) (bucket db) eq_refl) as [e [stored' P]].
    destruct (@upload_error_stores_nothing env run now db requester name buffer b e
                stored' P) as [A [B C]].
    fold r in A, B, C. auto.
  - unfold r, UploadRoute.uploadPhoto.
    destruct (Middleware.checkSubscriptionLimits _ _); auto.
Qed.

(** ** The colour palette *)

Lemma bump_keys c l k :
  In k (map fst (R2.bump c l)) <-> k = c \/ In k (map fst l).
Proof.
  induction l as [|[c0 n] l IH]; simpl; [intuition|].
  destruct (String.eqb_spec c0 c) as [->|N]; simpl; [intuition|].
  rewrite IH. intuition.
Qed.

Lemma bump_NoDup c l : NoDup (map fst l) -> NoDup (map fst (R2.bump c l)).
Proof.
  induction l as [|[c0 n] l IH]; simpl; intros H.
  - constructor; [tauto|constructor].
  - inversion H as [|? ? Hnotin H']; subst.
    destruct (String.eqb_spec c0 c) as [->|N]; simpl.
    + now constructor.
    + constructor; [|now apply IH]. rewrite bump_keys. intros [E|E]; [congruence|tauto].
Qed.

Lemma bump_sum c l :
  fold_right Z.add 0 (map snd (R2.bump c l)) = fold_right Z.add 0 (map snd l) + 1.
Proof.
  induction l as [|[c0 n] l IH]; simpl; [reflexivity|].
  destruct (String.eqb c0 c); simpl; lia.
Qed.

Lemma bump_pos c l :
  (forall e, In e l -> 1 <= snd e) -> forall e, In e (R2.bump c l) -> 1 <= snd e.
Proof.
  induction l as [|[c0 n] l IH]; simpl; intros H e He.
  - destruct He as [<-|[]]. simpl. lia.
  - destruct (String.eqb c0 c); simpl in He.
    + destruct He as [<-|He]; [|now apply H; right].
      specialize (H (c0, n) (or_introl eq_refl)). simpl in *. lia.
    + destruct He as [<-|He]; [now apply H; left|].
      apply IH; [|exact He]. intros x Hx. apply H. now right.
Qed.

Lemma histogram_invariant (data : list (Z * Z * Z)) :
  forall init,
    NoDup (map fst init) -> (forall e, In e init -> 1 <= snd e) ->
    let colors := fold_left (fun acc px => R2.bump (R2.rgb px) acc) data init in
    NoDup (map fst colors) /\ (forall e, In e colors -> 1 <= snd e) /\
    fold_right Z.add 0 (map snd colors)
    = fold_right Z.add 0 (map snd init) + Z.of_nat (List.length data).
Proof.
  induction data as [|px data IH]; intros init Hnd Hpos; simpl.
  - repeat split; auto. lia.
  - destruct (IH (R2.bump (R2.rgb px) init) (@bump_NoDup (R2.rgb px) init Hnd)
                (@bump_pos (R2.rgb px) init Hpos))
      as [A [B C]].
    repeat split; auto. rewrite C, bump_sum. lia.
Qed.

Lemma sum_nonneg (l : list (string * Z)) :
  (forall x, In x l -> 1 <= snd x) -> 0 <= fold_right Z.add 0 (map snd l).
Proof.
  induction l as [|y l IH]; simpl; intros H; [lia|].
  assert (1 <= snd y) by (apply H; auto).
  assert (0 <= fold_right Z.add 0 (map snd l)) by (apply IH; intros z Hz; apply H; auto).
  lia.
Qed.

Lemma count_le_sum (l : list (string * Z)) e :
  (forall x, In x l -> 1 <= snd x) -> In e l ->
  snd e <= fold_right Z.add 0 (map snd l).
Proof.
  induction l as [|x l IH]; simpl; intros H He; [contradiction|].
  assert (P : forall z, In z l -> 1 <= snd z) by (intros z Hz; apply H; auto).
  destruct He as [<-|He].
  - pose proof (sum_nonneg l P). lia.
  - assert (1 <= snd x) by (apply H; auto).
    pose proof (IH P He). lia.
Qed.

Lemma insertByCount_perm e l : Permutation (R2.insertByCount e l) (e :: l).
Proof.
  induction l as [|x l IH]; simpl; [reflexivity|].
  destruct (snd x <=? snd e); [reflexivity|].
  rewrite IH. apply perm_swap.
Qed.

Lemma sortByCount_perm l : Permutation (R2.sortByCount l) l.
Proof.
  unfold R2.sortByCount. induction l as [|x l IH]; simpl; [reflexivity|].
  rewrite insertByCount_perm. now constructor.
Qed.

Lemma insertByCount_sorted e l :
  StronglySorted byShare l -> StronglySorted byShare (R2.insertByCount e l).
Proof.
  induction l as [|x l IH]; simpl; intros H.
  - constructor; [constructor|constructor].
  - inversion H as [|? ? Hs Hall]; subst.
    destruct (Z.leb_spec (snd x) (snd e)).
    + constructor; [exact H|]. constructor; [exact H0|].
      rewrite Forall_forall in *. intros y Hy. specialize (Hall y Hy).
      unfold byShare in *. lia.
    + constructor; [now apply IH|].
      rewrite Forall_forall in *. intros y Hy.
      apply (Permutation_in _ (insertByCount_perm e l)) in Hy.
      destruct Hy as [<-|Hy]; [unfold byShare; lia|now apply Hall].
Qed.

Lemma sortByCount_sorted l : StronglySorted byShare (R2.sortByCount l).
Proof.
  unfold R2.sortByCount. induction l as [|x l IH]; simpl; [constructor|].
  now apply insertByCount_sorted.
Qed.

Lemma firstn_sorted {A} (R : A -> A -> Prop) n l :
  StronglySorted R l -> StronglySorted R (firstn n l).
Proof.
  revert l. induction n as [|n IH]; intros l H; [constructor|].
  destruct l as [|x l]; [constructor|]. simpl.
  inversion H as [|? ? Hs Hall]; subst. constructor; [now apply IH|].
  rewrite Forall_forall in *. intros y Hy. apply Hall.
  rewrite <- (firstn_skipn n l). apply in_or_app. now left.
Qed.

Lemma firstn_In {A} n (l : list A) x : In x (firstn n l) -> In x l.
Proof.
  intros H. rewrite <- (firstn_skipn n l). apply in_or_app. now left.
Qed.

Lemma firstn_NoDup {A} n (l : list A) : NoDup l -> NoDup (firstn n l).
Proof.
  intros H. rewrite <- (firstn_skipn n l) in H. now apply NoDup_app_remove_r in H.
Qed.

Lemma round_div_mono a b n : 0 < n -> a <= b -> Sharp.round_div a n <= Sharp.round_div b n.
Proof. intros Hn Hab. unfold Sharp.round_div. apply Z.div_le_mono; lia. Qed.

Lemma share_sorted n l :
  0 < n -> StronglySorted byShare l ->
  StronglySorted byShare (map (fun e => (fst e, Sharp.round_div (snd e * 100) n)) l).
Proof.
  intros Hn S. induction S as [|x l Hs IH Hfa]; [constructor|]. simpl. constructor.
  - exact IH.
  - rewrite Forall_forall in *. intros y Hy. apply in_map_iff in Hy.
    destruct Hy as [z [<- Hz]]. unfold byShare. cbn [snd].
    apply round_div_mono; [exact Hn|].
    specialize (Hfa z Hz). unfold byShare in Hfa. lia.
Qed.

(** X28. The palette of [extractDominantColors] has at most five
    entries with pairwise different colours; its percentages lie
    between 0 and 100 and come from high to low; and a failing
    extraction gives the empty palette. *)
Theorem X28_palette fails buffer :
  let palette := R2.extractDominantColors fails buffer in
  (List.length palette <= 5)%nat /\
  NoDup (map fst palette) /\
  (forall e, In e palette -> 0 <= snd e <= 100) /\
  StronglySorted byShare palette /\
  (fails = true -> palette = []).
Proof.
  intros palette. unfold palette, R2.extractDominantColors.
  destruct fails.
  { simpl. split; [lia|]. split; [constructor|]. split; [intros e []|].
    split; [constructor|reflexivity]. }
  cbv zeta.
  set (data := Sharp.raster buffer).
  set (colors := fold_left (fun acc px => R2.bump (R2.rgb px) acc) data []).
  destruct (@histogram_invariant data [] (NoDup_nil _) (fun e H => False_ind _ H))
    as [Hnd [Hpos Hsum]].
  fold colors in Hnd, Hpos, Hsum. simpl in Hsum.
  assert (Hin : forall e, In e (firstn 5 (R2.sortByCount colors)) -> In e colors).
  { intros e He. apply firstn_In in He.
    now apply (Permutation_in _ (sortByCount_perm colors)). }
  split; [|split; [|split; [|split; [|discriminate]]]].
  - rewrite length_map, length_firstn. lia.
  - rewrite map_map. cbn [fst].
    change (map (fun x : string * Z => fst x) (firstn 5 (R2.sortByCount colors)))
      with (map fst (firstn 5 (R2.sortByCount colors))).
    rewrite <- firstn_map. apply firstn_NoDup.
    apply (Permutation_NoDup (l := map fst colors)); [|exact Hnd].
    apply Permutation_map. symmetry. apply sortByCount_perm.
  - intros e He. apply in_map_iff in He. destruct He as [x [<- Hx]]. cbn [snd].
    apply Hin in Hx. pose proof (Hpos x Hx) as P1.
    pose proof (count_le_sum colors x Hpos Hx) as P2. rewrite Hsum in P2.
    set (n := Z.of_nat (List.length data)) in *.
    unfold Sharp.round_div. split.
    + apply Z.div_pos; lia.
    + assert ((2 * (snd x * 100) + n) / (2 * n) < 101); [|lia].
      apply Z.div_lt_upper_bound; lia.
  - destruct (Z_lt_le_dec 0 (Z.of_nat (List.length data))) as [P|P].
    + apply share_sorted; [exact P|]. apply firstn_sorted, sortByCount_sorted.
    + assert (E : data = []) by (destruct data; [reflexivity|simpl in P; lia]).
      unfold colors. rewrite E. simpl. constructor.
Qed.

(** ** Deletions that leave the photos behind *)

Lemma deleteFirst_defaults coll id owner :
  (List.length (Portfolio.defaultsOf (Cascade.deleteFirst coll id) owner)
   <= List.length (Portfolio.defaultsOf coll owner))%nat.
Proof.
  unfold Portfolio.defaultsOf. induction coll as [|x l IH]; simpl; [lia|].
  destruct (Nat.eqb (Portfolio._id x) id); simpl.
  - destruct (_ && _); simpl; lia.
  - destruct (_ && _); simpl; lia.
Qed.

Lemma deleteFirst_absent coll id :
  NoDup (map Portfolio._id coll) ->
  Portfolio.findById (Cascade.deleteFirst coll id) id = None.
Proof.
  unfold Portfolio.findById. induction coll as [|x l IH]; simpl; [reflexivity|].
  intros Hnd. inversion Hnd as [|? ? Hnotin Hnd']; subst.
  destruct (Nat.eqb_spec (Portfolio._id x) id) as [E|E].
  - destruct (find (fun p => Nat.eqb (Portfolio._id p) id) l) as [y|] eqn:F; [|reflexivity].
    apply find_some in F. destruct F as [Hin Ey]. apply Nat.eqb_eq in Ey.
    exfalso. apply Hnotin. rewrite E, <- Ey. now apply in_map.
  - simpl. destruct (Nat.eqb_spec (Portfolio._id x) id); [contradiction|]. now apply IH.
Qed.

(** X29. DELETE /api/portfolios/:id. A missing portfolio is answered
    404 and a portfolio of somebody else 403, without any change. The
    owner is answered 200; the portfolio is then no longer found (the
    identifiers being distinct) and no user has more default portfolios
    than before. In every case the photos are left as they were, those
    of the deleted portfolio included: the handler calls [deleteOne()],
    and the hook that deletes the photos is registered for 'remove'. *)
Theorem X29_portfolio_delete_keeps_the_photos portfolios photos requester id :
  let out := Cascade.deletePortfolio portfolios photos requester id in
  snd out = photos /\
  (oneDefault portfolios -> oneDefault (snd (fst out))) /\
  (Http.status (fst (fst out)) = Some 200 ->
   NoDup (map Portfolio._id portfolios) ->
   Portfolio.findById (snd (fst out)) id = None) /\
  (Portfolio.findById portfolios id = None ->
   Http.status (fst (fst out)) = Some 404 /\ snd (fst out) = portfolios) /\
  (forall p, Portfolio.findById portfolios id = Some p ->
             Portfolio.user p <> User._id requester ->
             Http.status (fst (fst out)) = Some 403 /\ snd (fst out) = portfolios).
Proof.
  intros out. unfold out, Cascade.deletePortfolio.
  destruct (Portfolio.findById portfolios id) as [p|] eqn:F.
  - destruct (findById_In _ _ F) as [_ I].
    destruct (Nat.eqb_spec (Portfolio.user p) (User._id requester)) as [O|O];
      cbn [negb fst snd Http.status].
    + split; [reflexivity|]. split; [|split; [|split]].
      * intros H owner. specialize (H owner).
        pose proof (deleteFirst_defaults portfolios (Portfolio._id p) owner). lia.
      * intros _ Hnd. rewrite <- I. now apply deleteFirst_absent.
      * discriminate.
      * intros q E. injection E as <-. contradiction.
    + split; [reflexivity|]. split; [auto|]. split; [discriminate|].
      split; [discriminate|]. intros q _ _. auto.
  - cbn [fst snd Http.status]. split; [reflexivity|]. split; [auto|].
    split; [discriminate|]. split; [auto|]. discriminate.
Qed.

(** X30. DELETE /api/auth/me answered 200 removes the user (no longer
    found, the identifiers being distinct) and nothing else: the
    portfolios, the photos and the stored objects of the user stay,
    because the handler calls [deleteOne()] and the hook that deletes
    what the user owns is registered for 'remove'. *)
Theorem X30_account_delete_keeps_what_the_user_owned db now bearer password requester :
  Middleware.protect (users db) now bearer = inr requester ->
  Http.status (fst (Cascade.deleteMe db now bearer password)) = Some 200 ->
  let db' := snd (Cascade.deleteMe db now bearer password) in
  portfolios db' = portfolios db /\ photos db' = photos db /\ bucket db' = bucket db /\
  (NoDup (map User._id (users db)) ->
   User.findById (users db') (User._id requester) = None).
Proof.
  intros P. unfold Cascade.deleteMe, AuthRoute.deleteMe. rewrite P.
  destruct (protect_inr _ _ _ P) as [F _]. rewrite F.
  destruct (negb (User.comparePassword requester password)); [discriminate|].
  intros _. cbn. repeat split. intros Hnd. now apply User_delete_absent.
Qed.

Lemma X30_account_delete_keeps_what_the_user_owned_witness :
  photos (snd (Cascade.deleteMe gallery 1000 (Some (User.generateAuthToken alice 1000))
                 "s3cret"))
  = photos gallery.
Proof.
  apply (@X30_account_delete_keeps_what_the_user_owned gallery 1000
           (Some (User.generateAuthToken alice 1000)) "s3cret" alice); reflexivity.
Defined.

(** ** Routes that are never reached *)

Lemma toLowerCase_length s : String.length (JS.toLowerCase s) = String.length s.
Proof. induction s as [|c s IH]; simpl; [reflexivity|now rewrite IH]. Qed.

Ltac route_norm :=
  cbv [Router.dispatch Router.photosRoutes Router.usersRoutes find Router.method
       Router.pattern Router.handler Router.Method_eqb andb Router.matchPath
       option_map].

Ltac settle_route :=
  route_norm;
  repeat (match goal with
          | |- context [String.eqb ?a ?b] => destruct (String.eqb a b); route_norm
          end);
  try discriminate;
  try (let H := fresh in
       intros H; injection H as <- _; first [reflexivity | discriminate]).

(** X11. Two routes are registered behind a parameter route that takes
    their path. No PUT request is dispatched to the handler of PUT
    /api/photos/reorder: its path is taken by PUT /api/photos/:id,
    registered before it, whose identifier check then refuses the
    segment, which is no Mongo id. No GET request is dispatched to the
    handler of GET /api/users/search: its path is taken by GET
    /api/users/:username with the segment as the user name. *)
Theorem X11_shadowed_routes :
  (forall path h params,
     Router.dispatch Router.photosRoutes Router.PUT path = Some (h, params) ->
     h = Router.updatePhoto) /\
  (forall path params,
     Router.matchPath [Router.lit "reorder"] path = Some params ->
     exists id,
       Router.dispatch Router.photosRoutes Router.PUT path
       = Some (Router.updatePhoto, [("id"%string, id)]) /\
       Router.isMongoId id = false) /\
  (forall path h params,
     Router.dispatch Router.usersRoutes Router.GET path = Some (h, params) ->
     h <> Router.searchUsers) /\
  (forall path params,
     Router.matchPath [Router.lit "search"] path = Some params ->
     exists name,
       Router.dispatch Router.usersRoutes Router.GET path
       = Some (Router.getProfile, [("username"%string, name)])).
Proof.
  split; [|split; [|split]].
  - intros path h params. destruct path as [|s [|t path]]; settle_route.
  - intros path params. destruct path as [|s [|t path]]; route_norm; try discriminate.
    + change (JS.toLowerCase "reorder") with "reorder"%string.
      destruct (String.eqb_spec (JS.toLowerCase s) "reorder") as [E|E]; [|discriminate].
      intros _. exists s. split; [reflexivity|].
      unfold Router.isMongoId.
      assert (L : String.length s = 7%nat)
        by (rewrite <- toLowerCase_length, E; reflexivity).
      now rewrite L.
    + destruct (String.eqb _ _); discriminate.
  - intros path h params. destruct path as [|s [|t [|u path]]]; settle_route.
  - intros path params. destruct path as [|s [|t path]]; route_norm; try discriminate.
    + intros _. exists s. reflexivity.
    + destruct (String.eqb _ _); discriminate.
Qed.
